(** * UltraSearch TypeScript examples: the RPC helper and the pagination loop

    A shallow embedding of [examples/typescript/src/index.ts] and of the
    type declarations of [examples/typescript/src/types/search-transactions-req.ts].

    The client is effectful: it posts requests to a remote API, prints to
    the console and throws.  A computation is a function from a state to
    a result (a thrown error or a value), the state afterwards, and the
    events it produced, in order.  The remote API is a parameter: any
    state type [St] with any transition [post]. *)

From Stdlib Require Import ZArith List String Ascii Bool Lia.
Import ListNotations.
Open Scope string_scope.
Open Scope list_scope.
Open Scope Z_scope.
Set Warnings "-register-all".

(** ** JavaScript values, as far as the client looks at them *)

Module Js.

(** A response body is parsed JSON; [JUndefined] is what reading a
    missing property gives.  Numbers matter to the client only through
    their truthiness, so integers stand for them. *)
Inductive JsVal : Type :=
| JUndefined
| JNull
| JBool (b : bool)
| JNum (n : Z)
| JStr (s : string)
| JArr (items : list JsVal)
| JObj (fields : list (string * JsVal)).

(** What a [throw] carries. *)
Inductive JsError : Type :=
| TypeError (what : string)     (* raised by the engine itself *)
| ErrorOf (message : JsVal)     (* [new Error(message)] *)
| AxiosError (reason : string). (* the rejection of [axios.post] *)

Fixpoint own_property (key : string) (fields : list (string * JsVal)) : JsVal :=
  match fields with
  | [] => JUndefined
  | (k, v) :: rest => if String.eqb k key then v else own_property key rest
  end.

(** [v.key].  Reading a property of [undefined] or [null] throws; on a
    string, number, boolean or array none of the keys the client reads
    ([error], [message], [result], [data], [paginationToken]) exists. *)
Definition get (v : JsVal) (key : string) : JsError + JsVal :=
  match v with
  | JUndefined => inl (TypeError "Cannot read properties of undefined")
  | JNull => inl (TypeError "Cannot read properties of null")
  | JObj fields => inr (own_property key fields)
  | _ => inr JUndefined
  end.

(** The test of [if (v)]. *)
Definition truthy (v : JsVal) : bool :=
  match v with
  | JUndefined | JNull => false
  | JBool b => b
  | JNum n => negb (n =? 0)
  | JStr s => negb (String.eqb s "")
  | JArr _ | JObj _ => true
  end.

(** [v !== null]. *)
Definition not_null (v : JsVal) : bool :=
  match v with
  | JNull => false
  | _ => true
  end.

(** [...v] in an argument list: arrays and strings are iterable, a string
    as the sequence of its characters. *)
Definition spread (v : JsVal) : JsError + list JsVal :=
  match v with
  | JArr items => inr items
  | JStr s => inr (map (fun c => JStr (String c EmptyString)) (list_ascii_of_string s))
  | _ => inl (TypeError "Spread syntax requires ...iterable")
  end.

End Js.
Export Js.

(** ** The declarations of [types/search-transactions-req.ts] *)

Inductive TransactionDetails : Type := Signatures | Full.

Inductive SortOrder : Type := ASC | DESC.

Module Req.

(** [interface SearchParams]: every field is optional.  The loop stores
    whatever the API returned in [paginationToken], so the field holds a
    JavaScript value; [JUndefined] is the absent field. *)
Record SearchParams : Type := {
  accountInclude : option (list string);
  accountExclude : option (list string);
  accountRequired : option (list string);
  fromBlock : option Z;
  toBlock : option Z;
  vote : option bool;
  failed : option bool;
  sort : option SortOrder;
  paginationToken : JsVal;
  limit : option Z;
  transactionDetails : option TransactionDetails
}.

(** [params: {}] *)
Definition empty : SearchParams :=
  {| accountInclude := None; accountExclude := None; accountRequired := None;
     fromBlock := None; toBlock := None; vote := None; failed := None;
     sort := None; paginationToken := JUndefined; limit := None;
     transactionDetails := None |}.

End Req.

(** [interface SearchTransactionsRpcRequest]; [jsonrpc] and [method] have
    one-value types (["2.0"], ["searchTransactions"]) and are left out. *)
Record SearchTransactionsRpcRequest : Type := {
  id : Z;
  params : Req.SearchParams
}.

(** A page as [SearchTransactionsResponse.result] declares it. *)
Record ResultPage : Type := {
  records : list JsVal;
  nextCursor : option string
}.

Definition cursor_value (p : ResultPage) : JsVal :=
  match nextCursor p with
  | Some c => JStr c
  | None => JNull
  end.

Definition page_result (p : ResultPage) : JsVal :=
  JObj [("data", JArr (records p)); ("paginationToken", cursor_value p)].

(** [interface SearchTransactionsResponse] *)
Definition success_body (i : Z) (p : ResultPage) : JsVal :=
  JObj [("jsonrpc", JStr "2.0"); ("id", JNum i); ("result", page_result p)].

(** [interface RpcError] *)
Definition error_body (i code : Z) (message : string) : JsVal :=
  JObj [("jsonrpc", JStr "2.0"); ("id", JNum i);
        ("error", JObj [("code", JNum code); ("message", JStr message)])].

(** ** Effects *)

(** How [axios.post] settles: it rejects, or resolves with [response.data]. *)
Inductive AxiosOutcome : Type :=
| Rejected (reason : string)
| Resolved (data : JsVal).

Inductive ConsoleLine : Type :=
| RpcErrorLine (error : JsVal)        (* console.error("RPC Error:", ...) *)
| RequestFailedLine (error : JsError) (* console.error("Request failed:", ...) *)
| Banner                              (* "=== Example 5: Pagination Loop ===" *)
| FetchingPage (n : Z)
| GotTransactions (n : nat)           (* result.data.length *)
| TotalSoFar (n : nat)
| MorePages (more : bool)
| StoppingAfter3Pages
| Completed (total : nat) (pages : Z).

Inductive Event : Type :=
| Post (requestBody : SearchTransactionsRpcRequest) (outcome : AxiosOutcome)
| Console (line : ConsoleLine).

(** A computation over a state [S]. *)
Definition Run (S A : Type) : Type := ((JsError + A) * S * list Event)%type.
Definition M (S A : Type) : Type := S -> Run S A.

Definition ret {S A} (a : A) : M S A := fun s => (inr a, s, []).

Definition throw {S A} (e : JsError) : M S A := fun s => (inl e, s, []).

Definition bind {S A B} (m : M S A) (k : A -> M S B) : M S B :=
  fun s =>
    match m s with
    | (inl e, s1, ev1) => (inl e, s1, ev1)
    | (inr a, s1, ev1) =>
        match k a s1 with
        | (r, s2, ev2) => (r, s2, ev1 ++ ev2)
        end
    end.

(** [try { body } catch (error) { handler }] *)
Definition try_catch {S A} (body : M S A) (handler : JsError -> M S A) : M S A :=
  fun s =>
    match body s with
    | (inl e, s1, ev1) =>
        match handler e s1 with
        | (r, s2, ev2) => (r, s2, ev1 ++ ev2)
        end
    | (inr a, s1, ev1) => (inr a, s1, ev1)
    end.

(** An operation of the language that may throw. *)
Definition lift {S A} (r : JsError + A) : M S A := fun s => (r, s, []).

Definition console {S} (line : ConsoleLine) : M S unit :=
  fun s => (inr tt, s, [Console line]).

Definition get_state {S} : M S S := fun s => (inr s, s, []).

Definition modify {S} (f : S -> S) : M S unit := fun s => (inr tt, f s, []).

(** Runs a computation on the second component of the state. *)
Definition zoom {L S A} (m : M S A) : M (L * S) A :=
  fun ls =>
    match m (snd ls) with
    | (r, s1, ev) => (r, (fst ls, s1), ev)
    end.

Declare Scope js_scope.
Delimit Scope js_scope with js.
Notation "x <- m ;; k" := (bind m (fun x => k))
  (at level 100, m at next level, right associativity) : js_scope.
Notation "m ;; k" := (bind m (fun _ => k))
  (at level 100, right associativity) : js_scope.
Open Scope js_scope.

(** [do body while (cond)] where [body] answers whether the loop goes on
    ([false] is a [break] or a failed condition).  [None]: the fuel ran
    out before the loop ended. *)
Fixpoint do_while {S} (fuel : nat) (body : M S bool) (s : S) : option (Run S unit) :=
  match fuel with
  | O => None
  | Datatypes.S fuel' =>
      match body s with
      | (inl e, s1, ev1) => Some (inl e, s1, ev1)
      | (inr false, s1, ev1) => Some (inr tt, s1, ev1)
      | (inr true, s1, ev1) =>
          match do_while fuel' body s1 with
          | Some (r, s2, ev2) => Some (r, s2, ev1 ++ ev2)
          | None => None
          end
      end
  end.

(** ** [index.ts] *)

(** The variables of [fetchAllTransactionsWithPagination]. *)
Record Locals : Type := {
  allTransactions : list JsVal;
  paginationToken : JsVal;
  pageCount : Z
}.

Definition USDC : string := "EPjFWdd5AufqSSqeM2qN1xzybapC8G4wEGGkZwyTDt1v".

(** The [requestBody] literal of the loop. *)
Definition page_request (pageCount : Z) (paginationToken : JsVal)
  : SearchTransactionsRpcRequest :=
  {| id := pageCount;
     params :=
       {| Req.accountInclude := Some [USDC];
          Req.accountExclude := None;
          Req.accountRequired := None;
          Req.fromBlock := Some 394940000;
          Req.toBlock := Some 394940500;
          Req.vote := None;
          Req.failed := None;
          Req.sort := None;
          Req.paginationToken := paginationToken;
          Req.limit := Some 100;
          Req.transactionDetails := None |} |}.

Section Client.

(** The remote API behind [RPC_URL]: a state and what one POST does. *)
Context {St : Type}.
Variable post : St -> SearchTransactionsRpcRequest -> AxiosOutcome * St.

(** [await axios.post(RPC_URL, requestBody, ...)], giving [response.data]. *)
Definition axios_post (requestBody : SearchTransactionsRpcRequest) : M St JsVal :=
  fun s =>
    match post s requestBody with
    | (Rejected reason, s1) =>
        (inl (AxiosError reason), s1, [Post requestBody (Rejected reason)])
    | (Resolved data, s1) =>
        (inr data, s1, [Post requestBody (Resolved data)])
    end.

Definition searchTransactions (requestBody : SearchTransactionsRpcRequest)
  : M St JsVal :=
  try_catch
    (data <- axios_post requestBody ;;
     error <- lift (get data "error") ;;
     if truthy error then
       console (RpcErrorLine error) ;;
       message <- lift (get error "message") ;;
       throw (ErrorOf message)
     else
       lift (get data "result"))
    (fun error =>
       console (RequestFailedLine error) ;;
       throw error).

(** One pass through the body of the [do ... while]; the answer is
    whether the loop goes round again. *)
Definition loop_body : M (Locals * St) bool :=
  modify (fun ls : Locals * St =>
            ({| allTransactions := allTransactions (fst ls);
                paginationToken := paginationToken (fst ls);
                pageCount := pageCount (fst ls) + 1 |}, snd ls)) ;;
  ls <- get_state ;;
  console (FetchingPage (pageCount (fst ls))) ;;
  result <- zoom (searchTransactions
                    (page_request (pageCount (fst ls)) (paginationToken (fst ls)))) ;;
  data <- lift (get result "data") ;;
  items <- lift (spread data) ;;
  modify (fun ls : Locals * St =>
            ({| allTransactions := allTransactions (fst ls) ++ items;
                paginationToken := paginationToken (fst ls);
                pageCount := pageCount (fst ls) |}, snd ls)) ;;
  token <- lift (get result "paginationToken") ;;
  modify (fun ls : Locals * St =>
            ({| allTransactions := allTransactions (fst ls);
                paginationToken := token;
                pageCount := pageCount (fst ls) |}, snd ls)) ;;
  ls <- get_state ;;
  console (GotTransactions (List.length items)) ;;
  console (TotalSoFar (List.length (allTransactions (fst ls)))) ;;
  console (MorePages (not_null (paginationToken (fst ls)))) ;;
  if 3 <=? pageCount (fst ls) then
    console StoppingAfter3Pages ;;
    ret false
  else
    ret (not_null (paginationToken (fst ls))).

Definition initial_locals : Locals :=
  {| allTransactions := []; paginationToken := JNull; pageCount := 0 |}.

Definition fetchAllTransactionsWithPagination (fuel : nat) (s : St)
  : option (Run (Locals * St) unit) :=
  match do_while fuel loop_body (initial_locals, s) with
  | None => None
  | Some (inl e, ls, ev) => Some (inl e, ls, Console Banner :: ev)
  | Some (inr _, ls, ev) =>
      Some (inr tt, ls,
            Console Banner :: ev ++
              [Console (Completed (List.length (allTransactions (fst ls)))
                                  (pageCount (fst ls)))])
  end.

End Client.

(** ** What a run shows from outside *)

(** The POSTs among the events, with how each settled, in order. *)
Fixpoint exchanges (ev : list Event)
  : list (SearchTransactionsRpcRequest * AxiosOutcome) :=
  match ev with
  | [] => []
  | Post requestBody outcome :: rest => (requestBody, outcome) :: exchanges rest
  | Console _ :: rest => exchanges rest
  end.

(** The lines by which the example says that it is through: "More pages:
    No" and "Completed!". *)
Definition reports_end (e : Event) : bool :=
  match e with
  | Console (MorePages false) => true
  | Console (Completed _ _) => true
  | _ => false
  end.

(** What [searchTransactions] makes of a settled POST: the error it
    throws or the value it returns. *)
Definition read_result (outcome : AxiosOutcome) : JsError + JsVal :=
  match outcome with
  | Rejected reason => inl (AxiosError reason)
  | Resolved data =>
      match get data "error" with
      | inl e => inl e
      | inr error =>
          if truthy error then
            match get error "message" with
            | inl e => inl e
            | inr message => inl (ErrorOf message)
            end
          else get data "result"
      end
  end.

(** What the loop takes from a settled POST: the error that is thrown, or
    the records it pushes and the token it stores. *)
Definition read_page (outcome : AxiosOutcome) : JsError + (list JsVal * JsVal) :=
  match read_result outcome with
  | inl e => inl e
  | inr result =>
      match get result "data" with
      | inl e => inl e
      | inr data =>
          match spread data with
          | inl e => inl e
          | inr items =>
              match get result "paginationToken" with
              | inl e => inl e
              | inr token => inr (items, token)
              end
          end
      end
  end.

(** The records a settled POST adds to [allTransactions]. *)
Definition yielded (outcome : AxiosOutcome) : list JsVal :=
  match read_page outcome with
  | inl _ => []
  | inr (items, _) => items
  end.

(** The token a settled POST leaves in [paginationToken]. *)
Definition returned_token (outcome : AxiosOutcome) : option JsVal :=
  match read_page outcome with
  | inl _ => None
  | inr (_, token) => Some token
  end.

(** The requests of a session form a chain: request number [n] carries
    [token], and each later request carries what the page before it
    returned. *)
Inductive chained : Z -> JsVal -> list (SearchTransactionsRpcRequest * AxiosOutcome) -> Prop :=
| chained_nil n token : chained n token []
| chained_last n token outcome :
    chained n token [(page_request n token, outcome)]
| chained_cons n token outcome token' rest :
    returned_token outcome = Some token' ->
    token' <> JNull ->
    chained (n + 1) token' rest ->
    chained n token ((page_request n token, outcome) :: rest).

(** [has_key key fields]: the parsed object has the key. *)
Definition has_key (key : string) (fields : list (string * JsVal)) : bool :=
  existsb (fun kv => String.eqb (fst kv) key) fields.

(** A JSON-RPC error response: the [error] member is an object. *)
Definition rpc_error (body : JsVal) (error : list (string * JsVal)) : Prop :=
  get body "error" = inr (JObj error).

(** The pages of a session that ends: every page but the last has a
    cursor, the last has none. *)
Fixpoint exhausts (pages : list ResultPage) : bool :=
  match pages with
  | [] => false
  | [p] => match nextCursor p with None => true | Some _ => false end
  | p :: rest => match nextCursor p with None => false | Some _ => exhausts rest end
  end.

Definition relabel (g : string -> string) (p : ResultPage) : ResultPage :=
  {| records := records p; nextCursor := option_map g (nextCursor p) |}.

Definition exactly_one_bound (spec : Req.SearchParams) : bool :=
  match Req.fromBlock spec, Req.toBlock spec with
  | Some _, None | None, Some _ => true
  | _, _ => false
  end.

Section Sessions.

Context {St : Type}.
Variable post : St -> SearchTransactionsRpcRequest -> AxiosOutcome * St.

(** From state [s], the API answers a request that carries [token] with
    the first page, and goes on like this with that page's cursor. *)
Inductive serves : St -> JsVal -> list ResultPage -> Prop :=
| serves_nil s token : serves s token []
| serves_cons s token p pages :
    (forall requestBody,
        Req.paginationToken (params requestBody) = token ->
        exists s1,
          post s requestBody = (Resolved (success_body (id requestBody) p), s1) /\
          serves s1 (cursor_value p) pages) ->
    serves s token (p :: pages).

(** The exchanges are what the API answered, one after the other. *)
Inductive replays : St -> list (SearchTransactionsRpcRequest * AxiosOutcome) -> St -> Prop :=
| replays_nil s : replays s [] s
| replays_cons s requestBody outcome s1 rest s2 :
    post s requestBody = (outcome, s1) ->
    replays s1 rest s2 ->
    replays s ((requestBody, outcome) :: rest) s2.

(** The API does what the block range rules document: a request with
    only one of [fromBlock] and [toBlock] gets an error response. *)
Definition rejects_unpaired : Prop :=
  forall s requestBody,
    exactly_one_bound (params requestBody) = true ->
    exists code message s1,
      post s requestBody = (Resolved (error_body (id requestBody) code message), s1).

End Sessions.

(** ** Test doubles for the API *)

Definition Responder : Type := SearchTransactionsRpcRequest -> AxiosOutcome.

(** A scripted API: the n-th POST gets the n-th answer. *)
Definition mock_post (script : list Responder) (requestBody : SearchTransactionsRpcRequest)
  : AxiosOutcome * list Responder :=
  match script with
  | [] => (Rejected "socket hang up", [])
  | answer :: rest => (answer requestBody, rest)
  end.

Definition serve_page (p : ResultPage) : Responder :=
  fun requestBody => Resolved (success_body (id requestBody) p).

Definition serve_error (code : Z) (message : string) : Responder :=
  fun requestBody => Resolved (error_body (id requestBody) code message).

Definition serve_raw (body : JsVal) : Responder :=
  fun _ => Resolved body.

Fixpoint page_after (c : string) (pages : list ResultPage) : option ResultPage :=
  match pages with
  | [] => None
  | p :: rest =>
      match nextCursor p with
      | Some c' => if String.eqb c c' then hd_error rest else page_after c rest
      | None => page_after c rest
      end
  end.

(** A stateless API over fixed pages: no token gives the first page, a
    cursor gives the page after the one that issued it, anything else is
    an invalid parameter. *)
Definition cursor_api (pages : list ResultPage) (s : unit)
  (requestBody : SearchTransactionsRpcRequest) : AxiosOutcome * unit :=
  match Req.paginationToken (params requestBody) with
  | JNull | JUndefined =>
      match pages with
      | p :: _ => (serve_page p requestBody, s)
      | [] => (serve_page {| records := []; nextCursor := None |} requestBody, s)
      end
  | JStr c =>
      match page_after c pages with
      | Some p => (serve_page p requestBody, s)
      | None => (serve_error (-32602) "Invalid params" requestBody, s)
      end
  | _ => (serve_error (-32602) "Invalid params" requestBody, s)
  end.

(** An API that enforces the pairing of the block bounds and otherwise
    returns an empty last page. *)
Definition pairing_api (s : unit) (requestBody : SearchTransactionsRpcRequest)
  : AxiosOutcome * unit :=
  if exactly_one_bound (params requestBody) then
    (serve_error (-32602) "Invalid params" requestBody, s)
  else
    (serve_page {| records := []; nextCursor := None |} requestBody, s).

(** ** The defaults of the API *)

(** The two parts of a cursor ["slot:transactionIndex"]. *)
Record Cursor : Type := {
  slot : Z;
  transactionIndex : Z
}.

(** What the API knows of the chain when it picks a default window. *)
Record Ledger : Type := {
  firstIndexedSlot : Z;
  latestKnownSlot : Z
}.

(** Modelled from the spec: the sort order in force when [sort] is
    absent.  No code of the source applies it; the comment of
    [SearchParams.sort] documents "default: DESC". *)
Definition effective_sort (spec : Req.SearchParams) : SortOrder :=
  match Req.sort spec with
  | Some order => order
  | None => DESC
  end.

(** Modelled from the spec: [resolveDefaultWindow], which the source does
    not contain (the API evaluates it; the source documents the table
    under "Default Block Range"). *)
Definition resolveDefaultWindow (ledger : Ledger) (spec : Req.SearchParams)
  (currentCursor : option Cursor) : Z * Z :=
  match currentCursor, effective_sort spec with
  | None, DESC => (latestKnownSlot ledger - 5000, latestKnownSlot ledger)
  | None, ASC => (firstIndexedSlot ledger, firstIndexedSlot ledger + 5000)
  | Some cursor, DESC => (slot cursor - 5000, slot cursor)
  | Some cursor, ASC => (slot cursor, slot cursor + 5000)
  end.

(** Modelled from the spec: the window of a request, absent from the
    source.  An explicit range is used as it is, the default window is
    resolved when both bounds are absent, and one bound alone has no
    window. *)
Definition effective_window (ledger : Ledger) (spec : Req.SearchParams)
  (currentCursor : option Cursor) : option (Z * Z) :=
  match Req.fromBlock spec, Req.toBlock spec with
  | Some from, Some to => Some (from, to)
  | None, None => Some (resolveDefaultWindow ledger spec currentCursor)
  | _, _ => None
  end.

(** Modelled from the spec: the detail level in force when
    [transactionDetails] is absent; the source documents "default:
    signatures" and has no code for it. *)
Definition effective_details (spec : Req.SearchParams) : TransactionDetails :=
  match Req.transactionDetails spec with
  | Some details => details
  | None => Signatures
  end.

(** The limits in the comment of [SearchParams.limit]: "Signatures mode:
    max 1000, default 1000; Full mode: max 100, default 100". *)
Definition maxLimit (details : TransactionDetails) : Z :=
  match details with
  | Signatures => 1000
  | Full => 100
  end.

Definition defaultLimit (details : TransactionDetails) : Z :=
  match details with
  | Signatures => 1000
  | Full => 100
  end.

(** Modelled from the spec: the limit in force, absent from the source. *)
Definition effective_limit (spec : Req.SearchParams) : Z :=
  match Req.limit spec with
  | Some n => n
  | None => defaultLimit (effective_details spec)
  end.

(** ** Sessions of the pagination loop *)

(** [walk n token all ex r l]: started with [pageCount = n],
    [paginationToken = token] and [allTransactions = all], the loop makes
    the exchanges [ex] and ends with the result [r] and the variables [l].
    It follows the three ways out of the loop body: a throw, the end of
    the loop (by [break] or by a null token), and one more round. *)
Inductive walk :
  Z -> JsVal -> list JsVal ->
  list (SearchTransactionsRpcRequest * AxiosOutcome) ->
  JsError + unit -> Locals -> Prop :=
| walk_throw n token all outcome e :
    read_page outcome = inl e ->
    walk n token all [(page_request (n + 1) token, outcome)] (inl e)
         {| allTransactions := all; paginationToken := token; pageCount := n + 1 |}
| walk_stop n token all outcome items token' :
    read_page outcome = inr (items, token') ->
    (n + 1 <? 3) && not_null token' = false ->
    walk n token all [(page_request (n + 1) token, outcome)] (inr tt)
         {| allTransactions := all ++ items; paginationToken := token';
            pageCount := n + 1 |}
| walk_next n token all outcome items token' rest r l :
    read_page outcome = inr (items, token') ->
    n + 1 < 3 ->
    token' <> JNull ->
    walk (n + 1) token' (all ++ items) rest r l ->
    walk n token all ((page_request (n + 1) token, outcome) :: rest) r l.

(** The pages a loop with [budget] rounds left takes from the pages an
    API serves: up to the first page without a cursor, [budget] at most. *)
Fixpoint taken (budget : nat) (pages : list ResultPage) : list ResultPage :=
  match budget, pages with
  | S budget', p :: rest =>
      p :: match nextCursor p with
           | None => []
           | Some _ => taken budget' rest
           end
  | _, _ => []
  end.

(** The pages are enough for a loop with [budget] rounds left: it never
    asks for a page after the last one. *)
Fixpoint enough (budget : nat) (pages : list ResultPage) : bool :=
  match budget, pages with
  | S budget', p :: rest =>
      match nextCursor p, budget' with
      | None, _ => true
      | Some _, O => true
      | Some _, S _ => enough budget' rest
      end
  | _, _ => false
  end.

Definition request_token (x : SearchTransactionsRpcRequest * AxiosOutcome) : JsVal :=
  Req.paginationToken (params (fst x)).

Definition relabel_token (g : string -> string) (token : JsVal) : JsVal :=
  match token with
  | JStr c => JStr (g c)
  | other => other
  end.

(** ** An API that fails after some pages *)

Section Failures.

Context {St : Type}.
Variable post : St -> SearchTransactionsRpcRequest -> AxiosOutcome * St.

(** From state [s], the API answers a request that carries [token] with
    the first page, which has a cursor, and goes on like this with that
    cursor; the request that carries the cursor of the last page gets a
    JSON-RPC error response with the message [message]. *)
Inductive fails_after : St -> JsVal -> list ResultPage -> JsVal -> Prop :=
| fails_now s token message :
    (forall requestBody,
        Req.paginationToken (params requestBody) = token ->
        exists body error s1,
          post s requestBody = (Resolved body, s1) /\
          rpc_error body error /\
          own_property "message" error = message) ->
    fails_after s token [] message
| fails_later s token p pages message :
    nextCursor p <> None ->
    (forall requestBody,
        Req.paginationToken (params requestBody) = token ->
        exists s1,
          post s requestBody = (Resolved (success_body (id requestBody) p), s1) /\
          fails_after s1 (cursor_value p) pages message) ->
    fails_after s token (p :: pages) message.

End Failures.

(** ** Requests and answers used as examples *)

(** The request of [fetchLatestSignatures]: [params: {}]. *)
Definition latest_signatures_request : SearchTransactionsRpcRequest :=
  {| id := 1; params := Req.empty |}.

Definition with_bounds (from to : option Z) (spec : Req.SearchParams) : Req.SearchParams :=
  {| Req.accountInclude := Req.accountInclude spec;
     Req.accountExclude := Req.accountExclude spec;
     Req.accountRequired := Req.accountRequired spec;
     Req.fromBlock := from;
     Req.toBlock := to;
     Req.vote := Req.vote spec;
     Req.failed := Req.failed spec;
     Req.sort := Req.sort spec;
     Req.paginationToken := Req.paginationToken spec;
     Req.limit := Req.limit spec;
     Req.transactionDetails := Req.transactionDetails spec |}.

Definition with_limit (n : option Z) (spec : Req.SearchParams) : Req.SearchParams :=
  {| Req.accountInclude := Req.accountInclude spec;
     Req.accountExclude := Req.accountExclude spec;
     Req.accountRequired := Req.accountRequired spec;
     Req.fromBlock := Req.fromBlock spec;
     Req.toBlock := Req.toBlock spec;
     Req.vote := Req.vote spec;
     Req.failed := Req.failed spec;
     Req.sort := Req.sort spec;
     Req.paginationToken := Req.paginationToken spec;
     Req.limit := n;
     Req.transactionDetails := Req.transactionDetails spec |}.

(** [params: { fromBlock: 100 }] *)
Definition unpaired_request : SearchTransactionsRpcRequest :=
  {| id := 7; params := with_bounds (Some 100) None Req.empty |}.

(** [params: { limit: 5000 }], above the cap of the signatures mode. *)
Definition over_cap_request : SearchTransactionsRpcRequest :=
  {| id := 8; params := with_limit (Some 5000) Req.empty |}.

Definition signature_record (n : Z) : JsVal :=
  JObj [("signature", JStr "sig"); ("slot", JNum n); ("blockTime", JNum 1704067200)].

(** Three pages of two records, cursors "10:1", "10:5", null. *)
Definition three_pages : list ResultPage :=
  [ {| records := [signature_record 1; signature_record 2]; nextCursor := Some "10:1" |};
    {| records := [signature_record 3; signature_record 4]; nextCursor := Some "10:5" |};
    {| records := [signature_record 5; signature_record 6]; nextCursor := None |} ].

(** Four pages, the last of which ends the results. *)
Definition four_pages : list ResultPage :=
  [ {| records := [signature_record 1]; nextCursor := Some "10:1" |};
    {| records := [signature_record 2]; nextCursor := Some "10:5" |};
    {| records := [signature_record 3]; nextCursor := Some "11:0" |};
    {| records := [signature_record 4]; nextCursor := None |} ].

(** Sparse slots: three empty pages with a cursor, then the records. *)
Definition sparse_pages : list ResultPage :=
  [ {| records := []; nextCursor := Some "20:0" |};
    {| records := []; nextCursor := Some "30:0" |};
    {| records := []; nextCursor := Some "40:0" |};
    {| records := [signature_record 41]; nextCursor := None |} ].

(** Five answers, the third an RPC error. *)
Definition failing_script : list Responder :=
  [ serve_page {| records := [signature_record 1]; nextCursor := Some "10:1" |};
    serve_page {| records := [signature_record 2]; nextCursor := Some "10:5" |};
    serve_error (-32603) "Internal error";
    serve_page {| records := [signature_record 4]; nextCursor := Some "12:0" |};
    serve_page {| records := [signature_record 5]; nextCursor := None |} ].

(** A response with neither [result] nor [error]. *)
Definition malformed_fields : list (string * JsVal) :=
  [("jsonrpc", JStr "2.0"); ("id", JNum 1)].

Definition add_prime (c : string) : string := String.append c "'".

(** Proves that [cursor_api] serves its pages, page by page. *)
Ltac serve_pages :=
  repeat (apply serves_cons;
          let Htoken := fresh "Htoken" in
          intros ? Htoken; exists tt;
          split; [unfold cursor_api; rewrite Htoken; reflexivity|]);
  apply serves_nil.

(** ** More views of values and answers *)

(** [v == null]: [undefined] or [null]. *)
Definition nullish (v : JsVal) : bool :=
  match v with
  | JUndefined | JNull => true
  | _ => false
  end.

(** The values [...v] accepts. *)
Definition iterable (v : JsVal) : bool :=
  match v with
  | JArr _ | JStr _ => true
  | _ => false
  end.

(** [error.message] of a truthy [error]. *)
Definition message_of (error : JsVal) : JsVal :=
  match error with
  | JObj fields => own_property "message" fields
  | _ => JUndefined
  end.

(** A success response whose result has [data] but no [paginationToken]
    member. *)
Definition tokenless_body (i : Z) (items : list JsVal) : JsVal :=
  JObj [("jsonrpc", JStr "2.0"); ("id", JNum i);
        ("result", JObj [("data", JArr items)])].

(** An API that answers every request without a cursor with the same
    page and leaves [paginationToken] out of the answer. *)
Definition tokenless_api (items : list JsVal) (s : unit)
  (requestBody : SearchTransactionsRpcRequest) : AxiosOutcome * unit :=
  match Req.paginationToken (params requestBody) with
  | JNull | JUndefined => (Resolved (tokenless_body (id requestBody) items), s)
  | _ => (serve_error (-32602) "Invalid params" requestBody, s)
  end.

(** ** Programs that print, wait and exit *)

(** A printed line is the sequence of its pieces, as a template literal
    or the arguments of [console.log] give them: literal text, a value
    that is interpolated, or a thrown error that is printed. *)
Inductive Piece : Type :=
| Text (text : string)
| Val (v : JsVal)
| Thrown (e : JsError).

Definition Line : Type := list Piece.

Inductive Effect : Type :=
| Client (e : Event)   (* a POST, or a line [searchTransactions] prints *)
| Print (line : Line)  (* console.log, console.error *)
| Sleep (ms : Z)       (* await sleep(ms) *)
| Exit (code : Z).     (* process.exit(code) *)

Definition Ran (S A : Type) : Type := ((JsError + A) * S * list Effect)%type.
Definition P (S A : Type) : Type := S -> Ran S A.

Definition pret {S A} (a : A) : P S A := fun s => (inr a, s, []).

Definition pthrow {S A} (e : JsError) : P S A := fun s => (inl e, s, []).

Definition pbind {S A B} (m : P S A) (k : A -> P S B) : P S B :=
  fun s =>
    match m s with
    | (inl e, s1, ef1) => (inl e, s1, ef1)
    | (inr a, s1, ef1) =>
        match k a s1 with
        | (r, s2, ef2) => (r, s2, ef1 ++ ef2)
        end
    end.

(** [try { body } catch (error) { handler }] *)
Definition ptry {S A} (body : P S A) (handler : JsError -> P S A) : P S A :=
  fun s =>
    match body s with
    | (inl e, s1, ef1) =>
        match handler e s1 with
        | (r, s2, ef2) => (r, s2, ef1 ++ ef2)
        end
    | (inr a, s1, ef1) => (inr a, s1, ef1)
    end.

Definition plift {S A} (r : JsError + A) : P S A := fun s => (r, s, []).

Definition print {S} (line : Line) : P S unit := fun s => (inr tt, s, [Print line]).

Definition sleep {S} (ms : Z) : P S unit := fun s => (inr tt, s, [Sleep ms]).

Definition exit {S} (code : Z) : P S unit := fun s => (inr tt, s, [Exit code]).

Definition pget {S} : P S S := fun s => (inr s, s, []).

Definition pmodify {S} (f : S -> S) : P S unit := fun s => (inr tt, f s, []).

(** Runs a computation of the client; its events become effects. *)
Definition call {S A} (m : M S A) : P S A :=
  fun s =>
    match m s with
    | (r, s1, ev) => (r, s1, map Client ev)
    end.

Declare Scope prog_scope.
Delimit Scope prog_scope with prog.
Notation "x <- m ;; k" := (pbind m (fun x => k))
  (at level 100, m at next level, right associativity) : prog_scope.
Notation "m ;; k" := (pbind m (fun _ => k))
  (at level 100, right associativity) : prog_scope.
Open Scope prog_scope.

(** [xs.forEach((x, index) => f)], from [index] on. *)
Fixpoint for_each {W} (f : nat -> JsVal -> P W unit) (index : nat) (xs : list JsVal)
  : P W unit :=
  match xs with
  | [] => pret tt
  | x :: rest => f index x ;; for_each f (S index) rest
  end.

(** The POSTs among the effects. *)
Fixpoint posts (ef : list Effect) : list (SearchTransactionsRpcRequest * AxiosOutcome) :=
  match ef with
  | [] => []
  | Client (Post requestBody outcome) :: rest => (requestBody, outcome) :: posts rest
  | _ :: rest => posts rest
  end.

(** The lines the program itself prints. *)
Fixpoint printed (ef : list Effect) : list Line :=
  match ef with
  | [] => []
  | Print line :: rest => line :: printed rest
  | _ :: rest => printed rest
  end.

(** The waits. *)
Fixpoint sleeps (ef : list Effect) : list Z :=
  match ef with
  | [] => []
  | Sleep ms :: rest => ms :: sleeps rest
  | _ :: rest => sleeps rest
  end.

(** The line feed of ["\n"]. *)
Definition nl : string := String (ascii_of_nat 10) EmptyString.

(** ** More of JavaScript *)

(** [v.length] *)
Definition length_of (v : JsVal) : JsError + JsVal :=
  match v with
  | JUndefined => inl (TypeError "Cannot read properties of undefined")
  | JNull => inl (TypeError "Cannot read properties of null")
  | JArr items => inr (JNum (Z.of_nat (List.length items)))
  | JStr s => inr (JNum (Z.of_nat (String.length s)))
  | JObj fields => inr (own_property "length" fields)
  | _ => inr JUndefined
  end.

(** The elements [v.forEach(...)] visits.  Of the values of a parsed
    body only an array has the method. *)
Definition for_each_of (v : JsVal) : JsError + list JsVal :=
  match v with
  | JUndefined => inl (TypeError "Cannot read properties of undefined")
  | JNull => inl (TypeError "Cannot read properties of null")
  | JArr items => inr items
  | _ => inl (TypeError "forEach is not a function")
  end.

(** The elements [v.slice(0, 5).forEach(...)] visits.  A string has
    [slice] but its slice has no [forEach]. *)
Definition first_five_of (v : JsVal) : JsError + list JsVal :=
  match v with
  | JUndefined => inl (TypeError "Cannot read properties of undefined")
  | JNull => inl (TypeError "Cannot read properties of null")
  | JArr items => inr (firstn 5 items)
  | JStr _ => inl (TypeError "forEach is not a function")
  | _ => inl (TypeError "slice is not a function")
  end.

(** [a === b] for a number [b]. *)
Definition is_number (v : JsVal) (n : Z) : bool :=
  match v with
  | JNum m => m =? n
  | _ => false
  end.

(** ** Examples 1 and 4 of [index.ts], and [main] *)

Definition USDT : string := "Es9vMFrzaCERmJfrF4H2FYD4KCoNkY11McCe8BenwNYB".
Definition PUMP : string := "pumpCmXqMfrsAkQ5r49WcJnRayYRqmXz6ae8H7H9Dfn".

(** The [labels] of example 4. *)
Definition labels : list string :=
  ["USDC (EPjF...Dt1v)"; "USDT (Es9v...wNYB)"; "Pump.fun (pump...Dfn)"].

(** [labels[i] || addr] *)
Definition label_or (i : nat) (addr : string) : string :=
  match nth_error labels i with
  | Some label => label
  | None => addr
  end.

(** The [requestBody] literal of example 4. *)
Definition required_request (accountRequired : list string)
  : SearchTransactionsRpcRequest :=
  {| id := 4;
     params :=
       {| Req.accountInclude := None;
          Req.accountExclude := None;
          Req.accountRequired := Some accountRequired;
          Req.fromBlock := Some 394935000;
          Req.toBlock := Some 394941496;
          Req.vote := None;
          Req.failed := None;
          Req.sort := Some DESC;
          Req.paginationToken := JUndefined;
          Req.limit := Some 10;
          Req.transactionDetails := Some Signatures |} |}.

Definition more_results_line : Line :=
  [Text (nl ++ "📄 More results available!")].

Definition no_more_results_line : Line :=
  [Text (nl ++ "✅ No more results (reached end of data)")].

Section Examples.

Context {St : Type}.
Variable post : St -> SearchTransactionsRpcRequest -> AxiosOutcome * St.

(** [new Date(blockTime * 1000).toISOString()]: the number conversion and
    the calendar of the runtime, which throws on a time it cannot print. *)
Variable toISOString : JsVal -> JsError + string.

(** The callback of examples 1 and 4: three lines for one record. *)
Definition print_signature (index : nat) (tx : JsVal) : P St unit :=
  signature <- plift (get tx "signature") ;;
  print [Val (JNum (Z.of_nat index + 1)); Text ". "; Val signature] ;;
  slot <- plift (get tx "slot") ;;
  print [Text "   Slot: "; Val slot] ;;
  blockTime <- plift (get tx "blockTime") ;;
  time <- plift (toISOString blockTime) ;;
  print [Text "   Time: "; Text time; Text nl].

Definition fetchLatestSignatures : P St unit :=
  print [Text (nl ++ "=== Example 1: Latest Signatures ===" ++ nl)] ;;
  result <- call (searchTransactions post latest_signatures_request) ;;
  data <- plift (get result "data") ;;
  count <- plift (length_of data) ;;
  print [Text "Fetched "; Val count; Text " signatures"] ;;
  print [Text (nl ++ "First 5 signatures:")] ;;
  shown <- plift (first_five_of data) ;;
  for_each print_signature 0 shown ;;
  token <- plift (get result "paginationToken") ;;
  print [Text "Has more results: "; Val (JBool (not_null token))] ;;
  if truthy token then
    print [Text "Pagination token: "; Val token]
  else
    pret tt.

(** [accountRequired.forEach((addr, i) => ...)], from [i] on. *)
Fixpoint print_accounts (i : nat) (accountRequired : list string) : P St unit :=
  match accountRequired with
  | [] => pret tt
  | addr :: rest =>
      print [Text "  "; Val (JNum (Z.of_nat i + 1)); Text ". "; Text (label_or i addr)] ;;
      print_accounts (S i) rest
  end.

Definition fetchSignaturesWhereAllTokensInvolved (accountRequired : list string)
  : P St unit :=
  print [Text (nl ++ "=== Example 4: Required Accounts with Pagination ===" ++ nl)] ;;
  print [Text "Searching for transactions involving ALL of:"] ;;
  print_accounts 0 accountRequired ;;
  print [] ;;
  result <- call (searchTransactions post (required_request accountRequired)) ;;
  data <- plift (get result "data") ;;
  count <- plift (length_of data) ;;
  print [Text "Found "; Val count; Text (" matching transactions" ++ nl)] ;;
  items <- plift (for_each_of data) ;;
  for_each print_signature 0 items ;;
  token <- plift (get result "paginationToken") ;;
  if truthy token then
    print more_results_line ;;
    print [Text "Pagination token: "; Val token] ;;
    print [Text "To fetch next page, add this token to the request params."]
  else
    print no_more_results_line.

Definition main : P St unit :=
  ptry
    (fetchSignaturesWhereAllTokensInvolved [USDC; USDT; PUMP])
    (fun error =>
       print [Text (nl ++ "❌ Error running example:"); Thrown error] ;;
       exit 1).

End Examples.


(** A stand-in for the calendar of the runtime in examples: a number is
    printed, anything else is an invalid time. *)
Definition iso_stub (blockTime : JsVal) : JsError + string :=
  match blockTime with
  | JNum _ => inr "2024-01-01T00:00:00.000Z"
  | _ => inl (ErrorOf (JStr "Invalid time value"))
  end.

Close Scope prog_scope.

(** A page of seven records that ends the results. *)
Definition seven_records : ResultPage :=
  {| records := map signature_record [1; 2; 3; 4; 5; 6; 7]; nextCursor := None |}.

(** ** The loops of [docs/BASIC_SEARCH.md] *)

Open Scope prog_scope.

(** [do body while (cond)] for programs; [None]: out of fuel. *)
Fixpoint p_do_while {W} (fuel : nat) (body : P W bool) (w : W) : option (Ran W unit) :=
  match fuel with
  | O => None
  | S fuel' =>
      match body w with
      | (inl e, w1, ef1) => Some (inl e, w1, ef1)
      | (inr false, w1, ef1) => Some (inr tt, w1, ef1)
      | (inr true, w1, ef1) =>
          match p_do_while fuel' body w1 with
          | Some (r, w2, ef2) => Some (r, w2, ef1 ++ ef2)
          | None => None
          end
      end
  end.

(** The [requestBody] literal of [fetchAllRecentSignatures]. *)
Definition recent_request (pageCount : Z) (paginationToken : JsVal)
  : SearchTransactionsRpcRequest :=
  {| id := pageCount;
     params :=
       {| Req.accountInclude := None;
          Req.accountExclude := None;
          Req.accountRequired := None;
          Req.fromBlock := None;
          Req.toBlock := None;
          Req.vote := None;
          Req.failed := None;
          Req.sort := None;
          Req.paginationToken := paginationToken;
          Req.limit := Some 1000;
          Req.transactionDetails := None |} |}.

(** The success response as "Response Format" of BASIC_SEARCH.md shows
    it: the records under [transactions]. *)
Definition transactions_body (i : Z) (p : ResultPage) : JsVal :=
  JObj [("jsonrpc", JStr "2.0"); ("id", JNum i);
        ("result", JObj [("transactions", JArr (records p));
                         ("paginationToken", cursor_value p)])].

Definition MAX_RETRIES : Z := 3.

(** What one attempt of [robustFetchSignatures] makes of a settled POST. *)
Inductive Attempt : Type :=
| Succeeded (result : JsVal)
| RateLimited
| Failed (e : JsError).

(** [error.code] of a truthy [error]. *)
Definition code_of (error : JsVal) : JsVal :=
  match error with
  | JObj fields => own_property "code" fields
  | _ => JUndefined
  end.

Section DocLoops.

Context {St : Type}.
Variable post : St -> SearchTransactionsRpcRequest -> AxiosOutcome * St.

(** One pass through the body of the [do ... while] of
    [fetchAllRecentSignatures]. *)
Definition recent_body : P (Locals * St) bool :=
  pmodify (fun w : Locals * St =>
             ({| allTransactions := allTransactions (fst w);
                 paginationToken := paginationToken (fst w);
                 pageCount := pageCount (fst w) + 1 |}, snd w)) ;;
  w <- pget ;;
  data <- call (zoom (axios_post post
                        (recent_request (pageCount (fst w)) (paginationToken (fst w))))) ;;
  result <- plift (get data "result") ;;
  transactions <- plift (get result "transactions") ;;
  nextToken <- plift (get result "paginationToken") ;;
  items <- plift (spread transactions) ;;
  pmodify (fun w : Locals * St =>
             ({| allTransactions := allTransactions (fst w) ++ items;
                 paginationToken := nextToken;
                 pageCount := pageCount (fst w) |}, snd w)) ;;
  count <- plift (length_of transactions) ;;
  w <- pget ;;
  print [Text "Page "; Val (JNum (pageCount (fst w))); Text ": "; Val count;
         Text " signatures"] ;;
  print [Text "Total so far: ";
         Val (JNum (Z.of_nat (List.length (allTransactions (fst w)))))] ;;
  pret (not_null (paginationToken (fst w))).

Definition fetchAllRecentSignatures (fuel : nat) (s : St)
  : option (Ran (Locals * St) (list JsVal)) :=
  match p_do_while fuel recent_body (initial_locals, s) with
  | None => None
  | Some (inl e, w, ef) => Some (inl e, w, ef)
  | Some (inr _, w, ef) =>
      Some (inr (allTransactions (fst w)), w,
            ef ++ [Print [Text (nl ++ "Fetched ");
                          Val (JNum (Z.of_nat (List.length (allTransactions (fst w)))));
                          Text " signatures across ";
                          Val (JNum (pageCount (fst w))); Text " pages"]])
  end.

(** From state [s], the API answers a request that carries [token] with
    the first page in the [transactions] envelope, and goes on like this
    with that page's cursor. *)
Inductive serves_transactions : St -> JsVal -> list ResultPage -> Prop :=
| serves_transactions_nil s token : serves_transactions s token []
| serves_transactions_cons s token p pages :
    (forall requestBody,
        Req.paginationToken (params requestBody) = token ->
        exists s1,
          post s requestBody = (Resolved (transactions_body (id requestBody) p), s1) /\
          serves_transactions s1 (cursor_value p) pages) ->
    serves_transactions s token (p :: pages).

(** The API always has one more page. *)
Definition never_ends : Prop :=
  forall s requestBody,
    exists p c s1,
      post s requestBody = (Resolved (transactions_body (id requestBody) p), s1) /\
      nextCursor p = Some c.

(** The string a template literal makes of a value: the conversion of the
    runtime. *)
Variable to_string : JsVal -> string.

(** The request of [robustFetchSignatures], a free variable of the
    snippet. *)
Variable requestBody : SearchTransactionsRpcRequest.

(** One pass through the body of the [while] of [robustFetchSignatures];
    the state holds [retries].  [Some v] is [return v], [None] leads back
    to the test of the loop (by [continue], or at the end of [catch]). *)
Definition robust_attempt : P (Z * St) (option JsVal) :=
  ptry
    (data <- call (zoom (axios_post post requestBody)) ;;
     error <- plift (get data "error") ;;
     if truthy error then
       code <- plift (get error "code") ;;
       message <- plift (get error "message") ;;
       if is_number code 429 then
         print [Text "Rate limited, waiting..."] ;;
         sleep 5000 ;;
         pmodify (fun w : Z * St => (fst w + 1, snd w)) ;;
         pret None
       else
         pthrow (ErrorOf (JStr ("API Error: " ++ to_string message)))
     else
       result <- plift (get data "result") ;;
       pret (Some result))
    (fun error =>
       pmodify (fun w : Z * St => (fst w + 1, snd w)) ;;
       w <- pget ;;
       if MAX_RETRIES <=? fst w then
         pthrow error
       else
         print [Text "Attempt "; Val (JNum (fst w)); Text " failed, retrying..."] ;;
         sleep (1000 * fst w) ;;
         pret None).

Fixpoint robust_loop (fuel : nat) (w : Z * St) : option (Ran (Z * St) JsVal) :=
  match fuel with
  | O => None
  | S fuel' =>
      if fst w <? MAX_RETRIES then
        match robust_attempt w with
        | (inl e, w1, ef1) => Some (inl e, w1, ef1)
        | (inr (Some v), w1, ef1) => Some (inr v, w1, ef1)
        | (inr None, w1, ef1) =>
            match robust_loop fuel' w1 with
            | Some (r, w2, ef2) => Some (r, w2, ef1 ++ ef2)
            | None => None
            end
        end
      else
        Some (inr JUndefined, w, [])
  end.

(** [let retries = 0; while (retries < MAX_RETRIES) { ... }]; falling off
    the loop returns [undefined]. *)
Definition robustFetchSignatures (fuel : nat) (s : St) : option (Ran (Z * St) JsVal) :=
  robust_loop fuel (0, s).

(** How an attempt reads the answer. *)
Definition attempt_of (outcome : AxiosOutcome) : Attempt :=
  match outcome with
  | Rejected reason => Failed (AxiosError reason)
  | Resolved data =>
      match get data "error" with
      | inl e => Failed e
      | inr error =>
          if truthy error then
            if is_number (code_of error) 429 then RateLimited
            else Failed (ErrorOf (JStr ("API Error: " ++ to_string (message_of error))))
          else
            match get data "result" with
            | inl e => Failed e
            | inr result => Succeeded result
            end
      end
  end.

(** [retrying n ex r m waits]: entered with [retries = n], the loop makes
    the POSTs [ex], waits [waits] and ends with the result [r] and
    [retries = m]. *)
Inductive retrying :
  Z -> list (SearchTransactionsRpcRequest * AxiosOutcome) ->
  JsError + JsVal -> Z -> list Z -> Prop :=
| retrying_over n :
    MAX_RETRIES <= n ->
    retrying n [] (inr JUndefined) n []
| retrying_success n outcome result :
    n < MAX_RETRIES ->
    attempt_of outcome = Succeeded result ->
    retrying n [(requestBody, outcome)] (inr result) n []
| retrying_throw n outcome e :
    n < MAX_RETRIES ->
    attempt_of outcome = Failed e ->
    MAX_RETRIES <= n + 1 ->
    retrying n [(requestBody, outcome)] (inl e) (n + 1) []
| retrying_rate_limited n outcome rest r m waits :
    n < MAX_RETRIES ->
    attempt_of outcome = RateLimited ->
    retrying (n + 1) rest r m waits ->
    retrying n ((requestBody, outcome) :: rest) r m (5000 :: waits)
| retrying_failed n outcome e rest r m waits :
    n < MAX_RETRIES ->
    attempt_of outcome = Failed e ->
    n + 1 < MAX_RETRIES ->
    retrying (n + 1) rest r m waits ->
    retrying n ((requestBody, outcome) :: rest) r m (1000 * (n + 1) :: waits).

End DocLoops.

(** An API that is rate limited for the first [n] requests and then
    serves an empty last page; the state counts the requests. *)
Definition busy_api (n : nat) (served : nat) (requestBody : SearchTransactionsRpcRequest)
  : AxiosOutcome * nat :=
  if Nat.ltb served n then
    (serve_error 429 "Rate limit exceeded" requestBody, S served)
  else
    (serve_page {| records := []; nextCursor := None |} requestBody, S served).

(** An API of endless pages in the [transactions] envelope. *)
Definition endless_api (s : unit) (requestBody : SearchTransactionsRpcRequest)
  : AxiosOutcome * unit :=
  (Resolved (transactions_body (id requestBody)
               {| records := [signature_record 1]; nextCursor := Some "10:1" |}), s).

(** A scripted API in the [transactions] envelope. *)
Definition serve_transactions (p : ResultPage) : Responder :=
  fun requestBody => Resolved (transactions_body (id requestBody) p).

(** A stand-in for the string conversion of the runtime in examples. *)
Definition to_string_stub (v : JsVal) : string :=
  match v with
  | JStr s => s
  | _ => "undefined"
  end.

Close Scope prog_scope.

(** ** Example 2 of [index.ts] and the first snippet of BASIC_SEARCH.md *)

Open Scope prog_scope.

(** [v[0]] *)
Definition first_of (v : JsVal) : JsError + JsVal :=
  match v with
  | JUndefined => inl (TypeError "Cannot read properties of undefined")
  | JNull => inl (TypeError "Cannot read properties of null")
  | JArr [] => inr JUndefined
  | JArr (x :: _) => inr x
  | JStr EmptyString => inr JUndefined
  | JStr (String c _) => inr (JStr (String c EmptyString))
  | JObj fields => inr (own_property "0" fields)
  | _ => inr JUndefined
  end.

(** [v?.length] *)
Definition optional_length (v : JsVal) : JsError + JsVal :=
  if nullish v then inr JUndefined else length_of v.

(** [a || b] *)
Definition or_else (a b : JsVal) : JsVal := if truthy a then a else b.

(** [v.slice(0, 5)] *)
Definition slice_0_5 (v : JsVal) : JsError + JsVal :=
  match v with
  | JUndefined => inl (TypeError "Cannot read properties of undefined")
  | JNull => inl (TypeError "Cannot read properties of null")
  | JArr items => inr (JArr (firstn 5 items))
  | JStr s => inr (JStr (substring 0 5 s))
  | _ => inl (TypeError "slice is not a function")
  end.

(** The [requestBody] literal of example 2. *)
Definition full_request : SearchTransactionsRpcRequest :=
  {| id := 2;
     params :=
       {| Req.accountInclude := None;
          Req.accountExclude := None;
          Req.accountRequired := None;
          Req.fromBlock := None;
          Req.toBlock := None;
          Req.vote := None;
          Req.failed := None;
          Req.sort := None;
          Req.paginationToken := JUndefined;
          Req.limit := Some 5;
          Req.transactionDetails := Some Full |} |}.

Section FullExample.

Context {St : Type}.
Variable post : St -> SearchTransactionsRpcRequest -> AxiosOutcome * St.

(** The callback of example 2: six lines for one record. *)
Definition print_transaction (index : nat) (tx : JsVal) : P St unit :=
  transaction <- plift (get tx "transaction") ;;
  signatures <- plift (get transaction "signatures") ;;
  signature <- plift (first_of signatures) ;;
  print [Val (JNum (Z.of_nat index + 1)); Text ". Transaction: "; Val signature] ;;
  slot <- plift (get tx "slot") ;;
  print [Text "   Slot: "; Val slot] ;;
  meta <- plift (get tx "meta") ;;
  err <- plift (get meta "err") ;;
  print [Text "   Status: "; Text (if truthy err then "Failed" else "Success")] ;;
  meta <- plift (get tx "meta") ;;
  fee <- plift (get meta "fee") ;;
  print [Text "   Fee: "; Val fee; Text " lamports"] ;;
  transaction <- plift (get tx "transaction") ;;
  message <- plift (get transaction "message") ;;
  instructions <- plift (get message "instructions") ;;
  count <- plift (length_of instructions) ;;
  print [Text "   Instructions: "; Val count] ;;
  meta <- plift (get tx "meta") ;;
  logMessages <- plift (get meta "logMessages") ;;
  logs <- plift (optional_length logMessages) ;;
  print [Text "   Log messages: "; Val (or_else logs (JNum 0)); Text nl].

Definition fetchLatestTransactions : P St unit :=
  print [Text (nl ++ "=== Example 2: Full Transaction Details ===" ++ nl)] ;;
  result <- call (searchTransactions post full_request) ;;
  data <- plift (get result "data") ;;
  count <- plift (length_of data) ;;
  print [Text "Fetched "; Val count; Text (" full transactions" ++ nl)] ;;
  items <- plift (for_each_of data) ;;
  for_each print_transaction 0 items.

End FullExample.

Module BasicSearch.

Section Snippet.

Context {St : Type}.
Variable post : St -> SearchTransactionsRpcRequest -> AxiosOutcome * St.

(** [fetchLatestSignatures] as BASIC_SEARCH.md gives it: no helper, the
    records under [transactions], and [return] in place of [throw] on an
    error response. *)
Definition fetchLatestSignatures : P St JsVal :=
  ptry
    (data <- call (axios_post post latest_signatures_request) ;;
     error <- plift (get data "error") ;;
     if truthy error then
       print [Text "API Error:"; Val error] ;;
       pret JUndefined
     else
       result <- plift (get data "result") ;;
       transactions <- plift (get result "transactions") ;;
       paginationToken <- plift (get result "paginationToken") ;;
       count <- plift (length_of transactions) ;;
       print [Text "Fetched "; Val count; Text " signatures"] ;;
       shown <- plift (slice_0_5 transactions) ;;
       print [Text "Latest signatures:"; Val shown] ;;
       print [Text "Has more results:"; Val (JBool (not_null paginationToken))] ;;
       pret transactions)
    (fun error =>
       print [Text "Request failed:"; Thrown error] ;;
       pthrow error).

End Snippet.

End BasicSearch.

(** A record of the full mode, as example 2 reads it. *)
Definition full_fields (logMessages : JsVal) : list (string * JsVal) :=
  [("slot", JNum 394941095);
   ("transaction",
    JObj [("signatures", JArr [JStr "5J8nG7"]);
          ("message", JObj [("instructions", JArr [JNum 1; JNum 2])])]);
   ("meta", JObj [("err", JNull); ("fee", JNum 5000);
                  ("logMessages", logMessages)])].

Definition full_record (logMessages : JsVal) : JsVal :=
  JObj (full_fields logMessages).

Close Scope prog_scope.

(** ** Example 6 of [index.ts] *)

Open Scope prog_scope.

(** The [requestBody] literal of example 6. *)
Definition filtering_request : SearchTransactionsRpcRequest :=
  {| id := 6;
     params :=
       {| Req.accountInclude := Some ["TokenkegQfeZyiNwAJbNbGKPFXCWuBvf9Ss623VQ5DA"];
          Req.accountExclude := Some ["JUP6LkbZbjS1jKKwapdHNy74zcZ3tLUZoi5QNyVTaV4"];
          Req.accountRequired := None;
          Req.fromBlock := Some 394940000;
          Req.toBlock := Some 394941000;
          Req.vote := Some false;
          Req.failed := Some false;
          Req.sort := Some DESC;
          Req.paginationToken := JUndefined;
          Req.limit := Some 10;
          Req.transactionDetails := None |} |}.

(** Whether [String(v)], which a template literal applies to a value,
    returns.  On parsed JSON it throws a TypeError in one case only: for
    an object with an own member [toString], which hides the method of
    the prototype and cannot be called; an array joins the strings of
    its elements, so it fails when one of them does. *)
Fixpoint stringable (v : JsVal) : bool :=
  match v with
  | JArr items => forallb stringable items
  | JObj fields => negb (has_key "toString" fields)
  | _ => true
  end.

(** [${v}]: the value whose string goes into the line. *)
Definition interpolate (v : JsVal) : JsError + JsVal :=
  if stringable v then inr v
  else inl (TypeError "Cannot convert object to primitive value").

(** The callback of example 6 can print the record: it is not [null],
    and its [signature] and [slot] have a string. *)
Definition listable (tx : JsVal) : bool :=
  match get tx "signature", get tx "slot" with
  | inr signature, inr slot => stringable signature && stringable slot
  | _, _ => false
  end.

Section FilteringExample.

Context {St : Type}.
Variable post : St -> SearchTransactionsRpcRequest -> AxiosOutcome * St.

(** The callback of example 6: two lines for one record. *)
Definition print_filtered (index : nat) (tx : JsVal) : P St unit :=
  signature <- plift (get tx "signature") ;;
  signature <- plift (interpolate signature) ;;
  print [Val (JNum (Z.of_nat index + 1)); Text ". "; Val signature] ;;
  slot <- plift (get tx "slot") ;;
  slot <- plift (interpolate slot) ;;
  print [Text "   Slot: "; Val slot; Text nl].

Definition advancedFiltering : P St unit :=
  print [Text (nl ++ "=== Example 6: Advanced Filtering ===" ++ nl)] ;;
  result <- call (searchTransactions post filtering_request) ;;
  data <- plift (get result "data") ;;
  count <- plift (length_of data) ;;
  count <- plift (interpolate count) ;;
  print [Text "Found "; Val count; Text (" filtered transactions" ++ nl)] ;;
  items <- plift (for_each_of data) ;;
  for_each print_filtered 0 items.

End FilteringExample.

Close Scope prog_scope.

(** ** [searchWithCache] of API.md *)

(** [const cache = new Map()], with the keys [JSON.stringify] gives. *)
Definition Cache : Type := list (string * JsVal).

(** [cache.has(key)] and [cache.get(key)] in one. *)
Fixpoint cache_get (key : string) (cache : Cache) : option JsVal :=
  match cache with
  | [] => None
  | (k, v) :: rest => if String.eqb k key then Some v else cache_get key rest
  end.

(** [cache.set(key, value)]: the entry of the key is replaced, a new key
    is added at the end. *)
Fixpoint cache_set (key : string) (value : JsVal) (cache : Cache) : Cache :=
  match cache with
  | [] => [(key, value)]
  | (k, v) :: rest =>
      if String.eqb k key then (k, value) :: rest
      else (k, v) :: cache_set key value rest
  end.

Section Caching.

Context {St : Type}.

(** [JSON.stringify] on params, and the helper [search] the snippet
    calls: any computation on the state of the API. *)
Variable stringify : Req.SearchParams -> string.
Variable search : Req.SearchParams -> M St JsVal.

Definition searchWithCache (params : Req.SearchParams) : M (Cache * St) JsVal :=
  let key := stringify params in
  bind get_state (fun now =>
    match cache_get key (fst now) with
    | Some cached => ret cached
    | None =>
        bind (zoom (search params)) (fun result =>
          bind (modify (fun now => (cache_set key result (fst now), snd now)))
               (fun _ => ret result))
    end).

(** The function is [async]: between [cache.has] and [cache.set] it is
    suspended at [await], and other calls run in that time.  A call in
    flight is kept with its key and with what its [search] settles to. *)
Definition Flight : Type := (string * (JsError + JsVal))%type.

(** [searchWithCache] up to [await]: on a hit the call returns at once;
    on a miss [search] is called and the call is suspended. *)
Definition searchWithCache_enter (params : Req.SearchParams)
  (now : list Flight * (Cache * St))
  : option JsVal * (list Flight * (Cache * St)) * list Event :=
  let key := stringify params in
  match cache_get key (fst (snd now)) with
  | Some cached => (Some cached, now, [])
  | None =>
      match search params (snd (snd now)) with
      | (r, s1, ev) => (None, (fst now ++ [(key, r)], (fst (snd now), s1)), ev)
      end
  end.

(** [searchWithCache] after [await], for the call in flight number [i]:
    a rejection is thrown on, a result is stored under the key of the
    call and returned. *)
Definition searchWithCache_resume (i : nat) (now : list Flight * (Cache * St))
  : option ((JsError + JsVal) * (list Flight * (Cache * St))) :=
  match nth_error (fst now) i with
  | None => None
  | Some (key, inl e) =>
      Some (inl e, (firstn i (fst now) ++ skipn (S i) (fst now), snd now))
  | Some (key, inr result) =>
      Some (inr result,
            (firstn i (fst now) ++ skipn (S i) (fst now),
             (cache_set key result (fst (snd now)), snd (snd now))))
  end.

(** Calls are started and calls in flight are resumed, in any order. *)
Inductive moves : list Flight * (Cache * St) -> list Flight * (Cache * St) -> Prop :=
| moves_none (now : list Flight * (Cache * St)) : moves now now
| moves_enter (now next final : list Flight * (Cache * St)) (params : Req.SearchParams)
    (back : option JsVal) (ev : list Event) :
    searchWithCache_enter params now = (back, next, ev) ->
    moves next final ->
    moves now final
| moves_resume (now next final : list Flight * (Cache * St)) (i : nat)
    (r : JsError + JsVal) :
    searchWithCache_resume i now = Some (r, next) ->
    moves next final ->
    moves now final.

(** In the step from [now] to [next] a call with the key [key] returned
    [result]: at once, from the cache, or when it was resumed. *)
Inductive returned : string -> JsVal ->
  list Flight * (Cache * St) -> list Flight * (Cache * St) -> Prop :=
| returned_cached (params : Req.SearchParams) (now : list Flight * (Cache * St))
    (result : JsVal) :
    searchWithCache_enter params now = (Some result, now, []) ->
    returned (stringify params) result now now
| returned_fetched (i : nat) (key : string) (result : JsVal)
    (now next : list Flight * (Cache * St)) :
    nth_error (fst now) i = Some (key, inr result) ->
    searchWithCache_resume i now = Some (inr result, next) ->
    returned key result now next.

End Caching.

(** Stand-ins for examples: [search] through the client of [index.ts],
    and keys that tell a limited query from an unlimited one. *)
Definition search_stub (params : Req.SearchParams) : M (list Responder) JsVal :=
  searchTransactions mock_post {| id := 1; params := params |}.

Definition stringify_stub (params : Req.SearchParams) : string :=
  match Req.limit params with
  | Some _ => "{limit}"
  | None => "{}"
  end.

(** A page of one record that ends the results. *)
Definition one_record (n : Z) : ResultPage :=
  {| records := [signature_record n]; nextCursor := None |}.
(** * Facts *)

Lemma exchanges_app (a b : list Event) :
  exchanges (a ++ b) = exchanges a ++ exchanges b.
Proof.
  induction a as [|[requestBody outcome|line] a IH]; simpl; [reflexivity| |exact IH].
  now rewrite IH.
Qed.

Lemma reports_end_app (a b : list Event) :
  existsb reports_end (a ++ b) = existsb reports_end a || existsb reports_end b.
Proof. apply existsb_app. Qed.

Lemma own_property_missing (key : string) (fields : list (string * JsVal)) :
  has_key key fields = false -> own_property key fields = JUndefined.
Proof.
  induction fields as [|[k v] fields IH]; simpl; [reflexivity|].
  destruct (String.eqb k key); simpl; [discriminate|exact IH].
Qed.

Lemma read_page_served (i : Z) (p : ResultPage) :
  read_page (Resolved (success_body i p)) = inr (records p, cursor_value p).
Proof. reflexivity. Qed.

Lemma not_null_false (v : JsVal) : not_null v = false <-> v = JNull.
Proof. destruct v; simpl; split; congruence. Qed.

Section ClientFacts.

Context {St : Type}.
Variable post : St -> SearchTransactionsRpcRequest -> AxiosOutcome * St.

(** One call is one POST of the request as it was given; what comes
    back is read off the answer. *)
Lemma searchTransactions_run (requestBody : SearchTransactionsRpcRequest) (s : St) :
  exists lines,
    searchTransactions post requestBody s =
      (read_result (fst (post s requestBody)), snd (post s requestBody),
       Post requestBody (fst (post s requestBody)) :: lines)
    /\ exchanges lines = []
    /\ existsb reports_end lines = false
    /\ (forall v, read_result (fst (post s requestBody)) = inr v -> lines = []).
Proof.
  unfold searchTransactions, try_catch, bind, axios_post.
  destruct (post s requestBody) as [[reason|data] s1]; simpl.
  - eexists; repeat split; try reflexivity. discriminate.
  - destruct (get data "error") as [e|error] eqn:Herr; simpl.
    + eexists; repeat split; try reflexivity. discriminate.
    + destruct (truthy error) eqn:Ht; simpl.
      * destruct (get error "message") as [e|message]; simpl;
          (eexists; repeat split; try reflexivity; discriminate).
      * destruct (get data "result") as [e|result]; simpl;
          (eexists; repeat split; try reflexivity; discriminate).
Qed.

End ClientFacts.

Section LoopFacts.

Context {St : Type}.
Variable post : St -> SearchTransactionsRpcRequest -> AxiosOutcome * St.

(** One round of the loop: one POST of [page_request], then either the
    throw, or the push, the new token and the decision. *)
Lemma loop_body_run (l : Locals) (s : St) :
  let requestBody := page_request (pageCount l + 1) (paginationToken l) in
  let outcome := fst (post s requestBody) in
  exists ev,
    exchanges ev = [(requestBody, outcome)] /\
    match read_page outcome with
    | inl e =>
        loop_body post (l, s) =
          (inl e,
           ({| allTransactions := allTransactions l;
               paginationToken := paginationToken l;
               pageCount := pageCount l + 1 |}, snd (post s requestBody)), ev)
        /\ existsb reports_end ev = false
    | inr (items, token) =>
        loop_body post (l, s) =
          (inr ((pageCount l + 1 <? 3) && not_null token),
           ({| allTransactions := allTransactions l ++ items;
               paginationToken := token;
               pageCount := pageCount l + 1 |}, snd (post s requestBody)), ev)
        /\ existsb reports_end ev = negb (not_null token)
    end.
Proof.
  intros requestBody outcome.
  destruct (searchTransactions_run post requestBody s)
    as (lines & Hrun & Hex & Hquiet & Hnone).
  fold outcome in Hrun, Hnone.
  unfold loop_body, bind, modify, get_state, console, zoom, lift, ret; simpl.
  fold requestBody. rewrite Hrun. unfold read_page.
  destruct (read_result outcome) as [e|result]; simpl.
  - eexists; split; [|split; [reflexivity|]]; simpl; [now rewrite Hex|exact Hquiet].
  - rewrite (Hnone result eq_refl).
    destruct result; simpl;
      try (eexists; split; [|split; [reflexivity|]]; reflexivity).
    destruct (spread (own_property "data" fields)) as [e|items]; simpl;
      [eexists; split; [|split; [reflexivity|]]; reflexivity|].
    replace (3 <=? pageCount l + 1) with (negb (pageCount l + 1 <? 3))
      by (destruct (Z.ltb_spec (pageCount l + 1) 3), (Z.leb_spec 3 (pageCount l + 1));
          simpl; try reflexivity; lia).
    destruct (pageCount l + 1 <? 3); simpl;
      (eexists; split; [|split; [reflexivity|]]; simpl; [reflexivity|]);
      destruct (not_null (own_property "paginationToken" fields)); reflexivity.
Qed.

Lemma do_while_run (fuel : nat) :
  forall (l : Locals) (s : St),
    (1 <= fuel)%nat ->
    3 - pageCount l <= Z.of_nat fuel ->
    exists r l' s' ev,
      do_while fuel (loop_body post) (l, s) = Some (r, (l', s'), ev) /\
      walk (pageCount l) (paginationToken l) (allTransactions l) (exchanges ev) r l' /\
      replays post s (exchanges ev) s' /\
      (existsb reports_end ev = true -> r = inr tt /\ paginationToken l' = JNull).
Proof.
  induction fuel as [|fuel IH]; intros l s Hfuel Hbudget; [lia|].
  destruct (loop_body_run l s) as (ev & Hex & Hbody).
  set (requestBody := page_request (pageCount l + 1) (paginationToken l)) in *.
  assert (Hpost : post s requestBody = (fst (post s requestBody), snd (post s requestBody)))
    by apply surjective_pairing.
  cbn [do_while].
  destruct (read_page (fst (post s requestBody))) as [e|[items token]] eqn:Hread.
  - destruct Hbody as [-> Hquiet].
    eexists _, _, _, _; split; [reflexivity|]. rewrite Hex.
    split; [|split].
    + now apply walk_throw.
    + econstructor; [exact Hpost|constructor].
    + rewrite Hquiet; discriminate.
  - destruct Hbody as [-> Hends].
    destruct ((pageCount l + 1 <? 3) && not_null token) eqn:Hgo.
    + apply andb_prop in Hgo as [Hlt Hnn].
      apply Z.ltb_lt in Hlt.
      assert (Hfuel' : (1 <= fuel)%nat) by lia.
      assert (Hbudget' : 3 - (pageCount l + 1) <= Z.of_nat fuel) by lia.
      destruct (IH {| allTransactions := allTransactions l ++ items;
                      paginationToken := token;
                      pageCount := pageCount l + 1 |} (snd (post s requestBody))
                  Hfuel' Hbudget')
        as (r & l' & s' & ev' & Hrun & Hwalk & Hreplay & Hend).
      rewrite Hrun.
      eexists _, _, _, _; split; [reflexivity|].
      rewrite exchanges_app, Hex. simpl in *.
      split; [|split].
      * eapply walk_next; eauto.
        intros ->; discriminate.
      * econstructor; [exact Hpost|exact Hreplay].
      * rewrite reports_end_app, Hends, Hnn. simpl. exact Hend.
    + eexists _, _, _, _; split; [reflexivity|]. rewrite Hex.
      split; [|split].
      * now apply walk_stop.
      * econstructor; [exact Hpost|constructor].
      * simpl. rewrite Hends. destruct token; simpl; intros; try discriminate.
        now split.
Qed.

End LoopFacts.

(** ** What follows from the shape of a session *)

Section WalkFacts.

Lemma walk_chained n token all (ex : list (SearchTransactionsRpcRequest * AxiosOutcome)) r l :
  walk n token all ex r l -> chained (n + 1) token ex.
Proof.
  induction 1 as [n token all outcome e Hread
                 |n token all outcome items token' Hread Hstop
                 |n token all outcome items token' rest r l Hread Hlt Hnn Hwalk IH].
  - apply chained_last.
  - apply chained_last.
  - apply chained_cons with token'; [|exact Hnn|exact IH].
    unfold returned_token. now rewrite Hread.
Qed.

Lemma walk_length n token all (ex : list (SearchTransactionsRpcRequest * AxiosOutcome)) r l :
  walk n token all ex r l ->
  (1 <= List.length ex)%nat /\
  Z.of_nat (List.length ex) <= Z.max 1 (3 - n) /\
  pageCount l = n + Z.of_nat (List.length ex).
Proof.
  induction 1 as [n token all outcome e Hread
                 |n token all outcome items token' Hread Hstop
                 |n token all outcome items token' rest r l Hread Hlt Hnn Hwalk IH];
    cbn [List.length pageCount]; try lia.
Qed.


(** A page that cannot be read is the last exchange, and its error is
    the result. *)
Lemma walk_error n token all (ex : list (SearchTransactionsRpcRequest * AxiosOutcome)) r l :
  walk n token all ex r l ->
  forall k requestBody outcome e,
    nth_error ex k = Some (requestBody, outcome) ->
    read_page outcome = inl e ->
    r = inl e /\
    List.length ex = S k /\
    allTransactions l = all ++ flat_map (fun x => yielded (snd x)) (firstn k ex).
Proof.
  induction 1 as [n token all outcome e Hread
                 |n token all outcome items token' Hread Hstop
                 |n token all outcome items token' rest r l Hread Hlt Hnn Hwalk IH];
    intros k requestBody outcome0 e0 Hnth Hbad.
  - destruct k as [|k]; simpl in Hnth; [|destruct k; discriminate].
    injection Hnth as _ <-. rewrite Hread in Hbad. injection Hbad as <-.
    simpl. now rewrite app_nil_r.
  - destruct k as [|k]; simpl in Hnth; [|destruct k; discriminate].
    injection Hnth as _ <-. rewrite Hread in Hbad. discriminate.
  - destruct k as [|k]; simpl in Hnth.
    + injection Hnth as _ <-. rewrite Hread in Hbad. discriminate.
    + destruct (IH k requestBody outcome0 e0 Hnth Hbad) as (-> & Hlen & Hall).
      split; [reflexivity|]. split; [simpl; now rewrite Hlen|].
      rewrite Hall. cbn [firstn flat_map snd]. unfold yielded at 2.
      rewrite Hread. now rewrite app_assoc.
Qed.

(** A page that can be read and has a token is followed by the request
    that carries this token, unless it was the third. *)
Lemma walk_continues n token all (ex : list (SearchTransactionsRpcRequest * AxiosOutcome)) r l :
  walk n token all ex r l ->
  forall k requestBody outcome items token',
    nth_error ex k = Some (requestBody, outcome) ->
    read_page outcome = inr (items, token') ->
    token' <> JNull ->
    n + Z.of_nat k + 1 < 3 ->
    exists outcome',
      nth_error ex (S k) = Some (page_request (n + Z.of_nat k + 2) token', outcome').
Proof.
  induction 1 as [n token all outcome e Hread
                 |n token all outcome items token' Hread Hstop
                 |n token all outcome items token' rest r l Hread Hlt Hnn Hwalk IH];
    intros k requestBody outcome0 items0 token0 Hnth Hgood Htok Hroom.
  - destruct k as [|k]; simpl in Hnth; [|destruct k; discriminate].
    injection Hnth as _ <-. rewrite Hread in Hgood. discriminate.
  - destruct k as [|k]; simpl in Hnth; [|destruct k; discriminate].
    injection Hnth as _ <-. rewrite Hread in Hgood. injection Hgood as <- <-.
    apply andb_false_iff in Hstop as [Hstop|Hstop].
    + apply Z.ltb_ge in Hstop. simpl in Hroom. lia.
    + apply not_null_false in Hstop. contradiction.
  - destruct k as [|k]; simpl in Hnth.
    + injection Hnth as _ <-. rewrite Hread in Hgood. injection Hgood as <- <-.
      inversion Hwalk; subst; simpl; eexists;
        replace (n + 0 + 2) with (n + 1 + 1) by lia; reflexivity.
    + destruct (IH k requestBody outcome0 items0 token0 Hnth Hgood Htok) as [outcome' Hnext].
      * lia.
      * exists outcome'. cbn [nth_error].
        replace (n + Z.of_nat (S k) + 2) with (n + 1 + Z.of_nat k + 2) by lia.
        exact Hnext.
Qed.

(** A session starts with the request of the next page. *)
Lemma walk_first n token all (ex : list (SearchTransactionsRpcRequest * AxiosOutcome)) r l :
  walk n token all ex r l ->
  exists outcome, nth_error ex 0 = Some (page_request (n + 1) token, outcome).
Proof. destruct 1; eexists; reflexivity. Qed.

(** The exchange of the third page ends the session. *)
Lemma walk_third n token all (ex : list (SearchTransactionsRpcRequest * AxiosOutcome)) r l :
  walk n token all ex r l ->
  forall k requestBody outcome,
    nth_error ex k = Some (requestBody, outcome) ->
    3 <= n + Z.of_nat k + 1 ->
    List.length ex = S k /\
    forall items token',
      read_page outcome = inr (items, token') ->
      r = inr tt /\ paginationToken l = token'.
Proof.
  induction 1 as [n token all outcome e Hread
                 |n token all outcome items token' Hread Hstop
                 |n token all outcome items token' rest r l Hread Hlt Hnn Hwalk IH];
    intros k requestBody outcome0 Hnth Hthird.
  - destruct k as [|k]; simpl in Hnth; [|destruct k; discriminate].
    injection Hnth as _ <-. split; [reflexivity|].
    intros items token' Hgood. rewrite Hread in Hgood. discriminate.
  - destruct k as [|k]; simpl in Hnth; [|destruct k; discriminate].
    injection Hnth as _ <-. split; [reflexivity|].
    intros items0 token0 Hgood. rewrite Hread in Hgood. injection Hgood as <- <-.
    now split.
  - destruct k as [|k]; simpl in Hnth.
    + simpl in Hthird. lia.
    + destruct (IH k requestBody outcome0 Hnth) as [Hlen Hres]; [lia|].
      split; [simpl; now rewrite Hlen|exact Hres].
Qed.

End WalkFacts.

(** ** Sessions against an API that serves pages *)

Lemma taken_exhausts (pages : list ResultPage) :
  exhausts pages = true -> forall budget, taken budget pages = firstn budget pages.
Proof.
  induction pages as [|p rest IH]; intros Hex budget.
  - now destruct budget.
  - destruct budget as [|budget]; [reflexivity|]. cbn [taken firstn].
    cbn [exhausts] in Hex.
    destruct rest as [|q rest].
    + destruct (nextCursor p); [discriminate|]. now destruct budget.
    + destruct (nextCursor p); [|discriminate]. now rewrite IH.
Qed.

Lemma enough_exhausts (pages : list ResultPage) :
  exhausts pages = true -> forall budget, enough (S budget) pages = true.
Proof.
  induction pages as [|p rest IH]; intros Hex budget; [discriminate|].
  cbn [enough]. cbn [exhausts] in Hex.
  destruct rest as [|q rest].
  - now destruct (nextCursor p).
  - destruct (nextCursor p); [|discriminate].
    destruct budget; [reflexivity|]. now apply IH.
Qed.

Lemma taken_relabel (g : string -> string) (pages : list ResultPage) :
  forall budget, taken budget (map (relabel g) pages) = map (relabel g) (taken budget pages).
Proof.
  induction pages as [|p rest IH]; intros [|budget]; try reflexivity.
  cbn [map taken relabel nextCursor]. destruct (nextCursor p); simpl; [|reflexivity].
  now rewrite IH.
Qed.

Lemma enough_relabel (g : string -> string) (pages : list ResultPage) :
  forall budget, enough budget (map (relabel g) pages) = enough budget pages.
Proof.
  induction pages as [|p rest IH]; intros [|budget]; try reflexivity.
  cbn [map enough relabel nextCursor]. destruct (nextCursor p); simpl; [|reflexivity].
  destruct budget; [reflexivity|]. apply IH.
Qed.

Lemma cursor_value_relabel (g : string -> string) (p : ResultPage) :
  cursor_value (relabel g p) = relabel_token g (cursor_value p).
Proof. unfold cursor_value, relabel; simpl. now destruct (nextCursor p). Qed.

Lemma last_default {A : Type} (l : list A) :
  forall x d d', last (x :: l) d = last (x :: l) d'.
Proof.
  induction l as [|y l IH]; intros x d d'; [reflexivity|].
  change (last (y :: l) d = last (y :: l) d'). apply IH.
Qed.

Section PagedFacts.

Context {St : Type}.
Variable post : St -> SearchTransactionsRpcRequest -> AxiosOutcome * St.

(** Against an API that serves [pages], the session takes the pages in
    order, echoing each cursor, and ends without an error. *)
Lemma paged_walk (pages : list ResultPage) :
  forall budget n token all ex r l s s',
    n + Z.of_nat budget = 3 ->
    enough budget pages = true ->
    serves post s token pages ->
    walk n token all ex r l ->
    replays post s ex s' ->
    r = inr tt /\
    allTransactions l = all ++ List.concat (map records (taken budget pages)) /\
    map request_token ex =
      firstn (List.length (taken budget pages))
             (token :: map cursor_value (taken budget pages)) /\
    paginationToken l = last (map cursor_value (taken budget pages)) token.
Proof.
  induction pages as [|p rest IH];
    intros budget n token all ex r l s s' Hn Henough Hserves Hwalk Hreplay.
  - destruct budget; discriminate.
  - destruct budget as [|budget]; [discriminate|].
    inversion Hserves as [|? ? ? ? Hanswer]; subst.
    assert (Hfirst : forall outcome tail,
               ex = (page_request (n + 1) token, outcome) :: tail ->
               read_page outcome = inr (records p, cursor_value p) /\
               exists s1, serves post s1 (cursor_value p) rest /\ replays post s1 tail s').
    { intros outcome tail ->.
      inversion Hreplay as [|? ? ? s1 ? ? Hpost Hrest]; subst.
      destruct (Hanswer (page_request (n + 1) token) eq_refl) as (s1' & Hpost' & Hserves').
      rewrite Hpost in Hpost'. injection Hpost' as -> ->.
      split; [apply read_page_served|]. now exists s1'. }
    cbn [taken map List.concat].
    inversion Hwalk as [? ? ? outcome e Hread
                       |? ? ? outcome items token' Hread Hstop
                       |? ? ? outcome items token' tail ? ? Hread Hlt Hnn Hwalk'];
      subst.
    + destruct (Hfirst _ _ eq_refl) as [Hgood _]. rewrite Hgood in Hread. discriminate.
    + destruct (Hfirst _ _ eq_refl) as [Hgood _]. rewrite Hgood in Hread.
      injection Hread as <- <-.
      assert (Hone : match nextCursor p with
                     | None => []
                     | Some _ => taken budget rest
                     end = []).
      { unfold cursor_value in Hstop. destruct (nextCursor p); [|reflexivity].
        simpl in Hstop. rewrite andb_true_r in Hstop. apply Z.ltb_ge in Hstop.
        destruct budget; [reflexivity|lia]. }
      rewrite Hone. cbn. rewrite app_nil_r. repeat split.
    + destruct (Hfirst _ _ eq_refl) as [Hgood (s1 & Hserves' & Hreplay')].
      rewrite Hgood in Hread. injection Hread as <- <-.
      destruct (nextCursor p) as [c|] eqn:Hc;
        [|unfold cursor_value in Hnn; rewrite Hc in Hnn; contradiction].
      destruct budget as [|budget]; [lia|].
      change (enough (S (S budget)) (p :: rest))
        with (match nextCursor p with
              | None => true
              | Some _ => enough (S budget) rest
              end) in Henough.
      rewrite Hc in Henough.
      destruct (IH (S budget) (n + 1) (cursor_value p) (all ++ records p) tail r l s1 s')
        as (Hr & Hall & Htokens & Hlast); auto; [lia|].
      split; [exact Hr|]. split; [|split].
      * rewrite Hall. now rewrite app_assoc.
      * cbn [map request_token fst page_request params Req.paginationToken].
        rewrite Htokens. reflexivity.
      * rewrite Hlast.
        destruct (taken (S budget) rest) as [|q qs] eqn:Htaken.
        -- destruct rest; discriminate.
        -- cbn [map]. symmetry. apply (last_default (map cursor_value qs)).
Qed.

End PagedFacts.

(** ** The whole function *)

Lemma do_while_more_fuel {S : Type} (body : M S bool) (fuel : nat) :
  forall (s : S) (x : Run S unit),
    do_while fuel body s = Some x ->
    forall fuel', (fuel <= fuel')%nat -> do_while fuel' body s = Some x.
Proof.
  induction fuel as [|fuel IH]; intros s x Hrun fuel' Hle; [discriminate|].
  destruct fuel' as [|fuel']; [lia|].
  cbn [do_while] in *.
  destruct (body s) as [[[e|[|]] s1] ev1]; try exact Hrun.
  destruct (do_while fuel body s1) as [[[r s2] ev2]|] eqn:Hrest; [|discriminate].
  rewrite (IH s1 _ Hrest fuel'); [exact Hrun|lia].
Qed.

Section FunctionFacts.

Context {St : Type}.
Variable post : St -> SearchTransactionsRpcRequest -> AxiosOutcome * St.

(** With fuel for three rounds the function ends; its exchanges form a
    session that starts without a token, at page 1, with no records. *)
Lemma fetchAll_run (fuel : nat) (s : St) :
  (3 <= fuel)%nat ->
  exists r l s' ev,
    fetchAllTransactionsWithPagination post fuel s = Some (r, (l, s'), ev) /\
    walk 0 JNull [] (exchanges ev) r l /\
    replays post s (exchanges ev) s' /\
    (forall e, r = inl e -> existsb reports_end ev = false).
Proof.
  intros Hfuel.
  destruct (do_while_run post fuel initial_locals s) as (r & l & s' & ev & Hrun & Hwalk & Hreplay & Hend);
    [lia|simpl; lia|].
  unfold fetchAllTransactionsWithPagination. rewrite Hrun.
  destruct r as [e|[]].
  - eexists _, _, _, _; split; [reflexivity|].
    cbn [exchanges]. split; [exact Hwalk|]. split; [exact Hreplay|].
    intros e' _. cbn [existsb reports_end orb].
    destruct (existsb reports_end ev); [|reflexivity].
    destruct (Hend eq_refl) as [Hr _]. discriminate.
  - eexists _, _, _, _; split; [reflexivity|].
    cbn [exchanges]. rewrite exchanges_app. cbn [exchanges]. rewrite app_nil_r.
    split; [exact Hwalk|]. split; [exact Hreplay|].
    intros e He. discriminate.
Qed.

Lemma fetchAll_fuel (fuel : nat) (s : St) :
  (3 <= fuel)%nat ->
  fetchAllTransactionsWithPagination post fuel s =
  fetchAllTransactionsWithPagination post 3 s.
Proof.
  intros Hfuel.
  destruct (do_while_run post 3 initial_locals s) as (r & l & s' & ev & Hrun & _);
    [lia|simpl; lia|].
  unfold fetchAllTransactionsWithPagination.
  now rewrite (do_while_more_fuel _ _ _ _ Hrun fuel Hfuel), Hrun.
Qed.

End FunctionFacts.

(** ** The pagination loop *)

(** C1, as amended: against an API that serves a finite run of pages of
    which only the last has no cursor, the loop ends without an error and
    [allTransactions] is the concatenation, in the order served, of the
    records of the first three pages; when there are at most three pages
    these are all the pages, and the token left is null. *)
Theorem C1_loop_collects_first_three_pages
  {St : Type} (post : St -> SearchTransactionsRpcRequest -> AxiosOutcome * St)
  (s : St) (pages : list ResultPage) (fuel : nat) :
  exhausts pages = true ->
  serves post s JNull pages ->
  (3 <= fuel)%nat ->
  exists l s' ev,
    fetchAllTransactionsWithPagination post fuel s = Some (inr tt, (l, s'), ev) /\
    allTransactions l = List.concat (map records (firstn 3 pages)) /\
    List.length (exchanges ev) = Nat.min 3 (List.length pages) /\
    ((List.length pages <= 3)%nat ->
     allTransactions l = List.concat (map records pages) /\ paginationToken l = JNull).
Proof.
  intros Hpages Hserves Hfuel.
  destruct (fetchAll_run post fuel s Hfuel) as (r & l & s' & ev & Hrun & Hwalk & Hreplay & _).
  destruct (paged_walk post pages 3 0 JNull [] (exchanges ev) r l s s')
    as (-> & Hall & Htokens & Hlast); auto.
  { now apply enough_exhausts. }
  rewrite (taken_exhausts pages Hpages) in Hall, Htokens, Hlast.
  exists l, s', ev. split; [exact Hrun|]. split; [exact Hall|]. split.
  - apply (f_equal (@List.length _)) in Htokens.
    rewrite length_map in Htokens. rewrite Htokens.
    rewrite length_firstn. cbn [List.length]. rewrite length_map, length_firstn. lia.
  - intros Hshort. rewrite firstn_all2 in Hall, Hlast by exact Hshort.
    split; [exact Hall|]. rewrite Hlast.
    clear - Hpages. induction pages as [|p rest IH]; [discriminate|].
    cbn [exhausts] in Hpages. destruct rest as [|q rest].
    + unfold cursor_value. simpl. now destruct (nextCursor p).
    + destruct (nextCursor p); [|discriminate]. exact (IH Hpages).
Qed.

Lemma cursor_api_serves_three :
  serves (cursor_api three_pages) tt JNull three_pages.
Proof. unfold three_pages. serve_pages. Qed.

Lemma cursor_api_serves_four :
  serves (cursor_api four_pages) tt JNull four_pages.
Proof. unfold four_pages. serve_pages. Qed.

Lemma cursor_api_serves_sparse :
  serves (cursor_api sparse_pages) tt JNull sparse_pages.
Proof. unfold sparse_pages. serve_pages. Qed.

Lemma cursor_api_serves_relabelled :
  serves (cursor_api (map (relabel add_prime) four_pages)) tt JNull
         (map (relabel add_prime) four_pages).
Proof. unfold four_pages. cbn [map relabel records nextCursor option_map]. serve_pages. Qed.

(** Three pages with the cursors "10:1", "10:5" and null, two records
    each: the six records come out in page order. *)
Lemma C1_three_pages_collected :
  exhausts three_pages = true /\
  serves (cursor_api three_pages) tt JNull three_pages /\
  (3 <= 3)%nat /\
  exists l s' ev,
    fetchAllTransactionsWithPagination (cursor_api three_pages) 3 tt
      = Some (inr tt, (l, s'), ev) /\
    allTransactions l = map signature_record [1; 2; 3; 4; 5; 6] /\
    paginationToken l = JNull.
Proof.
  split; [reflexivity|]. split; [exact cursor_api_serves_three|]. split; [lia|].
  destruct (C1_loop_collects_first_three_pages (cursor_api three_pages) tt three_pages 3
              eq_refl cursor_api_serves_three (le_n 3))
    as (l & s' & ev & Hrun & Hall & Hlen & Hshort).
  exists l, s', ev. split; [exact Hrun|].
  destruct (Hshort (le_n 3)) as [Hall' Hnull].
  split; [exact Hall'|exact Hnull].
Defined.

(** The claim C1 as it is written fails on four pages: the API serves
    them and the last has no cursor, but the loop stops after the third
    and the record of the fourth is not collected. *)
Lemma C1_fourth_page_is_left_out :
  exhausts four_pages = true /\
  serves (cursor_api four_pages) tt JNull four_pages /\
  exists l s' ev,
    fetchAllTransactionsWithPagination (cursor_api four_pages) 10 tt
      = Some (inr tt, (l, s'), ev) /\
    allTransactions l = map signature_record [1; 2; 3] /\
    allTransactions l <> List.concat (map records four_pages).
Proof.
  split; [reflexivity|]. split; [exact cursor_api_serves_four|].
  eexists _, _, _. split; [vm_compute; reflexivity|].
  split; [reflexivity|]. cbn. discriminate.
Qed.

(** C3: whatever the API does, the function ends, the same way for
    every fuel from three on, and its requests form one chain.  The first
    request is posted in any case, carries no token (null) and has id 1.
    Every later request has the next id and carries exactly the token
    that the page before it returned, and a page that was read, was the
    first or the second and returned a token that is not null is followed
    by such a request: no page is skipped.  The exchanges are the answers
    of the API to these requests, one after the other.  Against an API
    that serves pages, the tokens sent are null and then the cursors of
    the pages, in order.  The token is only tested against null: when the
    cursors of the pages an API serves are renamed, the loop collects the
    same records and sends the renamed tokens. *)
Theorem C3_requests_follow_the_returned_tokens
  {St : Type} (post : St -> SearchTransactionsRpcRequest -> AxiosOutcome * St)
  (s : St) (fuel : nat) :
  (3 <= fuel)%nat ->
  exists r l s' ev,
    fetchAllTransactionsWithPagination post fuel s = Some (r, (l, s'), ev) /\
    chained 1 JNull (exchanges ev) /\
    replays post s (exchanges ev) s' /\
    (forall (St2 : Type)
            (post2 : St2 -> SearchTransactionsRpcRequest -> AxiosOutcome * St2)
            (s2 : St2) (pages : list ResultPage) (g : string -> string),
       enough 3 pages = true ->
       serves post s JNull pages ->
       serves post2 s2 JNull (map (relabel g) pages) ->
       exists l2 s2' ev2,
         fetchAllTransactionsWithPagination post2 fuel s2 = Some (r, (l2, s2'), ev2) /\
         allTransactions l2 = allTransactions l /\
         map request_token (exchanges ev2) =
           map (relabel_token g) (map request_token (exchanges ev))) /\
    fetchAllTransactionsWithPagination post fuel s =
      fetchAllTransactionsWithPagination post 3 s /\
    (exists outcome, nth_error (exchanges ev) 0 = Some (page_request 1 JNull, outcome)) /\
    (forall k requestBody outcome items token,
       nth_error (exchanges ev) k = Some (requestBody, outcome) ->
       read_page outcome = inr (items, token) ->
       token <> JNull ->
       (k < 2)%nat ->
       exists outcome',
         nth_error (exchanges ev) (S k) =
           Some (page_request (Z.of_nat k + 2) token, outcome')) /\
    (forall pages,
       enough 3 pages = true ->
       serves post s JNull pages ->
       r = inr tt /\
       map request_token (exchanges ev) =
         firstn (List.length (taken 3 pages))
                (JNull :: map cursor_value (taken 3 pages)) /\
       allTransactions l = List.concat (map records (taken 3 pages))).
Proof.
  intros Hfuel.
  destruct (fetchAll_run post fuel s Hfuel) as (r & l & s' & ev & Hrun & Hwalk & Hreplay & _).
  exists r, l, s', ev. split; [exact Hrun|]. split; [|split; [exact Hreplay|split]].
  - exact (walk_chained 0 JNull [] _ _ _ Hwalk).
  - intros St2 post2 s2 pages g Henough Hserves Hserves2.
    destruct (fetchAll_run post2 fuel s2 Hfuel)
      as (r2 & l2 & s2' & ev2 & Hrun2 & Hwalk2 & Hreplay2 & _).
    destruct (paged_walk post pages 3 0 JNull [] (exchanges ev) r l s s')
      as (-> & Hall & Htokens & _); auto.
    destruct (paged_walk post2 (map (relabel g) pages) 3 0 JNull [] (exchanges ev2) r2 l2 s2 s2')
      as (-> & Hall2 & Htokens2 & _); auto.
    { now rewrite enough_relabel. }
    exists l2, s2', ev2. split; [exact Hrun2|].
    rewrite taken_relabel in Hall2, Htokens2.
    rewrite map_map in Hall2. cbn [relabel records] in Hall2.
    split; [now rewrite Hall2, Hall|].
    rewrite Htokens2, Htokens, length_map, <- firstn_map. cbn [map relabel_token].
    rewrite !map_map. do 2 f_equal.
    apply map_ext. intros p. apply cursor_value_relabel.
  - split; [exact (fetchAll_fuel post fuel s Hfuel)|]. split; [|split].
    + exact (walk_first 0 JNull [] _ _ _ Hwalk).
    + intros k requestBody outcome items token Hnth Hread Htoken Hk.
      destruct (walk_continues _ _ _ _ _ _ Hwalk k _ _ _ _ Hnth Hread Htoken)
        as [outcome' Hnext]; [lia|].
      exists outcome'. exact Hnext.
    + intros pages Henough Hserves.
      destruct (paged_walk post pages 3 0 JNull [] (exchanges ev) r l s s')
        as (Hr & Hall & Htokens & _); auto.
Qed.

Lemma C3_tokens_of_four_pages :
  (3 <= 3)%nat /\
  enough 3 four_pages = true /\
  serves (cursor_api four_pages) tt JNull four_pages /\
  exists r l s' ev,
    fetchAllTransactionsWithPagination (cursor_api four_pages) 3 tt
      = Some (r, (l, s'), ev) /\
    chained 1 JNull (exchanges ev) /\
    map request_token (exchanges ev) = [JNull; JStr "10:1"; JStr "10:5"] /\
    (exists outcome outcome',
        nth_error (exchanges ev) 0 = Some (page_request 1 JNull, outcome) /\
        nth_error (exchanges ev) 1 = Some (page_request 2 (JStr "10:1"), outcome')) /\
    exists l2 s2' ev2,
      fetchAllTransactionsWithPagination
        (cursor_api (map (relabel add_prime) four_pages)) 3 tt = Some (r, (l2, s2'), ev2) /\
      allTransactions l2 = allTransactions l /\
      map request_token (exchanges ev2) = [JNull; JStr "10:1'"; JStr "10:5'"].
Proof.
  split; [lia|]. split; [reflexivity|]. split; [exact cursor_api_serves_four|].
  destruct (C3_requests_follow_the_returned_tokens (cursor_api four_pages) tt 3 (le_n 3))
    as (r & l & s' & ev & Hrun & Hchain & Hreplay & Hrename & _ & Hfirst & Hnext & Hserved).
  exists r, l, s', ev. split; [exact Hrun|]. split; [exact Hchain|].
  destruct (Hserved four_pages eq_refl cursor_api_serves_four) as (_ & Htokens & _).
  split; [exact Htokens|].
  destruct (Hrename unit (cursor_api (map (relabel add_prime) four_pages)) tt
              four_pages add_prime eq_refl
              cursor_api_serves_four cursor_api_serves_relabelled)
    as (l2 & s2' & ev2 & Hrun2 & Hall2 & Htokens2).
  split.
  - vm_compute in Hrun. injection Hrun as <- <- <- <-.
    assert (Htoken : JStr "10:1" <> JNull) by discriminate.
    assert (Hk : (0 < 2)%nat) by lia.
    destruct (Hnext 0%nat _ _ _ (JStr "10:1") eq_refl eq_refl Htoken Hk)
      as [outcome' Hone].
    eexists _, outcome'. split; [reflexivity|exact Hone].
  - exists l2, s2', ev2. split; [exact Hrun2|]. split; [exact Hall2|].
    rewrite Htokens2, Htokens. reflexivity.
Defined.



(** The claim C8 as it is written fails at the third page: it is empty
    and has the cursor "40:0", yet the loop ends there and no request
    carries "40:0". *)
Lemma C8_empty_third_page_ends_the_loop :
  serves (cursor_api sparse_pages) tt JNull sparse_pages /\
  exists l s' ev,
    fetchAllTransactionsWithPagination (cursor_api sparse_pages) 10 tt
      = Some (inr tt, (l, s'), ev) /\
    (exists requestBody outcome,
        nth_error (exchanges ev) 2 = Some (requestBody, outcome) /\
        read_page outcome = inr ([], JStr "40:0")) /\
    nth_error (exchanges ev) 3 = None /\
    ~ In (JStr "40:0") (map request_token (exchanges ev)).
Proof.
  split; [exact cursor_api_serves_sparse|].
  eexists _, _, _. split; [vm_compute; reflexivity|].
  split; [eexists _, _; split; reflexivity|].
  split; [reflexivity|].
  cbn. intros [H|[H|[H|[]]]]; discriminate H.
Qed.

(** C8, as amended: whatever the API does, the function ends, the same
    way for every fuel from three on, after a first request that is
    posted in any case.  A page without records whose token is not null
    does not end the loop, unless it is the third page: after the first
    or the second page the next request is posted with the next id and
    with that token.  After the third page the demo limit ends the loop
    whatever the page holds: there is no fourth request, and when the
    page could be read the function ends without an error and the token,
    null or not, is left unused in [paginationToken].  Against an API
    that serves pages, with or without records, the loop takes the pages
    up to the first without a cursor, three at most, and sends their
    cursors in turn. *)
Theorem C8_empty_page_with_cursor_goes_on
  {St : Type} (post : St -> SearchTransactionsRpcRequest -> AxiosOutcome * St)
  (s : St) (fuel : nat) :
  (3 <= fuel)%nat ->
  exists r l s' ev,
    fetchAllTransactionsWithPagination post fuel s = Some (r, (l, s'), ev) /\
    replays post s (exchanges ev) s' /\
    (forall k requestBody outcome token,
       nth_error (exchanges ev) k = Some (requestBody, outcome) ->
       read_page outcome = inr ([], token) ->
       token <> JNull ->
       (k < 2)%nat ->
       exists outcome',
         nth_error (exchanges ev) (S k) =
           Some (page_request (Z.of_nat k + 2) token, outcome')) /\
    fetchAllTransactionsWithPagination post fuel s =
      fetchAllTransactionsWithPagination post 3 s /\
    (exists outcome, nth_error (exchanges ev) 0 = Some (page_request 1 JNull, outcome)) /\
    (forall requestBody outcome,
       nth_error (exchanges ev) 2 = Some (requestBody, outcome) ->
       nth_error (exchanges ev) 3 = None /\
       forall items token,
         read_page outcome = inr (items, token) ->
         r = inr tt /\ paginationToken l = token) /\
    (forall pages,
       enough 3 pages = true ->
       serves post s JNull pages ->
       r = inr tt /\
       List.length (exchanges ev) = List.length (taken 3 pages) /\
       map request_token (exchanges ev) =
         firstn (List.length (taken 3 pages))
                (JNull :: map cursor_value (taken 3 pages))).
Proof.
  intros Hfuel.
  destruct (fetchAll_run post fuel s Hfuel) as (r & l & s' & ev & Hrun & Hwalk & Hreplay & _).
  exists r, l, s', ev. split; [exact Hrun|]. split; [exact Hreplay|].
  split; [|split; [exact (fetchAll_fuel post fuel s Hfuel)|split; [|split]]].
  - intros k requestBody outcome token Hnth Hread Htoken Hk.
    destruct (walk_continues _ _ _ _ _ _ Hwalk k _ _ _ _ Hnth Hread Htoken) as [outcome' Hnext]; [lia|].
    exists outcome'. exact Hnext.
  - exact (walk_first 0 JNull [] _ _ _ Hwalk).
  - intros requestBody outcome Hnth.
    destruct (walk_third _ _ _ _ _ _ Hwalk 2%nat _ _ Hnth) as [Hlen Hread]; [lia|].
    split; [|exact Hread]. apply nth_error_None. lia.
  - intros pages Henough Hserves.
    destruct (paged_walk post pages 3 0 JNull [] (exchanges ev) r l s s')
      as (Hr & _ & Htokens & _); auto.
    split; [exact Hr|]. split; [|exact Htokens].
    apply (f_equal (@List.length _)) in Htokens.
    rewrite length_map, length_firstn in Htokens. cbn [List.length] in Htokens.
    rewrite length_map in Htokens. lia.
Qed.

Lemma C8_empty_first_page_goes_on :
  (3 <= 3)%nat /\
  enough 3 sparse_pages = true /\
  serves (cursor_api sparse_pages) tt JNull sparse_pages /\
  exists r l s' ev,
    fetchAllTransactionsWithPagination (cursor_api sparse_pages) 3 tt
      = Some (r, (l, s'), ev) /\
    (exists outcome outcome',
       nth_error (exchanges ev) 0 = Some (page_request 1 JNull, outcome) /\
       read_page outcome = inr ([], JStr "20:0") /\
       JStr "20:0" <> JNull /\
       (0 < 2)%nat /\
       nth_error (exchanges ev) 1 = Some (page_request 2 (JStr "20:0"), outcome')) /\
    r = inr tt /\
    List.length (exchanges ev) = 3%nat /\
    map request_token (exchanges ev) = [JNull; JStr "20:0"; JStr "30:0"] /\
    paginationToken l = JStr "40:0".
Proof.
  split; [lia|]. split; [reflexivity|]. split; [exact cursor_api_serves_sparse|].
  destruct (C8_empty_page_with_cursor_goes_on (cursor_api sparse_pages) tt 3 (le_n 3))
    as (r & l & s' & ev & Hrun & Hreplay & Hnext & _ & _ & Hthird & Hserved).
  exists r, l, s', ev. split; [exact Hrun|].
  destruct (Hserved sparse_pages eq_refl cursor_api_serves_sparse) as (Hr & Hlen & Htokens).
  vm_compute in Hrun. injection Hrun as <- <- <- <-.
  assert (Hnull : JStr "20:0" <> JNull) by discriminate.
  assert (Hk : (0 < 2)%nat) by lia.
  destruct (Hnext 0%nat _ _ (JStr "20:0") eq_refl eq_refl Hnull Hk) as [outcome' Hsecond].
  split.
  - eexists _, outcome'. split; [reflexivity|]. split; [reflexivity|].
    split; [exact Hnull|]. split; [exact Hk|exact Hsecond].
  - split; [exact Hr|]. split; [exact Hlen|]. split; [exact Htokens|].
    destruct (Hthird _ _ eq_refl) as [_ Hread].
    exact (proj2 (Hread _ _ eq_refl)).
Defined.

(** ** Errors *)

Lemma read_page_rpc_error (body : JsVal) (error : list (string * JsVal)) :
  rpc_error body error ->
  read_page (Resolved body) = inl (ErrorOf (own_property "message" error)).
Proof.
  unfold rpc_error, read_page, read_result. intros ->. reflexivity.
Qed.

Lemma read_result_malformed (fields : list (string * JsVal)) :
  has_key "result" fields = false ->
  has_key "error" fields = false ->
  read_result (Resolved (JObj fields)) = inr JUndefined /\
  read_page (Resolved (JObj fields)) =
    inl (TypeError "Cannot read properties of undefined").
Proof.
  intros Hresult Herror.
  unfold read_page, read_result. cbn [get].
  rewrite (own_property_missing _ _ Herror). cbn [truthy].
  rewrite (own_property_missing _ _ Hresult). split; reflexivity.
Qed.

Section FailureFacts.

Context {St : Type}.
Variable post : St -> SearchTransactionsRpcRequest -> AxiosOutcome * St.

(** Against an API that fails after [pages], the session takes these
    pages and ends with the error of the answer that follows them. *)
Lemma failing_walk (pages : list ResultPage) :
  forall n token all ex r l s s' message,
    n + Z.of_nat (List.length pages) < 3 ->
    fails_after post s token pages message ->
    walk n token all ex r l ->
    replays post s ex s' ->
    r = inl (ErrorOf message) /\
    List.length ex = S (List.length pages) /\
    allTransactions l = all ++ List.concat (map records pages).
Proof.
  induction pages as [|p rest IH];
    intros n token all ex r l s s' message Hn Hfails Hwalk Hreplay.
  - inversion Hfails as [? ? ? Hanswer|]; subst.
    assert (Hfirst : forall outcome tail,
               ex = (page_request (n + 1) token, outcome) :: tail ->
               read_page outcome = inl (ErrorOf message)).
    { intros outcome tail ->.
      inversion Hreplay as [|? ? ? s1 ? ? Hpost Hrest]; subst.
      destruct (Hanswer (page_request (n + 1) token) eq_refl)
        as (body & error & s1' & Hpost' & Herror & Hmessage).
      rewrite Hpost in Hpost'. injection Hpost' as -> ->.
      rewrite (read_page_rpc_error _ _ Herror). now rewrite Hmessage. }
    inversion Hwalk as [? ? ? outcome e Hread
                       |? ? ? outcome items token' Hread Hstop
                       |? ? ? outcome items token' tail ? ? Hread Hlt Hnn Hwalk'];
      subst; rewrite (Hfirst _ _ eq_refl) in Hread; [|discriminate|discriminate].
    injection Hread as <-. cbn. now rewrite app_nil_r.
  - inversion Hfails as [|? ? ? ? ? Hcursor Hanswer]; subst.
    assert (Hfirst : forall outcome tail,
               ex = (page_request (n + 1) token, outcome) :: tail ->
               read_page outcome = inr (records p, cursor_value p) /\
               exists s1, fails_after post s1 (cursor_value p) rest message /\
                          replays post s1 tail s').
    { intros outcome tail ->.
      inversion Hreplay as [|? ? ? s1 ? ? Hpost Hrest]; subst.
      destruct (Hanswer (page_request (n + 1) token) eq_refl) as (s1' & Hpost' & Hnext).
      rewrite Hpost in Hpost'. injection Hpost' as -> ->.
      split; [apply read_page_served|]. now exists s1'. }
    cbn [List.length] in Hn.
    inversion Hwalk as [? ? ? outcome e Hread
                       |? ? ? outcome items token' Hread Hstop
                       |? ? ? outcome items token' tail ? ? Hread Hlt Hnn Hwalk'];
      subst; destruct (Hfirst _ _ eq_refl) as [Hgood (s1 & Hnext & Hreplay')];
      rewrite Hgood in Hread; [discriminate| |].
    + injection Hread as <- <-. exfalso.
      apply andb_false_iff in Hstop as [Hstop|Hstop].
      * apply Z.ltb_ge in Hstop. lia.
      * apply not_null_false in Hstop. unfold cursor_value in Hstop.
        destruct (nextCursor p); [discriminate|]. now apply Hcursor.
    + injection Hread as <- <-.
      destruct (IH (n + 1) (cursor_value p) (all ++ records p) tail r l s1 s' message)
        as (Hr & Hlen & Hall); auto; [lia|].
      split; [exact Hr|]. split; [cbn [List.length]; now rewrite Hlen|].
      rewrite Hall. cbn [map List.concat]. now rewrite app_assoc.
Qed.

End FailureFacts.

(** C4: whatever the API does, the function ends, the same way for
    every fuel from three on, after a first request that is posted in
    any case, and its exchanges are the answers of the API.  If the
    answer to its request number k+1 is a JSON-RPC error response, then
    the result is a thrown [Error] with the message of that response,
    this request was the last, [allTransactions] holds exactly the
    records of the k pages before it, and neither "More pages: No" nor
    "Completed!" was printed.  Against an API that serves fewer than
    three pages with cursors and answers the request after them with an
    error response, the function does reach that request and throws its
    error, with the records of these pages and of no later one. *)
Theorem C4_rpc_error_page_is_raised
  {St : Type} (post : St -> SearchTransactionsRpcRequest -> AxiosOutcome * St)
  (s : St) (fuel : nat) :
  (3 <= fuel)%nat ->
  exists r l s' ev,
    fetchAllTransactionsWithPagination post fuel s = Some (r, (l, s'), ev) /\
    (forall k requestBody body error,
       nth_error (exchanges ev) k = Some (requestBody, Resolved body) ->
       rpc_error body error ->
       r = inl (ErrorOf (own_property "message" error)) /\
       List.length (exchanges ev) = S k /\
       allTransactions l = flat_map (fun x => yielded (snd x)) (firstn k (exchanges ev)) /\
       existsb reports_end ev = false) /\
    fetchAllTransactionsWithPagination post fuel s =
      fetchAllTransactionsWithPagination post 3 s /\
    (exists outcome, nth_error (exchanges ev) 0 = Some (page_request 1 JNull, outcome)) /\
    replays post s (exchanges ev) s' /\
    (forall pages message,
       (List.length pages < 3)%nat ->
       fails_after post s JNull pages message ->
       r = inl (ErrorOf message) /\
       List.length (exchanges ev) = S (List.length pages) /\
       allTransactions l = List.concat (map records pages) /\
       existsb reports_end ev = false).
Proof.
  intros Hfuel.
  destruct (fetchAll_run post fuel s Hfuel) as (r & l & s' & ev & Hrun & Hwalk & Hreplay & Hquiet).
  exists r, l, s', ev. split; [exact Hrun|].
  split; [|split; [exact (fetchAll_fuel post fuel s Hfuel)|split; [|split; [exact Hreplay|]]]].
  - intros k requestBody body error Hnth Herror.
    destruct (walk_error _ _ _ _ _ _ Hwalk k _ _ _ Hnth (read_page_rpc_error _ _ Herror))
      as (Hr & Hlen & Hall).
    split; [exact Hr|]. split; [exact Hlen|]. split; [exact Hall|].
    exact (Hquiet _ Hr).
  - exact (walk_first 0 JNull [] _ _ _ Hwalk).
  - intros pages message Hshort Hfails.
    destruct (failing_walk post pages 0 JNull [] (exchanges ev) r l s s' message)
      as (Hr & Hlen & Hall); auto; [lia|].
    split; [exact Hr|]. split; [exact Hlen|]. split; [exact Hall|].
    exact (Hquiet _ Hr).
Qed.

(** Page 3 of 5 is an RPC error: the records of pages 1 and 2, then the
    error; pages 4 and 5 are not asked for. *)
Lemma C4_third_of_five_fails :
  (3 <= 3)%nat /\
  (2 < 3)%nat /\
  fails_after mock_post failing_script JNull
    [ {| records := [signature_record 1]; nextCursor := Some "10:1" |};
      {| records := [signature_record 2]; nextCursor := Some "10:5" |} ]
    (JStr "Internal error") /\
  exists r l s' ev,
    fetchAllTransactionsWithPagination mock_post 3 failing_script
      = Some (r, (l, s'), ev) /\
    (exists requestBody body error,
        nth_error (exchanges ev) 2 = Some (requestBody, Resolved body) /\
        rpc_error body error) /\
    r = inl (ErrorOf (JStr "Internal error")) /\
    List.length (exchanges ev) = 3%nat /\
    allTransactions l = map signature_record [1; 2] /\
    existsb reports_end ev = false.
Proof.
  assert (Hfails : fails_after mock_post failing_script JNull
            [ {| records := [signature_record 1]; nextCursor := Some "10:1" |};
              {| records := [signature_record 2]; nextCursor := Some "10:5" |} ]
            (JStr "Internal error")).
  { unfold failing_script.
    do 2 (apply fails_later; [discriminate|];
          intros ? _; eexists; split; [reflexivity|]).
    apply fails_now. intros ? _. eexists _, _, _.
    split; [reflexivity|]. split; reflexivity. }
  split; [lia|]. split; [lia|]. split; [exact Hfails|].
  destruct (C4_rpc_error_page_is_raised mock_post failing_script 3 (le_n 3))
    as (r & l & s' & ev & Hrun & Herror & _ & _ & _ & Hreached).
  exists r, l, s', ev. split; [exact Hrun|].
  destruct (Hreached
              [ {| records := [signature_record 1]; nextCursor := Some "10:1" |};
                {| records := [signature_record 2]; nextCursor := Some "10:5" |} ]
              (JStr "Internal error") (le_n 3) Hfails)
    as (Hr & Hlen & Hall & Hquiet).
  split; [|split; [exact Hr|split; [exact Hlen|split; [exact Hall|exact Hquiet]]]].
  vm_compute in Hrun. injection Hrun as <- <- <- <-.
  eexists _, _, _. split; reflexivity.
Defined.

(** The claim C9 as it is written fails on a response that has neither
    [result] nor [error]: the helper throws nothing and returns
    [undefined] as its result. *)
Lemma C9_malformed_response_is_returned :
  has_key "result" malformed_fields = false /\
  has_key "error" malformed_fields = false /\
  searchTransactions mock_post latest_signatures_request
                     [serve_raw (JObj malformed_fields)]
    = (inr JUndefined, [],
       [Post latest_signatures_request (Resolved (JObj malformed_fields))]).
Proof. repeat split. Qed.

(** C9, as amended: for a response object that has neither [result] nor
    [error], [searchTransactions] throws nothing, prints nothing and
    returns [undefined]; there is no protocol error.  In the pagination
    loop such a response is not taken for the end of the results: the
    read of [result.data] throws a TypeError, the request was the last,
    and neither "More pages: No" nor "Completed!" was printed. *)
Theorem C9_malformed_response_returns_undefined
  {St : Type} (post : St -> SearchTransactionsRpcRequest -> AxiosOutcome * St) :
  (forall (s : St) (requestBody : SearchTransactionsRpcRequest)
          (fields : list (string * JsVal)),
      fst (post s requestBody) = Resolved (JObj fields) ->
      has_key "result" fields = false ->
      has_key "error" fields = false ->
      searchTransactions post requestBody s =
        (inr JUndefined, snd (post s requestBody),
         [Post requestBody (Resolved (JObj fields))])) /\
  (forall (s : St) (fuel : nat),
      (3 <= fuel)%nat ->
      exists r l s' ev,
        fetchAllTransactionsWithPagination post fuel s = Some (r, (l, s'), ev) /\
        forall k requestBody fields,
          nth_error (exchanges ev) k = Some (requestBody, Resolved (JObj fields)) ->
          has_key "result" fields = false ->
          has_key "error" fields = false ->
          r = inl (TypeError "Cannot read properties of undefined") /\
          List.length (exchanges ev) = S k /\
          existsb reports_end ev = false).
Proof.
  split.
  - intros s requestBody fields Hpost Hresult Herror.
    destruct (searchTransactions_run post requestBody s) as (lines & Hrun & _ & _ & Hnone).
    rewrite Hpost in Hrun, Hnone.
    destruct (read_result_malformed fields Hresult Herror) as [Hread _].
    rewrite Hread in Hrun, Hnone. now rewrite (Hnone _ eq_refl) in Hrun.
  - intros s fuel Hfuel.
    destruct (fetchAll_run post fuel s Hfuel)
      as (r & l & s' & ev & Hrun & Hwalk & Hreplay & Hquiet).
    exists r, l, s', ev. split; [exact Hrun|].
    intros k requestBody fields Hnth Hresult Herror.
    destruct (read_result_malformed fields Hresult Herror) as [_ Hread].
    destruct (walk_error _ _ _ _ _ _ Hwalk k _ _ _ Hnth Hread) as (Hr & Hlen & _).
    split; [exact Hr|]. split; [exact Hlen|]. exact (Hquiet _ Hr).
Qed.

Lemma C9_malformed_second_page :
  (3 <= 3)%nat /\
  has_key "result" malformed_fields = false /\
  has_key "error" malformed_fields = false /\
  searchTransactions mock_post latest_signatures_request
                     [serve_raw (JObj malformed_fields)]
    = (inr JUndefined, [],
       [Post latest_signatures_request (Resolved (JObj malformed_fields))]) /\
  exists r l s' ev,
    fetchAllTransactionsWithPagination mock_post 3
      [serve_page {| records := [signature_record 1]; nextCursor := Some "10:1" |};
       serve_raw (JObj malformed_fields)]
      = Some (r, (l, s'), ev) /\
    r = inl (TypeError "Cannot read properties of undefined") /\
    List.length (exchanges ev) = 2%nat /\
    existsb reports_end ev = false.
Proof.
  split; [lia|]. split; [reflexivity|]. split; [reflexivity|].
  destruct (C9_malformed_response_returns_undefined mock_post) as [Hhelper Hloop].
  split.
  - exact (Hhelper [serve_raw (JObj malformed_fields)] latest_signatures_request
                   malformed_fields eq_refl eq_refl eq_refl).
  - destruct (Hloop [serve_page {| records := [signature_record 1];
                                   nextCursor := Some "10:1" |};
                     serve_raw (JObj malformed_fields)] 3%nat (le_n 3))
      as (r & l & s' & ev & Hrun & Hbad).
    exists r, l, s', ev. split; [exact Hrun|].
    vm_compute in Hrun. injection Hrun as <- <- <- <-.
    exact (Hbad 1%nat _ malformed_fields eq_refl eq_refl eq_refl).
Defined.

(** ** Validation *)

Lemma pairing_api_rejects : rejects_unpaired pairing_api.
Proof.
  intros s requestBody Hone. unfold pairing_api. rewrite Hone.
  eexists _, _, _. reflexivity.
Qed.

(** The claim C5 as it is written fails on [{ fromBlock: 100 }]: nothing
    is checked before the network call.  The request is posted as it is,
    and the error that is thrown is made from the answer of the API. *)
Lemma C5_unpaired_request_is_posted :
  exactly_one_bound (params unpaired_request) = true /\
  searchTransactions pairing_api unpaired_request tt
    = (inl (ErrorOf (JStr "Invalid params")), tt,
       [Post unpaired_request (Resolved (error_body 7 (-32602) "Invalid params"));
        Console (RpcErrorLine (JObj [("code", JNum (-32602));
                                     ("message", JStr "Invalid params")]));
        Console (RequestFailedLine (ErrorOf (JStr "Invalid params")))]).
Proof. split; reflexivity. Qed.

(** C5, as amended: a request in which exactly one of [fromBlock] and
    [toBlock] is set is not rejected by the client.  [searchTransactions]
    posts it unchanged, in one network call, and its result is read off
    the answer; when the API rejects such requests with an error
    response, as the block range rules document, the call throws an
    [Error] with the message of that response. *)
Theorem C5_unpaired_range_is_rejected_by_the_api
  {St : Type} (post : St -> SearchTransactionsRpcRequest -> AxiosOutcome * St)
  (s : St) (requestBody : SearchTransactionsRpcRequest) :
  exactly_one_bound (params requestBody) = true ->
  exists lines,
    searchTransactions post requestBody s =
      (read_result (fst (post s requestBody)), snd (post s requestBody),
       Post requestBody (fst (post s requestBody)) :: lines) /\
    exchanges lines = [] /\
    (rejects_unpaired post ->
     exists message,
       read_result (fst (post s requestBody)) = inl (ErrorOf (JStr message))).
Proof.
  intros Hone.
  destruct (searchTransactions_run post requestBody s) as (lines & Hrun & Hex & _).
  exists lines. split; [exact Hrun|]. split; [exact Hex|].
  intros Hrejects.
  destruct (Hrejects s requestBody Hone) as (code & message & s1 & Hpost).
  exists message. now rewrite Hpost.
Qed.

Lemma C5_unpaired_request_throws_api_error :
  exactly_one_bound (params unpaired_request) = true /\
  rejects_unpaired pairing_api /\
  exists lines message,
    searchTransactions pairing_api unpaired_request tt =
      (inl (ErrorOf (JStr "Invalid params")), tt,
       Post unpaired_request (Resolved (error_body 7 (-32602) "Invalid params")) :: lines) /\
    exchanges lines = [] /\
    read_result (fst (pairing_api tt unpaired_request)) = inl (ErrorOf (JStr message)).
Proof.
  split; [reflexivity|]. split; [exact pairing_api_rejects|].
  destruct (C5_unpaired_range_is_rejected_by_the_api pairing_api tt unpaired_request eq_refl)
    as (lines & Hrun & Hex & Hmessage).
  destruct (Hmessage pairing_api_rejects) as [message Hthrown].
  exists lines, message. split; [exact Hrun|]. split; [exact Hex|exact Hthrown].
Defined.

(** The claim C6 as it is written fails on [{ limit: 5000 }] in the
    signatures mode, whose cap is 1000: the client raises nothing and
    clamps nothing, the request is posted with limit 5000 and the page
    the API answers is returned. *)
Lemma C6_limit_above_cap_is_posted :
  maxLimit (effective_details (params over_cap_request)) < 5000 /\
  Req.limit (params over_cap_request) = Some 5000 /\
  searchTransactions pairing_api over_cap_request tt
    = (inr (page_result {| records := []; nextCursor := None |}), tt,
       [Post over_cap_request
             (Resolved (success_body 8 {| records := []; nextCursor := None |}))]).
Proof. repeat split. Qed.

(** C6, as amended: the client does not check [limit].  Every request,
    with a limit inside the range, above the cap or absent, is posted
    unchanged - not rejected, not clamped, no default filled in - and the
    result is read off the answer.  The limits are those the source
    documents for the API: at most 1000 in the signatures mode and 100 in
    the full mode, and 1000 and 100 in force when [limit] is absent. *)
Theorem C6_limit_is_sent_unchecked
  {St : Type} (post : St -> SearchTransactionsRpcRequest -> AxiosOutcome * St)
  (s : St) (requestBody : SearchTransactionsRpcRequest) :
  (exists lines,
      searchTransactions post requestBody s =
        (read_result (fst (post s requestBody)), snd (post s requestBody),
         Post requestBody (fst (post s requestBody)) :: lines) /\
      exchanges lines = []) /\
  maxLimit Signatures = 1000 /\
  maxLimit Full = 100 /\
  (Req.limit (params requestBody) = None ->
   effective_limit (params requestBody) =
     match effective_details (params requestBody) with
     | Signatures => 1000
     | Full => 100
     end).
Proof.
  split; [|split; [reflexivity|split; [reflexivity|]]].
  - destruct (searchTransactions_run post requestBody s) as (lines & Hrun & Hex & _).
    exists lines. split; [exact Hrun|exact Hex].
  - intros Hnone. unfold effective_limit. rewrite Hnone.
    now destruct (effective_details (params requestBody)).
Qed.

Lemma C6_absent_limit_defaults :
  Req.limit (params latest_signatures_request) = None /\
  effective_limit (params latest_signatures_request) = 1000 /\
  exists lines,
    searchTransactions pairing_api latest_signatures_request tt =
      (inr (page_result {| records := []; nextCursor := None |}), tt,
       Post latest_signatures_request
            (Resolved (success_body 1 {| records := []; nextCursor := None |})) :: lines).
Proof.
  destruct (C6_limit_is_sent_unchecked pairing_api tt latest_signatures_request)
    as ((lines & Hrun & _) & _ & _ & Hdefault).
  split; [reflexivity|]. split; [exact (Hdefault eq_refl)|].
  exists lines. exact Hrun.
Defined.

(** ** Defaults *)

(** C2: [resolveDefaultWindow] is a function of the spec and the cursor
    (and of the slots the API knows).  It is used exactly when both
    bounds are absent, and then the window is the row of the table picked
    by the cursor and the sort order, 5000 slots wide; an explicit range
    is the window itself, whatever the cursor and the chain. *)
Theorem C2_default_window_table
  (ledger : Ledger) (spec : Req.SearchParams) (currentCursor : option Cursor) :
  (Req.fromBlock spec = None ->
   Req.toBlock spec = None ->
   effective_window ledger spec currentCursor =
     Some (resolveDefaultWindow ledger spec currentCursor) /\
   snd (resolveDefaultWindow ledger spec currentCursor)
   - fst (resolveDefaultWindow ledger spec currentCursor) = 5000 /\
   match currentCursor, effective_sort spec with
   | None, DESC =>
       resolveDefaultWindow ledger spec currentCursor =
         (latestKnownSlot ledger - 5000, latestKnownSlot ledger)
   | None, ASC =>
       resolveDefaultWindow ledger spec currentCursor =
         (firstIndexedSlot ledger, firstIndexedSlot ledger + 5000)
   | Some cursor, DESC =>
       resolveDefaultWindow ledger spec currentCursor = (slot cursor - 5000, slot cursor)
   | Some cursor, ASC =>
       resolveDefaultWindow ledger spec currentCursor = (slot cursor, slot cursor + 5000)
   end) /\
  (forall from to,
      Req.fromBlock spec = Some from ->
      Req.toBlock spec = Some to ->
      forall ledger' cursor', effective_window ledger' spec cursor' = Some (from, to)).
Proof.
  split.
  - intros Hfrom Hto. unfold effective_window, resolveDefaultWindow.
    rewrite Hfrom, Hto.
    destruct currentCursor as [cursor|], (effective_sort spec); cbn [fst snd];
      repeat split; lia.
  - intros from to Hfrom Hto ledger' cursor'. unfold effective_window.
    now rewrite Hfrom, Hto.
Qed.

Lemma C2_window_after_a_cursor :
  Req.fromBlock Req.empty = None /\
  Req.toBlock Req.empty = None /\
  effective_window {| firstIndexedSlot := 1000; latestKnownSlot := 394941496 |}
                   Req.empty (Some {| slot := 394941095; transactionIndex := 1232 |})
    = Some (394936095, 394941095) /\
  effective_window {| firstIndexedSlot := 1000; latestKnownSlot := 394941496 |}
                   (with_bounds (Some 100) (Some 100) Req.empty) None
    = Some (100, 100).
Proof.
  destruct (C2_default_window_table
              {| firstIndexedSlot := 1000; latestKnownSlot := 394941496 |}
              Req.empty (Some {| slot := 394941095; transactionIndex := 1232 |}))
    as [Hdefault _].
  destruct (Hdefault eq_refl eq_refl) as (Hwindow & _ & _).
  destruct (C2_default_window_table
              {| firstIndexedSlot := 1000; latestKnownSlot := 394941496 |}
              (with_bounds (Some 100) (Some 100) Req.empty) None)
    as [_ Hexplicit].
  split; [reflexivity|]. split; [reflexivity|]. split.
  - rewrite Hwindow. reflexivity.
  - exact (Hexplicit 100 100 eq_refl eq_refl _ _).
Defined.

(** C7: for the empty spec the detail level in force is Signatures, the
    limit 1000 and the sort order DESC, and the default window is the row
    "no token, DESC" of the table.  [fetchLatestSignatures] posts the
    empty spec as it is. *)
Theorem C7_empty_spec_defaults (ledger : Ledger) :
  params latest_signatures_request = Req.empty /\
  effective_details Req.empty = Signatures /\
  effective_limit Req.empty = 1000 /\
  effective_sort Req.empty = DESC /\
  effective_window ledger Req.empty None =
    Some (latestKnownSlot ledger - 5000, latestKnownSlot ledger).
Proof. repeat split. Qed.

(** * Further properties of the code *)

(** ** [searchTransactions] *)

(** X1: when the body of the response has no [error] member, or a falsy
    one ([null], [false], [0], the empty string), the call prints nothing, throws
    nothing and returns [response.data.result] - [undefined] when the
    member is missing or the body is a string, a number, a boolean or an
    array. *)
Theorem X1_search_returns_result_silently
  {St : Type} (post : St -> SearchTransactionsRpcRequest -> AxiosOutcome * St)
  (s : St) (requestBody : SearchTransactionsRpcRequest) (data error : JsVal) :
  fst (post s requestBody) = Resolved data ->
  get data "error" = inr error ->
  truthy error = false ->
  searchTransactions post requestBody s =
    (get data "result", snd (post s requestBody), [Post requestBody (Resolved data)]) /\
  (forall fields, data = JObj fields ->
     get data "result" = inr (own_property "result" fields)) /\
  (nullish data = false -> (forall fields, data <> JObj fields) ->
     get data "result" = inr JUndefined).
Proof.
  intros Hpost Herror Hfalsy.
  destruct (searchTransactions_run post requestBody s) as (lines & Hrun & _ & _ & Hnone).
  assert (Hread : read_result (Resolved data) = get data "result").
  { unfold read_result. now rewrite Herror, Hfalsy. }
  rewrite Hpost, Hread in Hrun, Hnone.
  split; [|split].
  - destruct (get data "result") as [e|v] eqn:Hresult.
    + destruct data; discriminate.
    + now rewrite (Hnone v eq_refl) in Hrun.
  - intros fields ->. reflexivity.
  - intros Hnn Hobj. destruct data; try reflexivity; try discriminate.
    now destruct (Hobj fields).
Qed.

Lemma X1_null_error_member_is_ignored :
  fst (mock_post [serve_raw (JObj [("error", JNull); ("result", JNum 7)])]
                 latest_signatures_request)
    = Resolved (JObj [("error", JNull); ("result", JNum 7)]) /\
  get (JObj [("error", JNull); ("result", JNum 7)]) "error" = inr JNull /\
  truthy JNull = false /\
  searchTransactions mock_post latest_signatures_request
      [serve_raw (JObj [("error", JNull); ("result", JNum 7)])]
    = (inr (JNum 7), [],
       [Post latest_signatures_request
             (Resolved (JObj [("error", JNull); ("result", JNum 7)]))]).
Proof.
  split; [reflexivity|]. split; [reflexivity|]. split; [reflexivity|].
  exact (proj1 (X1_search_returns_result_silently
                  mock_post [serve_raw (JObj [("error", JNull); ("result", JNum 7)])]
                  latest_signatures_request _ JNull eq_refl eq_refl eq_refl)).
Defined.

(** X2: when the [error] member of the body is truthy, the call prints
    the member, throws [new Error(error.message)] - the code and the data
    of the error are dropped, and the message is [undefined] when the
    member has none - and its own [catch] prints the thrown error a second
    time before it is thrown on. *)
Theorem X2_search_rpc_error_is_logged_twice
  {St : Type} (post : St -> SearchTransactionsRpcRequest -> AxiosOutcome * St)
  (s : St) (requestBody : SearchTransactionsRpcRequest) (data error : JsVal) :
  fst (post s requestBody) = Resolved data ->
  get data "error" = inr error ->
  truthy error = true ->
  searchTransactions post requestBody s =
    (inl (ErrorOf (message_of error)), snd (post s requestBody),
     [Post requestBody (Resolved data);
      Console (RpcErrorLine error);
      Console (RequestFailedLine (ErrorOf (message_of error)))]).
Proof.
  intros Hpost Herror Htruthy.
  unfold searchTransactions, try_catch, bind, axios_post, lift, console, throw.
  destruct (post s requestBody) as [outcome s1]. simpl in Hpost. subst outcome.
  cbn. rewrite Herror. cbn. rewrite Htruthy.
  destruct error; try discriminate; reflexivity.
Qed.

Lemma X2_rate_limit_error_keeps_only_the_message :
  fst (mock_post [serve_error 429 "Rate limit exceeded"] latest_signatures_request)
    = Resolved (error_body 1 429 "Rate limit exceeded") /\
  get (error_body 1 429 "Rate limit exceeded") "error"
    = inr (JObj [("code", JNum 429); ("message", JStr "Rate limit exceeded")]) /\
  fst (fst (searchTransactions mock_post latest_signatures_request
              [serve_error 429 "Rate limit exceeded"]))
    = inl (ErrorOf (JStr "Rate limit exceeded")).
Proof.
  split; [reflexivity|]. split; [reflexivity|].
  rewrite (X2_search_rpc_error_is_logged_twice
             mock_post [serve_error 429 "Rate limit exceeded"]
             latest_signatures_request _ _ eq_refl eq_refl eq_refl).
  reflexivity.
Defined.

(** X3: when [axios.post] rejects, the rejection is printed once and
    thrown on unchanged; when the body is [null], reading [error] throws a
    TypeError that is treated the same way.  In both cases there was one
    POST and no second attempt. *)
Theorem X3_search_failure_is_rethrown
  {St : Type} (post : St -> SearchTransactionsRpcRequest -> AxiosOutcome * St)
  (s : St) (requestBody : SearchTransactionsRpcRequest) :
  (forall reason,
      fst (post s requestBody) = Rejected reason ->
      searchTransactions post requestBody s =
        (inl (AxiosError reason), snd (post s requestBody),
         [Post requestBody (Rejected reason);
          Console (RequestFailedLine (AxiosError reason))])) /\
  (forall data,
      fst (post s requestBody) = Resolved data ->
      nullish data = true ->
      exists e,
        get data "error" = inl e /\
        searchTransactions post requestBody s =
          (inl e, snd (post s requestBody),
           [Post requestBody (Resolved data); Console (RequestFailedLine e)])).
Proof.
  split.
  - intros reason Hpost.
    unfold searchTransactions, try_catch, bind, axios_post, lift, console, throw.
    destruct (post s requestBody) as [outcome s1]. simpl in Hpost. subst outcome.
    reflexivity.
  - intros data Hpost Hnull.
    unfold searchTransactions, try_catch, bind, axios_post, lift, console, throw.
    destruct (post s requestBody) as [outcome s1]. simpl in Hpost. subst outcome.
    destruct data; try discriminate; eexists; split; reflexivity.
Qed.

Lemma X3_socket_hang_up_is_rethrown :
  fst (mock_post [] latest_signatures_request) = Rejected "socket hang up" /\
  searchTransactions mock_post latest_signatures_request []
    = (inl (AxiosError "socket hang up"), [],
       [Post latest_signatures_request (Rejected "socket hang up");
        Console (RequestFailedLine (AxiosError "socket hang up"))]).
Proof.
  split; [reflexivity|].
  exact (proj1 (X3_search_failure_is_rethrown mock_post [] latest_signatures_request)
               "socket hang up" eq_refl).
Defined.

(** ** The pagination loop of [index.ts], further *)

Lemma walk_requests n token all
  (ex : list (SearchTransactionsRpcRequest * AxiosOutcome)) r l :
  walk n token all ex r l ->
  forall k requestBody outcome,
    nth_error ex k = Some (requestBody, outcome) ->
    exists token', requestBody = page_request (n + Z.of_nat k + 1) token'.
Proof.
  induction 1 as [n token all outcome e Hread
                 |n token all outcome items token' Hread Hstop
                 |n token all outcome items token' rest r l Hread Hlt Hnn Hwalk IH];
    intros k requestBody outcome0 Hnth.
  - destruct k as [|k]; simpl in Hnth; [|destruct k; discriminate].
    injection Hnth as <- _. exists token. f_equal. lia.
  - destruct k as [|k]; simpl in Hnth; [|destruct k; discriminate].
    injection Hnth as <- _. exists token. f_equal. lia.
  - destruct k as [|k]; simpl in Hnth.
    + injection Hnth as <- _. exists token. f_equal. lia.
    + destruct (IH k _ _ Hnth) as [token0 ->]. exists token0. f_equal. lia.
Qed.

(** The loop goes on after a page exactly when the page can be read, was
    not the third, and returned a token other than null. *)
Lemma walk_goes_on n token all
  (ex : list (SearchTransactionsRpcRequest * AxiosOutcome)) r l :
  walk n token all ex r l ->
  forall k requestBody outcome,
    nth_error ex k = Some (requestBody, outcome) ->
    ((S k < List.length ex)%nat <->
     exists items token',
       read_page outcome = inr (items, token') /\
       n + Z.of_nat k + 1 < 3 /\ token' <> JNull).
Proof.
  induction 1 as [n token all outcome e Hread
                 |n token all outcome items token' Hread Hstop
                 |n token all outcome items token' rest r l Hread Hlt Hnn Hwalk IH];
    intros k requestBody outcome0 Hnth.
  - destruct k as [|k]; simpl in Hnth; [|destruct k; discriminate].
    injection Hnth as _ <-. cbn [List.length]. split; [lia|].
    intros (items & token' & Hgood & _). rewrite Hread in Hgood. discriminate.
  - destruct k as [|k]; simpl in Hnth; [|destruct k; discriminate].
    injection Hnth as _ <-. cbn [List.length]. split; [lia|].
    intros (items0 & token0 & Hgood & Hroom & Htok).
    rewrite Hread in Hgood. injection Hgood as <- <-.
    apply andb_false_iff in Hstop as [Hstop|Hstop].
    + apply Z.ltb_ge in Hstop. simpl in Hroom. lia.
    + apply not_null_false in Hstop. contradiction.
  - destruct k as [|k]; simpl in Hnth.
    + injection Hnth as _ <-. split.
      * intros _. exists items, token'. repeat split; [exact Hread|simpl; lia|exact Hnn].
      * intros _. destruct (walk_length _ _ _ _ _ _ Hwalk) as (Hone & _).
        cbn [List.length]. lia.
    + destruct (IH k _ _ Hnth) as [Hto Hfrom]. cbn [List.length]. split.
      * intros Hlen. destruct Hto as (items0 & token0 & Hgood & Hroom & Htok); [lia|].
        exists items0, token0. repeat split; [exact Hgood|lia|exact Htok].
      * intros (items0 & token0 & Hgood & Hroom & Htok).
        assert (S k < List.length rest)%nat; [|lia].
        apply Hfrom. exists items0, token0. repeat split; [exact Hgood|lia|exact Htok].
Qed.

(** X4: whatever the API does, the requests of one run differ only in
    their id and their token: the n-th request has id n, and every
    request has the same account filter, the same block range and the same
    limit, and no other field. *)
Theorem X4_filter_is_the_same_on_every_page
  {St : Type} (post : St -> SearchTransactionsRpcRequest -> AxiosOutcome * St)
  (s : St) (fuel : nat) :
  (3 <= fuel)%nat ->
  exists r l s' ev,
    fetchAllTransactionsWithPagination post fuel s = Some (r, (l, s'), ev) /\
    forall k requestBody outcome,
      nth_error (exchanges ev) k = Some (requestBody, outcome) ->
      id requestBody = Z.of_nat k + 1 /\
      requestBody =
        page_request (Z.of_nat k + 1) (Req.paginationToken (params requestBody)) /\
      Req.accountInclude (params requestBody) = Some [USDC] /\
      Req.fromBlock (params requestBody) = Some 394940000 /\
      Req.toBlock (params requestBody) = Some 394940500 /\
      Req.limit (params requestBody) = Some 100.
Proof.
  intros Hfuel.
  destruct (fetchAll_run post fuel s Hfuel) as (r & l & s' & ev & Hrun & Hwalk & _).
  exists r, l, s', ev. split; [exact Hrun|].
  intros k requestBody outcome Hnth.
  destruct (walk_requests _ _ _ _ _ _ Hwalk k _ _ Hnth) as [token ->].
  cbn. repeat split.
Qed.

Lemma X4_second_request_of_four_pages :
  (3 <= 3)%nat /\
  exists r l s' ev requestBody outcome,
    fetchAllTransactionsWithPagination (cursor_api four_pages) 3 tt
      = Some (r, (l, s'), ev) /\
    nth_error (exchanges ev) 1 = Some (requestBody, outcome) /\
    id requestBody = 2 /\
    requestBody = page_request 2 (JStr "10:1").
Proof.
  split; [lia|].
  destruct (X4_filter_is_the_same_on_every_page (cursor_api four_pages) tt 3 (le_n 3))
    as (r & l & s' & ev & Hrun & Hsame).
  exists r, l, s', ev.
  vm_compute in Hrun. injection Hrun as <- <- <- <-.
  eexists _, _. split; [reflexivity|]. split; [reflexivity|].
  destruct (Hsame 1%nat _ _ eq_refl) as (Hid & Hreq & _).
  split; [exact Hid|exact Hreq].
Defined.

(** X5: whatever the API does, the loop goes on after a page exactly when
    the page could be read, was the first or the second, and returned a
    token that is not null.  The records of the page play no part, and a
    token that is [undefined] (a result without the member), empty or zero
    counts as one more page. *)
Theorem X5_loop_goes_on_iff_token_not_null
  {St : Type} (post : St -> SearchTransactionsRpcRequest -> AxiosOutcome * St)
  (s : St) (fuel : nat) :
  (3 <= fuel)%nat ->
  exists r l s' ev,
    fetchAllTransactionsWithPagination post fuel s = Some (r, (l, s'), ev) /\
    forall k requestBody outcome,
      nth_error (exchanges ev) k = Some (requestBody, outcome) ->
      ((S k < List.length (exchanges ev))%nat <->
       exists items token,
         read_page outcome = inr (items, token) /\ (k < 2)%nat /\ token <> JNull).
Proof.
  intros Hfuel.
  destruct (fetchAll_run post fuel s Hfuel) as (r & l & s' & ev & Hrun & Hwalk & _).
  exists r, l, s', ev. split; [exact Hrun|].
  intros k requestBody outcome Hnth.
  destruct (walk_goes_on _ _ _ _ _ _ Hwalk k _ _ Hnth) as [Hto Hfrom].
  split.
  - intros Hlen. destruct (Hto Hlen) as (items & token & Hread & Hroom & Htok).
    exists items, token. repeat split; [exact Hread|lia|exact Htok].
  - intros (items & token & Hread & Hroom & Htok).
    apply Hfrom. exists items, token. repeat split; [exact Hread|lia|exact Htok].
Qed.

Lemma X5_undefined_token_goes_on :
  (3 <= 3)%nat /\
  exists r l s' ev requestBody outcome,
    fetchAllTransactionsWithPagination (tokenless_api [signature_record 1]) 3 tt
      = Some (r, (l, s'), ev) /\
    nth_error (exchanges ev) 0 = Some (requestBody, outcome) /\
    read_page outcome = inr ([signature_record 1], JUndefined) /\
    (1 < List.length (exchanges ev))%nat.
Proof.
  split; [lia|].
  destruct (X5_loop_goes_on_iff_token_not_null (tokenless_api [signature_record 1]) tt 3 (le_n 3))
    as (r & l & s' & ev & Hrun & Hiff).
  exists r, l, s', ev.
  vm_compute in Hrun. injection Hrun as <- <- <- <-.
  eexists _, _. split; [reflexivity|]. split; [reflexivity|]. split; [reflexivity|].
  destruct (Hiff 0%nat _ _ eq_refl) as [_ Hgo]. apply Hgo.
  exists [signature_record 1], JUndefined.
  split; [reflexivity|]. split; [lia|discriminate].
Defined.

Ltac no_stop H :=
  repeat first [ contradiction | discriminate
               | destruct H as [H|H] | apply in_app_or in H ].

Section MoreLoopFacts.

Context {St : Type}.
Variable post : St -> SearchTransactionsRpcRequest -> AxiosOutcome * St.

Lemma searchTransactions_never_stops (requestBody : SearchTransactionsRpcRequest) (s : St) :
  ~ In (Console StoppingAfter3Pages) (snd (searchTransactions post requestBody s)).
Proof.
  unfold searchTransactions, try_catch, bind, axios_post, lift, console, throw.
  destruct (post s requestBody) as [[reason|data] s1]; cbn.
  - intros [H|[H|[]]]; discriminate.
  - destruct (get data "error") as [e|error]; cbn.
    + intros [H|[H|[]]]; discriminate.
    + destruct (truthy error); cbn.
      * destruct (get error "message") as [e|message]; cbn;
          intros H; repeat (destruct H as [H|H]; [discriminate|]); exact H.
      * destruct (get data "result") as [e|result]; cbn;
          intros H; repeat (destruct H as [H|H]; [discriminate|]); exact H.
Qed.

(** The line "Stopping after 3 pages" is printed by the round that
    reaches the third page without a throw, and by no other. *)
Lemma loop_body_stop_line (l : Locals) (s : St) :
  match loop_body post (l, s) with
  | (inl _, _, ev) => ~ In (Console StoppingAfter3Pages) ev
  | (inr go, (l1, _), ev) =>
      (In (Console StoppingAfter3Pages) ev <-> 3 <= pageCount l1) /\
      (go = true -> pageCount l1 < 3)
  end.
Proof.
  pose proof (searchTransactions_never_stops
                (page_request (pageCount l + 1) (paginationToken l)) s) as Hquiet.
  unfold loop_body, bind, modify, get_state, console, zoom, lift, ret; cbn.
  destruct (searchTransactions post (page_request (pageCount l + 1) (paginationToken l)) s)
    as [[[e|result] s1] lines]; cbn in *.
  - intros H. no_stop H.
  - destruct (get result "data") as [e|data]; cbn.
    + intros H. no_stop H.
    + destruct (spread data) as [e|items]; cbn.
      * intros H. no_stop H.
      * destruct (get result "paginationToken") as [e|token]; cbn.
        -- intros H. no_stop H.
        -- destruct (Z.leb_spec 3 (pageCount l + 1)) as [Hge|Hlt]; cbn.
           ++ split; [|discriminate]. split; [intros _; exact Hge|].
              intros _. right. apply in_or_app. right. cbn. tauto.
           ++ split; [|intros _; exact Hlt]. split; [|lia].
              intros H. no_stop H.
Qed.

Lemma do_while_stop_line (fuel : nat) :
  forall l s r l' s' ev,
    do_while fuel (loop_body post) (l, s) = Some (r, (l', s'), ev) ->
    (In (Console StoppingAfter3Pages) ev <-> r = inr tt /\ 3 <= pageCount l').
Proof.
  induction fuel as [|fuel IH]; intros l s r l' s' ev Hrun; [discriminate|].
  cbn [do_while] in Hrun. pose proof (loop_body_stop_line l s) as Hbody.
  destruct (loop_body post (l, s)) as [[[e|[|]] [l1 s1]] ev1].
  - injection Hrun as <- <- <- <-. split; [contradiction|intros [H _]; discriminate].
  - destruct (do_while fuel (loop_body post) (l1, s1)) as [[[r2 [l2 s2]] ev2]|] eqn:Hrest;
      [|discriminate].
    injection Hrun as <- <- <- <-. destruct Hbody as [Hiff Hlt].
    specialize (Hlt eq_refl). rewrite in_app_iff, (IH _ _ _ _ _ _ Hrest).
    split; [intros [H|H]; [apply Hiff in H; lia|exact H]|tauto].
  - injection Hrun as <- <- <- <-. destruct Hbody as [Hiff _].
    rewrite Hiff. split; [now split|tauto].
Qed.

End MoreLoopFacts.

(** X6: an API that leaves [paginationToken] out of its answers, instead
    of sending null, does not end the loop: the second and the third
    request are posted without a token, and when the API answers a request
    without a token with its first page, this page is collected three
    times. *)
Theorem X6_missing_token_member_restarts_the_walk
  {St : Type} (post : St -> SearchTransactionsRpcRequest -> AxiosOutcome * St)
  (s : St) (items : list JsVal) (fuel : nat) :
  (forall s0 requestBody,
      nullish (Req.paginationToken (params requestBody)) = true ->
      exists s1,
        post s0 requestBody = (Resolved (tokenless_body (id requestBody) items), s1)) ->
  (3 <= fuel)%nat ->
  exists l s' ev,
    fetchAllTransactionsWithPagination post fuel s = Some (inr tt, (l, s'), ev) /\
    allTransactions l = items ++ items ++ items /\
    map request_token (exchanges ev) = [JNull; JUndefined; JUndefined] /\
    paginationToken l = JUndefined.
Proof.
  intros Hapi Hfuel.
  destruct (fetchAll_run post fuel s Hfuel) as (r & l & s' & ev & Hrun & Hwalk & Hreplay & _).
  assert (Hstep : forall n token all ex r l s0 s',
             nullish token = true ->
             walk n token all ex r l ->
             replays post s0 ex s' ->
             (n + 1 < 3 ->
              exists outcome rest s1,
                ex = (page_request (n + 1) token, outcome) :: rest /\
                walk (n + 1) JUndefined (all ++ items) rest r l /\
                replays post s1 rest s') /\
             (3 <= n + 1 ->
              exists outcome,
                ex = [(page_request (n + 1) token, outcome)] /\ r = inr tt /\
                l = {| allTransactions := all ++ items; paginationToken := JUndefined;
                       pageCount := n + 1 |})).
  { clear - Hapi. intros n token all ex r l s0 s' Hnull Hwalk Hreplay.
    assert (Hfirst : forall outcome rest,
               ex = (page_request (n + 1) token, outcome) :: rest ->
               read_page outcome = inr (items, JUndefined) /\
               exists s1, replays post s1 rest s').
    { intros outcome rest ->.
      inversion Hreplay as [|? ? ? s1 ? ? Hpost Hrest]; subst.
      destruct (Hapi s0 (page_request (n + 1) token) Hnull) as (s1' & Hpost').
      rewrite Hpost in Hpost'. injection Hpost' as -> ->.
      split; [reflexivity|]. now exists s1'. }
    inversion Hwalk as [? ? ? outcome e Hread
                       |? ? ? outcome items0 token' Hread Hstop
                       |? ? ? outcome items0 token' tail ? ? Hread Hlt Hnn Hwalk'];
      subst.
    - destruct (Hfirst _ _ eq_refl) as [Hgood _]. rewrite Hgood in Hread. discriminate.
    - destruct (Hfirst _ _ eq_refl) as [Hgood _]. rewrite Hgood in Hread.
      injection Hread as <- <-. cbn in Hstop. rewrite andb_true_r in Hstop.
      apply Z.ltb_ge in Hstop. split; [lia|]. intros _. now exists outcome.
    - destruct (Hfirst _ _ eq_refl) as [Hgood (s1 & Hreplay')]. rewrite Hgood in Hread.
      injection Hread as <- <-. split; [|lia].
      intros _. now exists outcome, tail, s1. }
  destruct (Hstep _ JNull _ _ _ _ _ _ eq_refl Hwalk Hreplay) as [Hnext _].
  destruct Hnext as (o1 & rest1 & s1 & Hex1 & Hwalk1 & Hreplay1); [lia|].
  destruct (Hstep _ JUndefined _ _ _ _ _ _ eq_refl Hwalk1 Hreplay1) as [Hnext _].
  destruct Hnext as (o2 & rest2 & s2 & Hex2 & Hwalk2 & Hreplay2); [lia|].
  destruct (Hstep _ JUndefined _ _ _ _ _ _ eq_refl Hwalk2 Hreplay2) as [_ Hlast].
  destruct Hlast as (o3 & Hex3 & -> & ->); [lia|].
  eexists _, s', ev. split; [exact Hrun|].
  rewrite Hex1, Hex2, Hex3. cbn. rewrite <- app_assoc. repeat split.
Qed.

Lemma X6_first_page_three_times :
  (forall (s0 : unit) requestBody,
      nullish (Req.paginationToken (params requestBody)) = true ->
      exists s1,
        tokenless_api [signature_record 1] s0 requestBody
          = (Resolved (tokenless_body (id requestBody) [signature_record 1]), s1)) /\
  (3 <= 3)%nat /\
  exists l s' ev,
    fetchAllTransactionsWithPagination (tokenless_api [signature_record 1]) 3 tt
      = Some (inr tt, (l, s'), ev) /\
    allTransactions l = [signature_record 1; signature_record 1; signature_record 1].
Proof.
  assert (Hapi : forall (s0 : unit) requestBody,
             nullish (Req.paginationToken (params requestBody)) = true ->
             exists s1,
               tokenless_api [signature_record 1] s0 requestBody
                 = (Resolved (tokenless_body (id requestBody) [signature_record 1]), s1)).
  { intros s0 requestBody Hnull. exists s0. unfold tokenless_api.
    destruct (Req.paginationToken (params requestBody)); try discriminate; reflexivity. }
  split; [exact Hapi|]. split; [lia|].
  destruct (X6_missing_token_member_restarts_the_walk
              (tokenless_api [signature_record 1]) tt [signature_record 1] 3 Hapi (le_n 3))
    as (l & s' & ev & Hrun & Hall & _).
  exists l, s', ev. split; [exact Hrun|exact Hall].
Defined.

(** X7: whatever the API does, when the POST of a page is rejected (no
    connection, a status outside 2xx) the function throws that rejection
    after this one attempt: the request is the last, the page counter
    stands at it, the records of the pages before are what was collected,
    and neither "More pages: No" nor "Completed!" is printed. *)
Theorem X7_rejected_post_ends_the_run
  {St : Type} (post : St -> SearchTransactionsRpcRequest -> AxiosOutcome * St)
  (s : St) (fuel : nat) :
  (3 <= fuel)%nat ->
  exists r l s' ev,
    fetchAllTransactionsWithPagination post fuel s = Some (r, (l, s'), ev) /\
    forall k requestBody reason,
      nth_error (exchanges ev) k = Some (requestBody, Rejected reason) ->
      r = inl (AxiosError reason) /\
      List.length (exchanges ev) = S k /\
      pageCount l = Z.of_nat k + 1 /\
      allTransactions l = flat_map (fun x => yielded (snd x)) (firstn k (exchanges ev)) /\
      existsb reports_end ev = false.
Proof.
  intros Hfuel.
  destruct (fetchAll_run post fuel s Hfuel) as (r & l & s' & ev & Hrun & Hwalk & _ & Hquiet).
  exists r, l, s', ev. split; [exact Hrun|].
  intros k requestBody reason Hnth.
  destruct (walk_error _ _ _ _ _ _ Hwalk k _ _ (AxiosError reason) Hnth eq_refl)
    as (Hr & Hlen & Hall).
  destruct (walk_length _ _ _ _ _ _ Hwalk) as (_ & _ & Hcount).
  split; [exact Hr|]. split; [exact Hlen|]. split; [rewrite Hcount, Hlen; lia|].
  split; [exact Hall|exact (Hquiet _ Hr)].
Qed.

Lemma X7_connection_lost_on_page_two :
  (3 <= 3)%nat /\
  exists r l s' ev,
    fetchAllTransactionsWithPagination mock_post 3
      [serve_page {| records := [signature_record 1]; nextCursor := Some "10:1" |}]
      = Some (r, (l, s'), ev) /\
    r = inl (AxiosError "socket hang up") /\
    List.length (exchanges ev) = 2%nat /\
    pageCount l = 2 /\
    allTransactions l = [signature_record 1].
Proof.
  split; [lia|].
  destruct (X7_rejected_post_ends_the_run mock_post
              [serve_page {| records := [signature_record 1]; nextCursor := Some "10:1" |}]
              3 (le_n 3))
    as (r & l & s' & ev & Hrun & Hrej).
  exists r, l, s', ev. split; [exact Hrun|].
  vm_compute in Hrun. injection Hrun as <- <- <- <-.
  destruct (Hrej 1%nat _ "socket hang up" eq_refl) as (Hr & Hlen & Hcount & Hall & _).
  split; [exact Hr|]. split; [exact Hlen|]. split; [exact Hcount|exact Hall].
Defined.

(** X8: whatever the API does, a result whose [data] is not an array or
    a string - missing, null, a number, a boolean or an object - makes the
    push throw a TypeError: nothing of that page is collected, the request
    is the last, and the records of the pages before are what was
    collected. *)
Theorem X8_data_that_cannot_be_spread_throws
  {St : Type} (post : St -> SearchTransactionsRpcRequest -> AxiosOutcome * St)
  (s : St) (fuel : nat) :
  (3 <= fuel)%nat ->
  exists r l s' ev,
    fetchAllTransactionsWithPagination post fuel s = Some (r, (l, s'), ev) /\
    forall k requestBody body result data,
      nth_error (exchanges ev) k = Some (requestBody, Resolved body) ->
      read_result (Resolved body) = inr result ->
      get result "data" = inr data ->
      iterable data = false ->
      (exists what, r = inl (TypeError what)) /\
      List.length (exchanges ev) = S k /\
      allTransactions l = flat_map (fun x => yielded (snd x)) (firstn k (exchanges ev)).
Proof.
  intros Hfuel.
  destruct (fetchAll_run post fuel s Hfuel) as (r & l & s' & ev & Hrun & Hwalk & _).
  exists r, l, s', ev. split; [exact Hrun|].
  intros k requestBody body result data Hnth Hresult Hdata Hnot.
  assert (Hread : exists what, read_page (Resolved body) = inl (TypeError what)).
  { unfold read_page. rewrite Hresult, Hdata.
    destruct data; try discriminate; eexists; reflexivity. }
  destruct Hread as [what Hread].
  destruct (walk_error _ _ _ _ _ _ Hwalk k _ _ _ Hnth Hread) as (Hr & Hlen & Hall).
  split; [now exists what|]. split; [exact Hlen|exact Hall].
Qed.

Lemma X8_transactions_envelope_throws :
  (3 <= 3)%nat /\
  exists r l s' ev,
    fetchAllTransactionsWithPagination mock_post 3
      [serve_raw (JObj [("result", JObj [("transactions", JArr [signature_record 1]);
                                         ("paginationToken", JNull)])])]
      = Some (r, (l, s'), ev) /\
    (exists what, r = inl (TypeError what)) /\
    List.length (exchanges ev) = 1%nat /\
    allTransactions l = [].
Proof.
  split; [lia|].
  destruct (X8_data_that_cannot_be_spread_throws mock_post
              [serve_raw (JObj [("result", JObj [("transactions", JArr [signature_record 1]);
                                                 ("paginationToken", JNull)])])]
              3 (le_n 3))
    as (r & l & s' & ev & Hrun & Hbad).
  exists r, l, s', ev. split; [exact Hrun|].
  vm_compute in Hrun. injection Hrun as <- <- <- <-.
  exact (Hbad 0%nat _ _ _ JUndefined eq_refl eq_refl eq_refl eq_refl).
Defined.

(** X9: whatever the API does, "Stopping after 3 pages (demo limit)" is
    printed exactly when the function ends without an error after three
    POSTs - also when the third page returned a null token, so that the
    results were in fact exhausted.  When the function ends without an
    error its last line is "Completed!" with the number of records
    collected and the number of POSTs made. *)
Theorem X9_stopping_line_after_three_pages
  {St : Type} (post : St -> SearchTransactionsRpcRequest -> AxiosOutcome * St)
  (s : St) (fuel : nat) :
  (3 <= fuel)%nat ->
  exists r l s' ev,
    fetchAllTransactionsWithPagination post fuel s = Some (r, (l, s'), ev) /\
    (In (Console StoppingAfter3Pages) ev <->
     r = inr tt /\ List.length (exchanges ev) = 3%nat) /\
    (r = inr tt ->
     last ev (Console Banner) =
       Console (Completed (List.length (allTransactions l))
                          (Z.of_nat (List.length (exchanges ev))))).
Proof.
  intros Hfuel.
  destruct (fetchAll_run post fuel s Hfuel) as (r & l & s' & ev & Hrun & Hwalk & _).
  destruct (walk_length _ _ _ _ _ _ Hwalk) as (Hone & Hthree & Hcount).
  assert (Hposts : Z.of_nat (List.length (exchanges ev)) = pageCount l) by lia.
  exists r, l, s', ev. split; [exact Hrun|].
  unfold fetchAllTransactionsWithPagination in Hrun.
  destruct (do_while fuel (loop_body post) (initial_locals, s))
    as [[[r0 [l0 s0]] ev0]|] eqn:Hloop; [|discriminate].
  pose proof (do_while_stop_line post fuel _ _ _ _ _ _ Hloop) as Hstop.
  destruct r0 as [e|[]]; injection Hrun as <- <- <- <-.
  - split; [|discriminate].
    split; [|intros [H _]; discriminate].
    intros [H|H]; [discriminate|]. apply Hstop in H as [H _]. discriminate.
  - split.
    + split.
      * intros [H|H]; [discriminate|]. apply in_app_or in H as [H|H].
        -- apply Hstop in H as [_ H]. split; [reflexivity|].
           cbn [exchanges] in *. lia.
        -- destruct H as [H|[]]; discriminate.
      * intros [_ Hlen]. right. apply in_or_app. left. apply Hstop.
        split; [reflexivity|]. cbn [exchanges] in *. lia.
    + intros _. rewrite Hposts.
      change (Console Banner :: ev0 ++ [Console (Completed (List.length (allTransactions l0)) (pageCount l0))])
        with ((Console Banner :: ev0) ++ [Console (Completed (List.length (allTransactions l0)) (pageCount l0))]).
      apply last_last.
Qed.

Lemma X9_three_pages_exhausted_and_stopped :
  (3 <= 3)%nat /\
  exists r l s' ev,
    fetchAllTransactionsWithPagination (cursor_api three_pages) 3 tt
      = Some (r, (l, s'), ev) /\
    r = inr tt /\
    List.length (exchanges ev) = 3%nat /\
    paginationToken l = JNull /\
    In (Console (MorePages false)) ev /\
    In (Console StoppingAfter3Pages) ev.
Proof.
  split; [lia|].
  destruct (X9_stopping_line_after_three_pages (cursor_api three_pages) tt 3 (le_n 3))
    as (r & l & s' & ev & Hrun & Hstop & _).
  exists r, l, s', ev. split; [exact Hrun|].
  vm_compute in Hrun. injection Hrun as <- <- <- <-.
  split; [reflexivity|]. split; [reflexivity|]. split; [reflexivity|].
  split; [cbn; tauto|].
  apply Hstop. split; reflexivity.
Defined.

(** ** The examples 1 and 4 of [index.ts], and [main] *)

Lemma posts_app (a b : list Effect) : posts (a ++ b) = posts a ++ posts b.
Proof.
  induction a as [|[[requestBody outcome|line]|line|ms|code] a IH]; simpl;
    try exact IH; [reflexivity|now rewrite IH].
Qed.

Lemma printed_app (a b : list Effect) : printed (a ++ b) = printed a ++ printed b.
Proof.
  induction a as [|[e|line|ms|code] a IH]; simpl; try exact IH; [reflexivity|now rewrite IH].
Qed.

Lemma sleeps_app (a b : list Effect) : sleeps (a ++ b) = sleeps a ++ sleeps b.
Proof.
  induction a as [|[e|line|ms|code] a IH]; simpl; try exact IH; [reflexivity|now rewrite IH].
Qed.

Lemma posts_client (ev : list Event) : posts (map Client ev) = exchanges ev.
Proof.
  induction ev as [|[requestBody outcome|line] ev IH]; simpl; [reflexivity| |exact IH].
  now rewrite IH.
Qed.

Lemma printed_client (ev : list Event) : printed (map Client ev) = [].
Proof. induction ev as [|e ev IH]; [reflexivity|exact IH]. Qed.

Lemma no_exit_client (ev : list Event) (code : Z) : ~ In (Exit code) (map Client ev).
Proof.
  induction ev as [|e ev IH]; [intros []|].
  intros [H|H]; [discriminate|exact (IH H)].
Qed.

Section ExampleFacts.

Context {St : Type}.
Variable post : St -> SearchTransactionsRpcRequest -> AxiosOutcome * St.
Variable toISOString : JsVal -> JsError + string.

(** The callback posts nothing, leaves the state alone and does not exit,
    whether it throws or not. *)
Lemma print_signature_effects (index : nat) (tx : JsVal) (s : St) :
  snd (fst (print_signature toISOString index tx s)) = s /\
  posts (snd (print_signature toISOString index tx s)) = [] /\
  forall code, ~ In (Exit code) (snd (print_signature toISOString index tx s)).
Proof.
  unfold print_signature, pbind, plift, print.
  destruct (get tx "signature") as [e|signature]; cbn; [now repeat split|].
  destruct (get tx "slot") as [e|slot]; cbn;
    [repeat split; intros code [H|[]]; discriminate|].
  destruct (get tx "blockTime") as [e|blockTime]; cbn;
    [repeat split; intros code [H|[H|[]]]; discriminate|].
  destruct (toISOString blockTime) as [e|time]; cbn;
    repeat split; intros code H; repeat (destruct H as [H|H]; [discriminate|]); exact H.
Qed.

Lemma for_each_effects (xs : list JsVal) :
  forall (index : nat) (s : St),
    snd (fst (for_each (print_signature toISOString) index xs s)) = s /\
    posts (snd (for_each (print_signature toISOString) index xs s)) = [] /\
    forall code, ~ In (Exit code) (snd (for_each (print_signature toISOString) index xs s)).
Proof.
  induction xs as [|x xs IH]; intros index s; [now repeat split|].
  cbn [for_each]. unfold pbind.
  destruct (print_signature_effects index x s) as (Hs & Hposts & Hexit).
  destruct (print_signature toISOString index x s) as [[[e|[]] s1] ef1]; cbn in *; subst s1.
  - now repeat split.
  - destruct (IH (S index) s) as (Hs2 & Hposts2 & Hexit2).
    destruct (for_each (print_signature toISOString) (S index) xs s) as [[r s2] ef2];
      cbn in *.
    split; [exact Hs2|]. split; [now rewrite posts_app, Hposts, Hposts2|].
    intros code H. apply in_app_or in H as [H|H]; [exact (Hexit _ H)|exact (Hexit2 _ H)].
Qed.





Lemma print_accounts_run (accountRequired : list string) :
  forall (i : nat) (s : St),
    exists ef,
      print_accounts i accountRequired s = (inr tt, s, ef) /\
      posts ef = [] /\
      (forall code, ~ In (Exit code) ef) /\
      List.length (printed ef) = List.length accountRequired /\
      forall k addr,
        nth_error accountRequired k = Some addr ->
        nth_error (printed ef) k =
          Some [Text "  "; Val (JNum (Z.of_nat (i + k) + 1)); Text ". ";
                Text (label_or (i + k) addr)].
Proof.
  induction accountRequired as [|a rest IH]; intros i s.
  - exists []. repeat split; try reflexivity; [intros code []|].
    intros k addr H. destruct k; discriminate.
  - destruct (IH (S i) s) as (ef & Hrun & Hposts & Hexit & Hlen & Hnth).
    cbn [print_accounts]. unfold pbind, print. cbn. rewrite Hrun.
    eexists. split; [reflexivity|]. cbn.
    split; [exact Hposts|]. split; [|split; [now rewrite Hlen|]].
    + intros code [H|H]; [discriminate|exact (Hexit _ H)].
    + intros k addr H. destruct k as [|k]; cbn in *.
      * injection H as <-. now rewrite Nat.add_0_r.
      * rewrite (Hnth k addr H). now rewrite Nat.add_succ_r.
Qed.

End ExampleFacts.


Ltac no_exit H :=
  repeat first [ contradiction | discriminate
               | match goal with Hno : forall code, ~ In (Exit code) ?l |- _ =>
                   match type of H with In _ l => exact (Hno _ H) end
                 end
               | destruct H as [H|H] | apply in_app_or in H ].

Ltac ex4_any :=
  eexists _, _; split; [reflexivity|]; split; [|split; [|split]];
  [ repeat (cbn [posts app map]; rewrite ?posts_app, ?posts_client);
    repeat match goal with Hq : posts _ = [] |- _ => rewrite Hq end;
    repeat match goal with Hq : exchanges _ = [] |- _ => rewrite Hq end;
    reflexivity
  | let H := fresh "H" in intros ? H; no_exit H
  | intros; congruence
  | let Hk := fresh "Hk" in
    intros ? ? Hk; cbn [printed]; rewrite printed_app;
    match goal with Hhead : forall rest k addr, _ |- _ => exact (Hhead _ _ _ Hk) end ].

Section ExampleRuns.

Context {St : Type}.
Variable post : St -> SearchTransactionsRpcRequest -> AxiosOutcome * St.
Variable toISOString : JsVal -> JsError + string.



(** Example 4, whatever the API answers: one POST, no exit, and the
    account lines at the head of what is printed. *)
Lemma fetchSignatures_any (accountRequired : list string) (s : St) :
  exists r ef,
    fetchSignaturesWhereAllTokensInvolved post toISOString accountRequired s
      = (r, snd (post s (required_request accountRequired)), ef) /\
    posts ef = [(required_request accountRequired,
                 fst (post s (required_request accountRequired)))] /\
    (forall code, ~ In (Exit code) ef) /\
    (forall e, read_result (fst (post s (required_request accountRequired))) = inl e ->
               r = inl e) /\
    forall k addr,
      nth_error accountRequired k = Some addr ->
      nth_error (printed ef) (2 + k) =
        Some [Text "  "; Val (JNum (Z.of_nat k + 1)); Text ". "; Text (label_or k addr)].
Proof.
  destruct (print_accounts_run (St:=St) accountRequired 0 s)
    as (acc & Hacc & Haccposts & Haccexit & Hacclen & Haccnth).
  destruct (searchTransactions_run post (required_request accountRequired) s)
    as (lines & Hrun & Hlines & _ & _).
  set (outcome := fst (post s (required_request accountRequired))) in *.
  set (s1 := snd (post s (required_request accountRequired))) in *.
  assert (Hhead : forall rest k addr,
             nth_error accountRequired k = Some addr ->
             nth_error (printed acc ++ rest) k =
               Some [Text "  "; Val (JNum (Z.of_nat k + 1)); Text ". ";
                     Text (label_or k addr)]).
  { intros rest k addr Hk. rewrite nth_error_app1; [exact (Haccnth k addr Hk)|].
    rewrite Hacclen. apply nth_error_Some. now rewrite Hk. }
  unfold fetchSignaturesWhereAllTokensInvolved, pbind, call, plift, print, pret.
  rewrite Hacc, Hrun.
  assert (Hclient : forall code, ~ In (Exit code) (map Client lines))
    by (intros code; apply no_exit_client).
  destruct (read_result outcome) as [e|result]; cbn -[for_each]; [ex4_any|].
  destruct (get result "data") as [e|data]; cbn -[for_each]; [ex4_any|].
  destruct (length_of data) as [e|count]; cbn -[for_each]; [ex4_any|].
  destruct (for_each_of data) as [e|items]; cbn -[for_each]; [ex4_any|].
  destruct (for_each_effects toISOString items 0 s1) as (Hstate & Hquiet & Hnoexit).
  destruct (for_each (print_signature toISOString) 0 items s1) as [[[e|[]] s2] ef2];
    cbn in Hstate, Hquiet, Hnoexit; subst s2; cbn -[for_each]; [ex4_any|].
  destruct (get result "paginationToken") as [e|token]; cbn -[for_each]; [ex4_any|].
  destruct (truthy token); cbn -[for_each]; ex4_any.
Qed.


End ExampleRuns.






(** X12: example 4 makes exactly one POST, whatever the API answers, and
    the request carries the caller's accounts unchanged.  Before it, one
    line per account is printed: for the first three positions the fixed
    labels USDC, USDT and Pump.fun, whatever addresses were passed, and
    from the fourth position on the address itself. *)
Theorem X12_required_accounts_are_sent_and_labelled
  {St : Type} (post : St -> SearchTransactionsRpcRequest -> AxiosOutcome * St)
  (toISOString : JsVal -> JsError + string)
  (accountRequired : list string) (s : St) :
  exists r ef,
    fetchSignaturesWhereAllTokensInvolved post toISOString accountRequired s
      = (r, snd (post s (required_request accountRequired)), ef) /\
    posts ef = [(required_request accountRequired,
                 fst (post s (required_request accountRequired)))] /\
    Req.accountRequired (params (required_request accountRequired)) = Some accountRequired /\
    forall k addr,
      nth_error accountRequired k = Some addr ->
      nth_error (printed ef) (2 + k) =
        Some [Text "  "; Val (JNum (Z.of_nat k + 1)); Text ". "; Text (label_or k addr)] /\
      ((k < 3)%nat -> label_or k addr = nth k labels EmptyString) /\
      ((3 <= k)%nat -> label_or k addr = addr).
Proof.
  destruct (fetchSignatures_any post toISOString accountRequired s)
    as (r & ef & Hrun & Hposts & _ & _ & Hnth).
  exists r, ef. split; [exact Hrun|]. split; [exact Hposts|]. split; [reflexivity|].
  intros k addr Hk. split; [exact (Hnth k addr Hk)|]. split.
  - intros Hlt. do 3 (destruct k as [|k]; [reflexivity|]). lia.
  - intros Hge. do 3 (destruct k as [|k]; [lia|]). unfold label_or.
    now destruct k.
Qed.

Lemma X12_other_addresses_get_the_fixed_labels :
  nth_error ["Wallet1"; "Wallet2"; "Wallet3"; "Wallet4"] 0 = Some "Wallet1" /\
  nth_error ["Wallet1"; "Wallet2"; "Wallet3"; "Wallet4"] 3 = Some "Wallet4" /\
  exists r ef,
    fetchSignaturesWhereAllTokensInvolved pairing_api iso_stub
      ["Wallet1"; "Wallet2"; "Wallet3"; "Wallet4"] tt = (r, tt, ef) /\
    nth_error (printed ef) 2 =
      Some [Text "  "; Val (JNum 1); Text ". "; Text "USDC (EPjF...Dt1v)"] /\
    nth_error (printed ef) 5 =
      Some [Text "  "; Val (JNum 4); Text ". "; Text "Wallet4"].
Proof.
  split; [reflexivity|]. split; [reflexivity|].
  destruct (X12_required_accounts_are_sent_and_labelled pairing_api iso_stub
              ["Wallet1"; "Wallet2"; "Wallet3"; "Wallet4"] tt)
    as (r & ef & Hrun & _ & _ & Hnth).
  exists r, ef. split; [exact Hrun|].
  destruct (Hnth 0%nat "Wallet1" eq_refl) as (Hfirst & _ & _).
  destruct (Hnth 3%nat "Wallet4" eq_refl) as (Hfourth & _ & _).
  split; [exact Hfirst|exact Hfourth].
Defined.



(** X14: [main] never throws and makes exactly one POST.  When example 4
    ends without an error [main] adds nothing; when it throws, [main]
    prints the error and exits with code 1, and that is the only exit. *)
Theorem X14_main_exits_with_one_on_error
  {St : Type} (post : St -> SearchTransactionsRpcRequest -> AxiosOutcome * St)
  (toISOString : JsVal -> JsError + string) (s : St) :
  exists r ef,
    fetchSignaturesWhereAllTokensInvolved post toISOString [USDC; USDT; PUMP] s
      = (r, snd (post s (required_request [USDC; USDT; PUMP])), ef) /\
    main post toISOString s =
      (inr tt, snd (post s (required_request [USDC; USDT; PUMP])),
       ef ++ match r with
             | inl e => [Print [Text (nl ++ "❌ Error running example:"); Thrown e]; Exit 1]
             | inr _ => []
             end) /\
    List.length (posts (snd (main post toISOString s))) = 1%nat /\
    forall code,
      In (Exit code) (snd (main post toISOString s)) <-> code = 1 /\ exists e, r = inl e.
Proof.
  destruct (fetchSignatures_any post toISOString [USDC; USDT; PUMP] s)
    as (r & ef & Hrun & Hposts & Hexit & _).
  exists r, ef. split; [exact Hrun|].
  assert (Hmain : main post toISOString s =
            (inr tt, snd (post s (required_request [USDC; USDT; PUMP])),
             ef ++ match r with
                   | inl e => [Print [Text (nl ++ "❌ Error running example:"); Thrown e];
                               Exit 1]
                   | inr _ => []
                   end)).
  { unfold main, ptry. rewrite Hrun. destruct r as [e|[]]; [reflexivity|].
    now rewrite app_nil_r. }
  split; [exact Hmain|]. rewrite Hmain. cbn [snd]. split.
  - rewrite posts_app, Hposts. now destruct r.
  - intros code. split.
    + intros H. apply in_app_or in H as [H|H]; [now destruct (Hexit _ H)|].
      destruct r as [e|u]; [|destruct H].
      destruct H as [H|[H|[]]]; [discriminate|]. injection H as <-.
      split; [reflexivity|now exists e].
    + intros [-> [e ->]]. apply in_or_app. right. cbn. tauto.
Qed.

Lemma X14_rejected_post_exits_with_one :
  fst (fst (main mock_post iso_stub [])) = inr tt /\
  In (Exit 1) (snd (main mock_post iso_stub [])) /\
  ~ In (Exit 0) (snd (main mock_post iso_stub [])).
Proof.
  destruct (X14_main_exits_with_one_on_error mock_post iso_stub [])
    as (r & ef & Hrun & Hmain & _ & Hexit).
  split; [now rewrite Hmain|]. split.
  - apply Hexit. split; [reflexivity|].
    vm_compute in Hrun. injection Hrun as Hr _. eexists. symmetry. exact Hr.
  - intros H. apply Hexit in H as [H _]. discriminate H.
Defined.

(** ** The pagination loop of [docs/BASIC_SEARCH.md] *)

Section RecentFacts.

Context {St : Type}.
Variable post : St -> SearchTransactionsRpcRequest -> AxiosOutcome * St.

(** One round on a page in the [transactions] envelope. *)
Lemma recent_body_page (l : Locals) (s s1 : St) (p : ResultPage) :
  post s (recent_request (pageCount l + 1) (paginationToken l))
    = (Resolved (transactions_body (pageCount l + 1) p), s1) ->
  exists ef,
    recent_body post (l, s) =
      (inr (not_null (cursor_value p)),
       ({| allTransactions := allTransactions l ++ records p;
           paginationToken := cursor_value p;
           pageCount := pageCount l + 1 |}, s1), ef) /\
    posts ef = [(recent_request (pageCount l + 1) (paginationToken l),
                 Resolved (transactions_body (pageCount l + 1) p))].
Proof.
  intros Hpost.
  unfold recent_body, pbind, pmodify, pget, call, zoom, axios_post, plift, print, pret.
  cbn. rewrite Hpost. cbn. eexists. split; reflexivity.
Qed.

Lemma recent_paged (pages : list ResultPage) :
  forall (fuel : nat) (l : Locals) (s : St),
    exhausts pages = true ->
    serves_transactions post s (paginationToken l) pages ->
    (List.length pages <= fuel)%nat ->
    exists l' s' ef,
      p_do_while fuel (recent_body post) (l, s) = Some (inr tt, (l', s'), ef) /\
      allTransactions l' = allTransactions l ++ List.concat (map records pages) /\
      List.length (posts ef) = List.length pages /\
      pageCount l' = pageCount l + Z.of_nat (List.length pages) /\
      paginationToken l' = JNull.
Proof.
  induction pages as [|p rest IH]; intros fuel l s Hpages Hserves Hfuel; [discriminate|].
  destruct fuel as [|fuel]; [cbn in Hfuel; lia|].
  inversion Hserves as [|? ? ? ? Hanswer]; subst.
  destruct (Hanswer (recent_request (pageCount l + 1) (paginationToken l)) eq_refl)
    as (s1 & Hpost & Hnext).
  destruct (recent_body_page l s s1 p Hpost) as (ef1 & Hbody & Hposts1).
  cbn [p_do_while]. rewrite Hbody.
  cbn [exhausts] in Hpages.
  destruct rest as [|q rest].
  - destruct (nextCursor p) as [c|] eqn:Hc; [discriminate|].
    unfold cursor_value. rewrite Hc. cbn [not_null].
    eexists _, _, _. split; [reflexivity|]. cbn. rewrite Hposts1, app_nil_r.
    repeat split; lia.
  - destruct (nextCursor p) as [c|] eqn:Hc; [|discriminate].
    assert (Hcursor : cursor_value p = JStr c) by (unfold cursor_value; now rewrite Hc).
    rewrite Hcursor in *. cbn [not_null].
    destruct (IH fuel {| allTransactions := allTransactions l ++ records p;
                         paginationToken := JStr c;
                         pageCount := pageCount l + 1 |} s1 Hpages Hnext)
      as (l' & s' & ef2 & Hrun & Hall & Hposts2 & Hcount & Htoken);
      [cbn [List.length] in Hfuel |- *; lia|].
    rewrite Hrun. eexists _, _, _. split; [reflexivity|].
    cbn [allTransactions pageCount] in Hall, Hcount.
    split; [rewrite Hall; cbn [map List.concat]; now rewrite <- app_assoc|].
    split; [rewrite posts_app, length_app, Hposts1, Hposts2; reflexivity|].
    split; [rewrite Hcount; cbn [List.length]; lia|exact Htoken].
Qed.

Lemma recent_never_ends (fuel : nat) :
  never_ends post ->
  forall (l : Locals) (s : St), p_do_while fuel (recent_body post) (l, s) = None.
Proof.
  intros Hendless. induction fuel as [|fuel IH]; intros l s; [reflexivity|].
  destruct (Hendless s (recent_request (pageCount l + 1) (paginationToken l)))
    as (p & c & s1 & Hpost & Hc).
  destruct (recent_body_page l s s1 p Hpost) as (ef1 & Hbody & _).
  cbn [p_do_while]. rewrite Hbody. unfold cursor_value. rewrite Hc. cbn [not_null].
  now rewrite IH.
Qed.

End RecentFacts.

(** X15: the loop of BASIC_SEARCH.md has no page limit.  Against an API
    that serves, in the [transactions] envelope, a finite run of pages of
    which only the last has no cursor, it ends once the fuel covers the
    pages, makes one POST per page and returns the records of all pages,
    in the order served. *)
Theorem X15_recent_signatures_collects_every_page
  {St : Type} (post : St -> SearchTransactionsRpcRequest -> AxiosOutcome * St)
  (s : St) (pages : list ResultPage) (fuel : nat) :
  exhausts pages = true ->
  serves_transactions post s JNull pages ->
  (List.length pages <= fuel)%nat ->
  exists l s' ef,
    fetchAllRecentSignatures post fuel s
      = Some (inr (List.concat (map records pages)), (l, s'), ef) /\
    List.length (posts ef) = List.length pages /\
    pageCount l = Z.of_nat (List.length pages).
Proof.
  intros Hpages Hserves Hfuel.
  destruct (recent_paged post pages fuel initial_locals s Hpages Hserves Hfuel)
    as (l & s' & ef & Hrun & Hall & Hposts & Hcount & _).
  unfold fetchAllRecentSignatures. rewrite Hrun. cbn [fst].
  eexists _, _, _. split; [rewrite Hall; reflexivity|].
  split; [|exact Hcount].
  rewrite posts_app, length_app, Hposts. cbn. lia.
Qed.

Lemma X15_four_pages_all_collected :
  exhausts four_pages = true /\
  serves_transactions mock_post (map serve_transactions four_pages) JNull four_pages /\
  (List.length four_pages <= 4)%nat /\
  exists l s' ef,
    fetchAllRecentSignatures mock_post 4 (map serve_transactions four_pages)
      = Some (inr (map signature_record [1; 2; 3; 4]), (l, s'), ef) /\
    List.length (posts ef) = 4%nat.
Proof.
  assert (Hserves : serves_transactions mock_post (map serve_transactions four_pages)
                      JNull four_pages).
  { unfold four_pages. cbn [map].
    repeat (apply serves_transactions_cons; intros ? _; eexists; split; [reflexivity|]).
    apply serves_transactions_nil. }
  split; [reflexivity|]. split; [exact Hserves|]. split; [cbn; lia|].
  destruct (X15_recent_signatures_collects_every_page
              mock_post (map serve_transactions four_pages) four_pages 4
              eq_refl Hserves (le_n 4))
    as (l & s' & ef & Hrun & Hposts & _).
  exists l, s', ef. split; [exact Hrun|exact Hposts].
Defined.

(** X16: against an API that returns a cursor with every page the loop
    of BASIC_SEARCH.md never ends: whatever the fuel, it is used up before
    the function returns. *)
Theorem X16_recent_signatures_never_ends_on_endless_cursors
  {St : Type} (post : St -> SearchTransactionsRpcRequest -> AxiosOutcome * St)
  (s : St) (fuel : nat) :
  never_ends post ->
  fetchAllRecentSignatures post fuel s = None.
Proof.
  intros Hendless. unfold fetchAllRecentSignatures.
  now rewrite (recent_never_ends post fuel Hendless).
Qed.

Lemma X16_endless_api_uses_up_the_fuel :
  never_ends endless_api /\
  fetchAllRecentSignatures endless_api 1000 tt = None.
Proof.
  assert (Hendless : never_ends endless_api).
  { intros s requestBody. eexists _, _, _. split; reflexivity. }
  split; [exact Hendless|].
  exact (X16_recent_signatures_never_ends_on_endless_cursors endless_api tt 1000 Hendless).
Defined.

(** X17: the loop of BASIC_SEARCH.md reads the records under
    [transactions].  On the response that the type declarations and
    [index.ts] use, with the records under [data], its first round throws
    a TypeError after one POST and nothing is collected or printed - while
    the loop of [index.ts] reads that response. *)
Theorem X17_recent_signatures_rejects_the_data_envelope
  {St : Type} (post : St -> SearchTransactionsRpcRequest -> AxiosOutcome * St)
  (s s1 : St) (p : ResultPage) (fuel : nat) :
  post s (recent_request 1 JNull) = (Resolved (success_body 1 p), s1) ->
  (1 <= fuel)%nat ->
  (exists what,
      fetchAllRecentSignatures post fuel s =
        Some (inl (TypeError what),
              ({| allTransactions := []; paginationToken := JNull; pageCount := 1 |}, s1),
              [Client (Post (recent_request 1 JNull) (Resolved (success_body 1 p)))])) /\
  read_page (Resolved (success_body 1 p)) = inr (records p, cursor_value p).
Proof.
  intros Hpost Hfuel. split; [|reflexivity].
  destruct fuel as [|fuel]; [lia|].
  unfold fetchAllRecentSignatures. cbn [p_do_while].
  unfold recent_body, pbind, pmodify, pget, call, zoom, axios_post, plift, print, pret.
  cbn. rewrite Hpost. cbn. eexists. reflexivity.
Qed.

Lemma X17_data_envelope_throws :
  mock_post [serve_page {| records := [signature_record 1]; nextCursor := None |}]
            (recent_request 1 JNull)
    = (Resolved (success_body 1 {| records := [signature_record 1]; nextCursor := None |}),
       []) /\
  (1 <= 1)%nat /\
  exists what w ef,
    fetchAllRecentSignatures mock_post 1
      [serve_page {| records := [signature_record 1]; nextCursor := None |}]
      = Some (inl (TypeError what), w, ef).
Proof.
  split; [reflexivity|]. split; [lia|].
  destruct (X17_recent_signatures_rejects_the_data_envelope
              mock_post
              [serve_page {| records := [signature_record 1]; nextCursor := None |}] []
              {| records := [signature_record 1]; nextCursor := None |} 1
              eq_refl (le_n 1))
    as [[what Hrun] _].
  exists what. eexists _, _. exact Hrun.
Defined.

(** X18: the loop of BASIC_SEARCH.md does not look at [error].  A
    response without [result], such as a JSON-RPC error response, makes
    its destructuring throw a TypeError after one POST, with nothing
    collected and nothing printed.  The message of an error response is
    lost that way: on the same request and the same response
    [searchTransactions] of [index.ts] throws an [Error] with the
    message. *)
Theorem X18_recent_signatures_loses_the_rpc_error
  {St : Type} (post : St -> SearchTransactionsRpcRequest -> AxiosOutcome * St)
  (s s1 : St) (fields : list (string * JsVal)) (fuel : nat) :
  post s (recent_request 1 JNull) = (Resolved (JObj fields), s1) ->
  has_key "result" fields = false ->
  (1 <= fuel)%nat ->
  (exists what,
      fetchAllRecentSignatures post fuel s =
        Some (inl (TypeError what),
              ({| allTransactions := []; paginationToken := JNull; pageCount := 1 |}, s1),
              [Client (Post (recent_request 1 JNull) (Resolved (JObj fields)))])) /\
  forall error,
    rpc_error (JObj fields) error ->
    exists lines,
      searchTransactions post (recent_request 1 JNull) s =
        (inl (ErrorOf (own_property "message" error)), s1,
         Post (recent_request 1 JNull) (Resolved (JObj fields)) :: lines) /\
      exchanges lines = [].
Proof.
  intros Hpost Hresult Hfuel. split.
  - destruct fuel as [|fuel]; [lia|].
    unfold fetchAllRecentSignatures. cbn [p_do_while].
    unfold recent_body, pbind, pmodify, pget, call, zoom, axios_post, plift, print, pret.
    cbn. rewrite Hpost. cbn. rewrite (own_property_missing _ _ Hresult).
    eexists. reflexivity.
  - intros error Herror.
    destruct (searchTransactions_run post (recent_request 1 JNull) s)
      as (lines & Hrun & Hquiet & _).
    rewrite Hpost in Hrun. cbn [fst snd] in Hrun.
    unfold read_result in Hrun. unfold rpc_error in Herror. rewrite Herror in Hrun.
    cbn in Hrun. exists lines. split; [exact Hrun|exact Hquiet].
Qed.

Lemma X18_rate_limit_answer_becomes_a_type_error :
  mock_post [serve_error 429 "Rate limit exceeded"] (recent_request 1 JNull)
    = (Resolved (JObj [("jsonrpc", JStr "2.0"); ("id", JNum 1);
                       ("error", JObj [("code", JNum 429);
                                       ("message", JStr "Rate limit exceeded")])]), []) /\
  (1 <= 1)%nat /\
  (exists what w ef,
     fetchAllRecentSignatures mock_post 1 [serve_error 429 "Rate limit exceeded"]
       = Some (inl (TypeError what), w, ef)) /\
  exists lines,
    searchTransactions mock_post (recent_request 1 JNull)
      [serve_error 429 "Rate limit exceeded"]
      = (inl (ErrorOf (JStr "Rate limit exceeded")), [],
         Post (recent_request 1 JNull)
              (serve_error 429 "Rate limit exceeded" (recent_request 1 JNull)) :: lines).
Proof.
  split; [reflexivity|]. split; [lia|].
  destruct (X18_recent_signatures_loses_the_rpc_error
              mock_post [serve_error 429 "Rate limit exceeded"] [] _ 1
              eq_refl eq_refl (le_n 1))
    as [[what Hrun] Hhelper].
  split; [exists what; eexists _, _; exact Hrun|].
  destruct (Hhelper [("code", JNum 429); ("message", JStr "Rate limit exceeded")] eq_refl)
    as (lines & Hsearch & _).
  exists lines. exact Hsearch.
Defined.

(** ** [robustFetchSignatures] of [docs/BASIC_SEARCH.md] *)

Section RetryFacts.

Context {St : Type}.
Variable post : St -> SearchTransactionsRpcRequest -> AxiosOutcome * St.
Variable to_string : JsVal -> string.
Variable requestBody : SearchTransactionsRpcRequest.

(** One attempt is one POST; what follows depends on how the answer is
    read and on the number of failures so far. *)
Lemma robust_attempt_run (n : Z) (s : St) :
  robust_attempt post to_string requestBody (n, s) =
    let outcome := fst (post s requestBody) in
    let s1 := snd (post s requestBody) in
    match attempt_of to_string outcome with
    | Succeeded result =>
        (inr (Some result), (n, s1), [Client (Post requestBody outcome)])
    | RateLimited =>
        (inr None, (n + 1, s1),
         [Client (Post requestBody outcome); Print [Text "Rate limited, waiting..."];
          Sleep 5000])
    | Failed e =>
        if MAX_RETRIES <=? n + 1 then
          (inl e, (n + 1, s1), [Client (Post requestBody outcome)])
        else
          (inr None, (n + 1, s1),
           [Client (Post requestBody outcome);
            Print [Text "Attempt "; Val (JNum (n + 1)); Text " failed, retrying..."];
            Sleep (1000 * (n + 1))])
    end.
Proof.
  unfold robust_attempt, ptry, pbind, call, zoom, axios_post, plift, print, sleep,
    pmodify, pget, pret, pthrow, attempt_of.
  cbn. destruct (post s requestBody) as [[reason|data] s1]; cbn.
  - destruct (MAX_RETRIES <=? n + 1); reflexivity.
  - destruct (get data "error") as [e|error] eqn:Herror; cbn.
    + destruct (MAX_RETRIES <=? n + 1); reflexivity.
    + destruct (truthy error) eqn:Htruthy; cbn.
      * destruct error; try discriminate; cbn;
          try (destruct (MAX_RETRIES <=? n + 1); reflexivity).
        destruct (is_number (own_property "code" fields) 429); cbn; [reflexivity|].
        destruct (MAX_RETRIES <=? n + 1); reflexivity.
      * destruct (get data "result") as [e|result]; cbn; [|reflexivity].
        destruct (MAX_RETRIES <=? n + 1); reflexivity.
Qed.

Lemma robust_loop_run (fuel : nat) :
  forall (n : Z) (s : St),
    (1 <= fuel)%nat ->
    MAX_RETRIES - n < Z.of_nat fuel ->
    exists r m s' ef,
      robust_loop post to_string requestBody fuel (n, s) = Some (r, (m, s'), ef) /\
      retrying to_string requestBody n (posts ef) r m (sleeps ef) /\
      replays post s (posts ef) s'.
Proof.
  induction fuel as [|fuel IH]; intros n s Hone Hfuel; [lia|].
  cbn [robust_loop fst].
  destruct (Z.ltb_spec n MAX_RETRIES) as [Hlt|Hge].
  2:{ eexists _, _, _, _. split; [reflexivity|]. split; [now constructor|constructor]. }
  rewrite robust_attempt_run. cbn zeta.
  assert (Hpost : post s requestBody = (fst (post s requestBody), snd (post s requestBody)))
    by apply surjective_pairing.
  assert (Hnext : forall ef1,
             posts ef1 = [(requestBody, fst (post s requestBody))] ->
             exists r m s' ef2,
               robust_loop post to_string requestBody fuel (n + 1, snd (post s requestBody))
                 = Some (r, (m, s'), ef2) /\
               retrying to_string requestBody (n + 1) (posts ef2) r m (sleeps ef2) /\
               replays post s (posts (ef1 ++ ef2)) s').
  { intros ef1 Hposts1.
    destruct (IH (n + 1) (snd (post s requestBody))) as (r & m & s' & ef2 & Hrun & Hwalk & Hreplay).
    - unfold MAX_RETRIES in *. lia.
    - lia.
    - exists r, m, s', ef2. split; [exact Hrun|]. split; [exact Hwalk|].
      rewrite posts_app, Hposts1. econstructor; [exact Hpost|exact Hreplay]. }
  destruct (attempt_of to_string (fst (post s requestBody))) as [result| |e] eqn:Hkind.
  - eexists _, _, _, _. split; [reflexivity|]. cbn. split.
    + now apply retrying_success.
    + econstructor; [exact Hpost|constructor].
  - destruct (Hnext [Client (Post requestBody (fst (post s requestBody)));
                     Print [Text "Rate limited, waiting..."]; Sleep 5000] eq_refl)
      as (r & m & s' & ef2 & Hrun & Hwalk & Hreplay).
    rewrite Hrun.
    eexists _, _, _, _. split; [reflexivity|]. split; [|exact Hreplay].
    cbn. now apply retrying_rate_limited.
  - destruct (Z.leb_spec MAX_RETRIES (n + 1)) as [Hlast|Hroom].
    + eexists _, _, _, _. split; [reflexivity|]. cbn. split.
      * now apply retrying_throw.
      * econstructor; [exact Hpost|constructor].
    + destruct (Hnext [Client (Post requestBody (fst (post s requestBody)));
                       Print [Text "Attempt "; Val (JNum (n + 1));
                              Text " failed, retrying..."];
                       Sleep (1000 * (n + 1))] eq_refl)
        as (r & m & s' & ef2 & Hrun & Hwalk & Hreplay).
      rewrite Hrun.
      eexists _, _, _, _. split; [reflexivity|]. split; [|exact Hreplay].
      cbn. now apply retrying_failed with e.
Qed.

(** What the shape of the retries says about each attempt. *)
Lemma retrying_nth n ex r m waits :
  retrying to_string requestBody n ex r m waits ->
  (Z.of_nat (List.length ex) <= Z.max 0 (MAX_RETRIES - n)) /\
  (n < MAX_RETRIES -> (1 <= List.length ex)%nat) /\
  forall k request outcome,
    nth_error ex k = Some (request, outcome) ->
    request = requestBody /\
    match attempt_of to_string outcome with
    | Succeeded result => r = inr result /\ List.length ex = S k
    | RateLimited =>
        nth_error waits k = Some 5000 /\
        if n + Z.of_nat k + 1 <? MAX_RETRIES then (S k < List.length ex)%nat
        else r = inr JUndefined /\ List.length ex = S k
    | Failed e =>
        if n + Z.of_nat k + 1 <? MAX_RETRIES then
          nth_error waits k = Some (1000 * (n + Z.of_nat k + 1)) /\
          (S k < List.length ex)%nat
        else r = inl e /\ List.length ex = S k
    end.
Proof.
  unfold MAX_RETRIES.
  induction 1 as [n Hover
                 |n outcome result Hlt Hkind
                 |n outcome e Hlt Hkind Hlast
                 |n outcome rest r m waits Hlt Hkind Hrest IH
                 |n outcome e rest r m waits Hlt Hkind Hroom Hrest IH];
    unfold MAX_RETRIES in *.
  - split; [cbn [List.length]; lia|]. split; [lia|]. intros k request outcome Hnth. destruct k; discriminate.
  - split; [cbn [List.length]; lia|]. split; [cbn [List.length]; lia|]. intros k request outcome0 Hnth.
    destruct k as [|k]; [|destruct k; discriminate]. injection Hnth as <- <-.
    rewrite Hkind. now repeat split.
  - split; [cbn [List.length]; lia|]. split; [cbn [List.length]; lia|]. intros k request outcome0 Hnth.
    destruct k as [|k]; [|destruct k; discriminate]. injection Hnth as <- <-.
    rewrite Hkind. split; [reflexivity|].
    destruct (Z.ltb_spec (n + Z.of_nat 0 + 1) 3); [cbn in *; lia|now split].
  - destruct IH as (Hmax & Hmin & Hnth). split; [cbn [List.length]; lia|].
    split; [cbn [List.length]; lia|]. intros k request outcome0 Hk.
    destruct k as [|k]; cbn in Hk.
    + injection Hk as <- <-. rewrite Hkind. split; [reflexivity|]. split; [reflexivity|].
      destruct (Z.ltb_spec (n + Z.of_nat 0 + 1) 3) as [Hgo|Hstop].
      * cbn [List.length]. assert (1 <= List.length rest)%nat by (apply Hmin; lia). lia.
      * inversion Hrest; subst; try (unfold MAX_RETRIES in *; lia). now split.
    + destruct (Hnth k request outcome0 Hk) as [Hreq Hcase]. split; [exact Hreq|].
      replace (n + Z.of_nat (S k) + 1) with (n + 1 + Z.of_nat k + 1) by lia.
      destruct (attempt_of to_string outcome0); cbn [nth_error List.length].
      * destruct Hcase as [Hr Hlen]. split; [exact Hr|now rewrite Hlen].
      * destruct Hcase as [Hwait Hcase]. split; [exact Hwait|].
        destruct (n + 1 + Z.of_nat k + 1 <? 3); [lia|].
        destruct Hcase as [Hr Hlen]. split; [exact Hr|now rewrite Hlen].
      * destruct (n + 1 + Z.of_nat k + 1 <? 3).
        -- destruct Hcase as [Hwait Hlen]. split; [exact Hwait|lia].
        -- destruct Hcase as [Hr Hlen]. split; [exact Hr|now rewrite Hlen].
  - destruct IH as (Hmax & Hmin & Hnth). split; [cbn [List.length]; lia|].
    split; [cbn [List.length]; lia|]. intros k request outcome0 Hk.
    destruct k as [|k]; cbn in Hk.
    + injection Hk as <- <-. rewrite Hkind. split; [reflexivity|].
      destruct (Z.ltb_spec (n + Z.of_nat 0 + 1) 3) as [Hgo|Hstop]; [|cbn in *; lia].
      split; [cbn [nth_error]; f_equal; lia|].
      cbn [List.length]. assert (1 <= List.length rest)%nat by (apply Hmin; lia). lia.
    + destruct (Hnth k request outcome0 Hk) as [Hreq Hcase]. split; [exact Hreq|].
      replace (n + Z.of_nat (S k) + 1) with (n + 1 + Z.of_nat k + 1) by lia.
      destruct (attempt_of to_string outcome0); cbn [nth_error List.length].
      * destruct Hcase as [Hr Hlen]. split; [exact Hr|now rewrite Hlen].
      * destruct Hcase as [Hwait Hcase]. split; [exact Hwait|].
        destruct (n + 1 + Z.of_nat k + 1 <? 3); [lia|].
        destruct Hcase as [Hr Hlen]. split; [exact Hr|now rewrite Hlen].
      * destruct (n + 1 + Z.of_nat k + 1 <? 3).
        -- destruct Hcase as [Hwait Hlen]. split; [exact Hwait|lia].
        -- destruct Hcase as [Hr Hlen]. split; [exact Hr|now rewrite Hlen].
Qed.

End RetryFacts.

(** X19: whatever the API does, [robustFetchSignatures] ends after at
    least one and at most three POSTs, all of the same request, each
    answered by the API in turn. *)
Theorem X19_robust_fetch_makes_at_most_three_attempts
  {St : Type} (post : St -> SearchTransactionsRpcRequest -> AxiosOutcome * St)
  (to_string : JsVal -> string) (requestBody : SearchTransactionsRpcRequest)
  (s : St) (fuel : nat) :
  (4 <= fuel)%nat ->
  exists r m s' ef,
    robustFetchSignatures post to_string requestBody fuel s = Some (r, (m, s'), ef) /\
    (1 <= List.length (posts ef) <= 3)%nat /\
    (forall x, In x (posts ef) -> fst x = requestBody) /\
    replays post s (posts ef) s'.
Proof.
  intros Hfuel.
  destruct (robust_loop_run post to_string requestBody fuel 0 s)
    as (r & m & s' & ef & Hrun & Hwalk & Hreplay); [lia|unfold MAX_RETRIES; lia|].
  exists r, m, s', ef. split; [exact Hrun|].
  destruct (retrying_nth to_string requestBody _ _ _ _ _ Hwalk) as (Hmax & Hmin & Hnth).
  unfold MAX_RETRIES in *. split; [split; [apply Hmin; lia|lia]|].
  split; [|exact Hreplay].
  intros [request outcome] Hin. apply In_nth_error in Hin as [k Hk].
  exact (proj1 (Hnth k request outcome Hk)).
Qed.

Lemma X19_three_rejections_three_posts :
  (4 <= 4)%nat /\
  exists r m s' ef,
    robustFetchSignatures mock_post to_string_stub latest_signatures_request 4 []
      = Some (r, (m, s'), ef) /\
    List.length (posts ef) = 3%nat.
Proof.
  split; [lia|].
  destruct (X19_robust_fetch_makes_at_most_three_attempts
              mock_post to_string_stub latest_signatures_request [] 4 (le_n 4))
    as (r & m & s' & ef & Hrun & _).
  exists r, m, s', ef. split; [exact Hrun|].
  vm_compute in Hrun. injection Hrun as <- <- <- <-. reflexivity.
Defined.

(** X20: whatever the API does, the first attempt whose answer has no
    truthy [error] ends [robustFetchSignatures]: it returns the [result]
    of that answer and makes no further POST. *)
Theorem X20_robust_fetch_returns_the_first_result
  {St : Type} (post : St -> SearchTransactionsRpcRequest -> AxiosOutcome * St)
  (to_string : JsVal -> string) (requestBody : SearchTransactionsRpcRequest)
  (s : St) (fuel : nat) :
  (4 <= fuel)%nat ->
  exists r m s' ef,
    robustFetchSignatures post to_string requestBody fuel s = Some (r, (m, s'), ef) /\
    forall k request data error result,
      nth_error (posts ef) k = Some (request, Resolved data) ->
      get data "error" = inr error ->
      truthy error = false ->
      get data "result" = inr result ->
      r = inr result /\ List.length (posts ef) = S k.
Proof.
  intros Hfuel.
  destruct (robust_loop_run post to_string requestBody fuel 0 s)
    as (r & m & s' & ef & Hrun & Hwalk & Hreplay); [lia|unfold MAX_RETRIES; lia|].
  exists r, m, s', ef. split; [exact Hrun|].
  intros k request data error result Hnth Herror Hfalsy Hresult.
  destruct (retrying_nth to_string requestBody _ _ _ _ _ Hwalk) as (_ & _ & Hcases).
  destruct (Hcases k request _ Hnth) as [_ Hcase].
  assert (Hkind : attempt_of to_string (Resolved data) = Succeeded result).
  { unfold attempt_of. now rewrite Herror, Hfalsy, Hresult. }
  rewrite Hkind in Hcase. exact Hcase.
Qed.

Lemma X20_success_after_one_rate_limit :
  (4 <= 4)%nat /\
  exists r m s' ef,
    robustFetchSignatures (busy_api 1) to_string_stub latest_signatures_request 4 0%nat
      = Some (r, (m, s'), ef) /\
    r = inr (page_result {| records := []; nextCursor := None |}) /\
    List.length (posts ef) = 2%nat.
Proof.
  split; [lia|].
  destruct (X20_robust_fetch_returns_the_first_result
              (busy_api 1) to_string_stub latest_signatures_request 0%nat 4 (le_n 4))
    as (r & m & s' & ef & Hrun & Hfirst).
  exists r, m, s', ef. split; [exact Hrun|].
  vm_compute in Hrun. injection Hrun as <- <- <- <-.
  exact (Hfirst 1%nat _ _ JUndefined _ eq_refl eq_refl eq_refl eq_refl).
Defined.

(** X21: an answer with error code 429 makes [robustFetchSignatures]
    wait 5000 ms; after the first or the second attempt it tries again,
    and after the third it falls off the loop and returns [undefined]:
    nothing is thrown, so a caller cannot tell the rate limit from a
    result. *)
Theorem X21_robust_fetch_returns_undefined_when_rate_limited
  {St : Type} (post : St -> SearchTransactionsRpcRequest -> AxiosOutcome * St)
  (to_string : JsVal -> string) (requestBody : SearchTransactionsRpcRequest)
  (s : St) (fuel : nat) :
  (4 <= fuel)%nat ->
  exists r m s' ef,
    robustFetchSignatures post to_string requestBody fuel s = Some (r, (m, s'), ef) /\
    forall k request data error,
      nth_error (posts ef) k = Some (request, Resolved data) ->
      get data "error" = inr error ->
      truthy error = true ->
      is_number (code_of error) 429 = true ->
      nth_error (sleeps ef) k = Some 5000 /\
      ((k < 2)%nat -> (S k < List.length (posts ef))%nat) /\
      (k = 2%nat -> r = inr JUndefined /\ List.length (posts ef) = 3%nat).
Proof.
  intros Hfuel.
  destruct (robust_loop_run post to_string requestBody fuel 0 s)
    as (r & m & s' & ef & Hrun & Hwalk & Hreplay); [lia|unfold MAX_RETRIES; lia|].
  exists r, m, s', ef. split; [exact Hrun|].
  intros k request data error Hnth Herror Htruthy Hcode.
  destruct (retrying_nth to_string requestBody _ _ _ _ _ Hwalk) as (_ & _ & Hcases).
  destruct (Hcases k request _ Hnth) as [_ Hcase].
  assert (Hkind : attempt_of to_string (Resolved data) = RateLimited).
  { unfold attempt_of. now rewrite Herror, Htruthy, Hcode. }
  rewrite Hkind in Hcase. destruct Hcase as [Hwait Hcase].
  split; [exact Hwait|]. unfold MAX_RETRIES in Hcase. split.
  - intros Hk. destruct (Z.ltb_spec (0 + Z.of_nat k + 1) 3); [exact Hcase|lia].
  - intros ->. exact Hcase.
Qed.

Lemma X21_three_rate_limits_give_undefined :
  (4 <= 4)%nat /\
  exists r m s' ef,
    robustFetchSignatures (busy_api 3) to_string_stub latest_signatures_request 4 0%nat
      = Some (r, (m, s'), ef) /\
    r = inr JUndefined /\
    List.length (posts ef) = 3%nat /\
    sleeps ef = [5000; 5000; 5000].
Proof.
  split; [lia|].
  destruct (X21_robust_fetch_returns_undefined_when_rate_limited
              (busy_api 3) to_string_stub latest_signatures_request 0%nat 4 (le_n 4))
    as (r & m & s' & ef & Hrun & Hlimited).
  exists r, m, s', ef. split; [exact Hrun|].
  vm_compute in Hrun. injection Hrun as <- <- <- <-.
  destruct (Hlimited 2%nat _ _ _ eq_refl eq_refl eq_refl eq_refl) as (_ & _ & Hthird).
  destruct (Hthird eq_refl) as [Hr Hlen].
  split; [exact Hr|]. split; [exact Hlen|reflexivity].
Defined.

(** X22: a failed attempt of [robustFetchSignatures] - a rejected POST, a
    null body, or an error response whose code is not 429, which is thrown
    as "API Error: message" and caught by the function itself - is tried
    again after the first and the second attempt, after a wait of 1000 ms
    times the number of the attempt; after the third the error of that
    attempt is thrown. *)
Theorem X22_robust_fetch_retries_every_failure
  {St : Type} (post : St -> SearchTransactionsRpcRequest -> AxiosOutcome * St)
  (to_string : JsVal -> string) (requestBody : SearchTransactionsRpcRequest)
  (s : St) (fuel : nat) :
  (4 <= fuel)%nat ->
  (forall reason, attempt_of to_string (Rejected reason) = Failed (AxiosError reason)) /\
  (forall i code message,
      code <> 429 ->
      attempt_of to_string (Resolved (error_body i code message)) =
        Failed (ErrorOf (JStr ("API Error: " ++ to_string (JStr message))))) /\
  exists r m s' ef,
    robustFetchSignatures post to_string requestBody fuel s = Some (r, (m, s'), ef) /\
    forall k request outcome e,
      nth_error (posts ef) k = Some (request, outcome) ->
      attempt_of to_string outcome = Failed e ->
      ((k < 2)%nat ->
       nth_error (sleeps ef) k = Some (1000 * (Z.of_nat k + 1)) /\
       (S k < List.length (posts ef))%nat) /\
      (k = 2%nat -> r = inl e /\ List.length (posts ef) = 3%nat).
Proof.
  intros Hfuel. split; [reflexivity|]. split.
  { intros i code message Hcode. unfold attempt_of. cbn.
    destruct (Z.eqb_spec code 429); [contradiction|reflexivity]. }
  destruct (robust_loop_run post to_string requestBody fuel 0 s)
    as (r & m & s' & ef & Hrun & Hwalk & Hreplay); [lia|unfold MAX_RETRIES; lia|].
  exists r, m, s', ef. split; [exact Hrun|].
  intros k request outcome e Hnth Hkind.
  destruct (retrying_nth to_string requestBody _ _ _ _ _ Hwalk) as (_ & _ & Hcases).
  destruct (Hcases k request _ Hnth) as [_ Hcase].
  rewrite Hkind in Hcase. unfold MAX_RETRIES in Hcase. split.
  - intros Hk. destruct (Z.ltb_spec (0 + Z.of_nat k + 1) 3); [exact Hcase|lia].
  - intros ->. exact Hcase.
Qed.

Lemma X22_three_rejections_throw_the_third :
  (4 <= 4)%nat /\
  exists r m s' ef,
    robustFetchSignatures mock_post to_string_stub latest_signatures_request 4 []
      = Some (r, (m, s'), ef) /\
    r = inl (AxiosError "socket hang up") /\
    sleeps ef = [1000; 2000].
Proof.
  split; [lia|].
  destruct (X22_robust_fetch_retries_every_failure
              mock_post to_string_stub latest_signatures_request [] 4 (le_n 4))
    as (_ & _ & r & m & s' & ef & Hrun & Hfailed).
  exists r, m, s', ef. split; [exact Hrun|].
  vm_compute in Hrun. injection Hrun as <- <- <- <-.
  destruct (Hfailed 2%nat _ _ _ eq_refl eq_refl) as (_ & Hthird).
  destruct (Hthird eq_refl) as [Hr _].
  split; [exact Hr|reflexivity].
Defined.

(** ** Example 2 and the first snippet of BASIC_SEARCH.md *)

(** X23: the snippet of BASIC_SEARCH.md does not throw on an error
    response: it prints the error member on one line and returns
    undefined, after its one POST.  The helper of [index.ts] throws on
    the same response. *)
Theorem X23_snippet_returns_undefined_on_an_error_response
  {St : Type} (post : St -> SearchTransactionsRpcRequest -> AxiosOutcome * St)
  (s : St) (body error : JsVal) :
  fst (post s latest_signatures_request) = Resolved body ->
  get body "error" = inr error ->
  truthy error = true ->
  BasicSearch.fetchLatestSignatures post s
    = (inr JUndefined, snd (post s latest_signatures_request),
       [Client (Post latest_signatures_request (Resolved body));
        Print [Text "API Error:"; Val error]]) /\
  exists e, fst (fst (searchTransactions post latest_signatures_request s)) = inl e.
Proof.
  intros Hpost Herror Htruthy. split.
  - unfold BasicSearch.fetchLatestSignatures, ptry, pbind, call, plift, print, pret,
      axios_post.
    destruct (post s latest_signatures_request) as [outcome s1].
    cbn [fst snd] in *. subst outcome. cbn -[get truthy]. rewrite Herror.
    cbn -[get truthy]. rewrite Htruthy. reflexivity.
  - destruct (searchTransactions_run post latest_signatures_request s)
      as (lines & Hrun & _).
    rewrite Hrun, Hpost. cbn [fst]. unfold read_result. rewrite Herror, Htruthy.
    destruct (get error "message"); eexists; reflexivity.
Qed.

Lemma X23_rate_limit_answer_gives_undefined :
  exists error,
    truthy error = true /\
    BasicSearch.fetchLatestSignatures (busy_api 1) 0%nat
      = (inr JUndefined, 1%nat,
         [Client (Post latest_signatures_request
                    (serve_error 429 "Rate limit exceeded" latest_signatures_request));
          Print [Text "API Error:"; Val error]]) /\
    fst (fst (searchTransactions (busy_api 1) latest_signatures_request 0%nat))
      = inl (ErrorOf (JStr "Rate limit exceeded")).
Proof.
  destruct (X23_snippet_returns_undefined_on_an_error_response
              (busy_api 1) 0%nat _ _ eq_refl eq_refl eq_refl) as [Hrun _].
  eexists. split; [|split; [exact Hrun|reflexivity]]. reflexivity.
Defined.

(** X24: on a result whose [transactions] is an array the snippet
    returns the whole array, but the line "Latest signatures:" shows its
    first five elements only; "Has more results:" is the test of the
    token against null, so true for a result without the member. *)
Theorem X24_snippet_returns_all_and_shows_five
  {St : Type} (post : St -> SearchTransactionsRpcRequest -> AxiosOutcome * St)
  (s : St) (body : JsVal) (fields : list (string * JsVal)) (items : list JsVal) :
  fst (post s latest_signatures_request) = Resolved body ->
  read_result (Resolved body) = inr (JObj fields) ->
  own_property "transactions" fields = JArr items ->
  BasicSearch.fetchLatestSignatures post s
    = (inr (JArr items), snd (post s latest_signatures_request),
       [Client (Post latest_signatures_request (Resolved body));
        Print [Text "Fetched "; Val (JNum (Z.of_nat (List.length items)));
               Text " signatures"];
        Print [Text "Latest signatures:"; Val (JArr (firstn 5 items))];
        Print [Text "Has more results:";
               Val (JBool (not_null (own_property "paginationToken" fields)))]]) /\
  (own_property "paginationToken" fields = JUndefined ->
   not_null (own_property "paginationToken" fields) = true).
Proof.
  intros Hpost Hread Htransactions. split; [|intros ->; reflexivity].
  unfold BasicSearch.fetchLatestSignatures, ptry, pbind, call, plift, print, pret,
    axios_post.
  destruct (post s latest_signatures_request) as [outcome s1].
  cbn [fst snd] in *. subst outcome. unfold read_result in Hread.
  cbn -[get truthy firstn]. destruct (get body "error") as [e|error]; [discriminate|].
  cbn -[get truthy firstn]. destruct (truthy error).
  - destruct (get error "message"); discriminate.
  - rewrite Hread. cbn -[firstn]. rewrite Htransactions. cbn -[firstn]. reflexivity.
Qed.

Lemma X24_seven_records_returned_five_shown :
  exists shown,
    List.length shown = 5%nat /\
    BasicSearch.fetchLatestSignatures mock_post [serve_transactions seven_records]
      = (inr (JArr (records seven_records)), [],
         [Client (Post latest_signatures_request
                    (serve_transactions seven_records latest_signatures_request));
          Print [Text "Fetched "; Val (JNum 7); Text " signatures"];
          Print [Text "Latest signatures:"; Val (JArr shown)];
          Print [Text "Has more results:"; Val (JBool false)]]).
Proof.
  destruct (X24_snippet_returns_all_and_shows_five
              mock_post [serve_transactions seven_records] _ _ (records seven_records)
              eq_refl eq_refl eq_refl) as [Hrun _].
  eexists. split; [|exact Hrun]. reflexivity.
Defined.



(** X26: example 2 reads [tx.transaction.signatures] of every record.
    When the API answers with records of the signatures mode, which have
    no member [transaction], it throws a TypeError at the first record,
    after the heading and the count and before any record line. *)
Theorem X26_full_example_throws_on_signature_records
  {St : Type} (post : St -> SearchTransactionsRpcRequest -> AxiosOutcome * St)
  (s : St) (body : JsVal) (fields tx : list (string * JsVal)) (rest : list JsVal) :
  fst (post s full_request) = Resolved body ->
  read_result (Resolved body) = inr (JObj fields) ->
  own_property "data" fields = JArr (JObj tx :: rest) ->
  own_property "transaction" tx = JUndefined ->
  fetchLatestTransactions post s
    = (inl (TypeError "Cannot read properties of undefined"),
       snd (post s full_request),
       [Print [Text (nl ++ "=== Example 2: Full Transaction Details ===" ++ nl)];
        Client (Post full_request (Resolved body));
        Print [Text "Fetched "; Val (JNum (Z.of_nat (S (List.length rest))));
               Text (" full transactions" ++ nl)]]).
Proof.
  intros Hpost Hread Hdata Htransaction.
  destruct (searchTransactions_run post full_request s) as (lines & Hrun & _ & _ & Hnone).
  rewrite Hpost, Hread in Hrun, Hnone. rewrite (Hnone _ eq_refl) in Hrun.
  unfold fetchLatestTransactions, pbind, call, plift, print, pret.
  rewrite Hrun. cbn -[nl for_each Z.of_nat]. rewrite Hdata.
  cbn -[nl Z.of_nat]. unfold pbind, plift. cbn -[nl Z.of_nat].
  rewrite Htransaction. reflexivity.
Qed.

Lemma X26_signature_records_in_full_example :
  fetchLatestTransactions mock_post [serve_page seven_records]
    = (inl (TypeError "Cannot read properties of undefined"), [],
       [Print [Text (nl ++ "=== Example 2: Full Transaction Details ===" ++ nl)];
        Client (Post full_request (serve_page seven_records full_request));
        Print [Text "Fetched "; Val (JNum 7); Text (" full transactions" ++ nl)]]).
Proof.
  exact (X26_full_example_throws_on_signature_records
           mock_post [serve_page seven_records] _ _ _ _
           eq_refl eq_refl eq_refl eq_refl).
Defined.

(** ** Example 6 *)

Section FilteringFacts.

Context {St : Type}.

(** The callback on one record: two lines when the record is listable,
    otherwise a TypeError after one line at most. *)
Lemma print_filtered_run (index : nat) (tx : JsVal) (s : St) :
  if listable tx then
    exists signature,
      get tx "signature" = inr signature /\
      exists slot,
        print_filtered index tx s =
          (inr tt, s,
           [Print [Val (JNum (Z.of_nat index + 1)); Text ". "; Val signature];
            Print [Text "   Slot: "; Val slot; Text nl]])
  else
    exists what ef,
      print_filtered index tx s = (inl (TypeError what), s, ef) /\
      posts ef = [] /\
      (List.length (printed ef) <= 1)%nat.
Proof.
  unfold listable, print_filtered, pbind, plift, print, interpolate.
  destruct (get tx "signature") as [[what| |]|signature] eqn:Hsignature;
    try (destruct tx; discriminate Hsignature).
  - eexists _, _. split; [reflexivity|]. split; [reflexivity|]. cbn. lia.
  - destruct (get tx "slot") as [[what| |]|slot] eqn:Hslot;
      try (destruct tx; discriminate Hslot).
    + destruct tx; discriminate.
    + destruct (stringable signature); cbn -[nl].
      * destruct (stringable slot); cbn -[nl].
        -- exists signature. split; [reflexivity|]. exists slot. reflexivity.
        -- eexists _, _. split; [reflexivity|]. split; [reflexivity|]. cbn. lia.
      * eexists _, _. split; [reflexivity|]. split; [reflexivity|]. cbn. lia.
Qed.

Lemma for_each_filtered (xs : list JsVal) :
  forall (index : nat) (s : St),
    exists r ef,
      for_each print_filtered index xs s = (r, s, ef) /\
      posts ef = [] /\
      (forallb listable xs = true ->
       r = inr tt /\
       List.length (printed ef) = (2 * List.length xs)%nat /\
       forall k tx signature,
         nth_error xs k = Some tx ->
         get tx "signature" = inr signature ->
         nth_error (printed ef) (2 * k) =
           Some [Val (JNum (Z.of_nat (index + k) + 1)); Text ". "; Val signature]) /\
      (forallb listable xs = false ->
       (exists what, r = inl (TypeError what)) /\
       (List.length (printed ef) < 2 * List.length xs)%nat).
Proof.
  induction xs as [|x xs IH]; intros index s.
  - exists (inr tt), []. split; [reflexivity|]. split; [reflexivity|].
    split; [|discriminate]. intros _. repeat split. intros [|k]; discriminate.
  - assert (Hone := print_filtered_run index x s).
    destruct (IH (S index) s) as (r & ef & Hrun & Hposts & Hgood & Hbad).
    cbn [for_each forallb]. unfold pbind.
    destruct (listable x).
    + destruct Hone as (signature & Hsignature & slot & Hone).
      rewrite Hone, Hrun. eexists _, _. split; [reflexivity|].
      cbn [posts printed app andb]. split; [exact Hposts|]. split.
      * intros Hall. destruct (Hgood Hall) as (Hr & Hlen & Hnth).
        split; [exact Hr|]. split; [cbn [List.length]; lia|].
        intros k tx sig Hk Hsig. destruct k as [|k].
        -- injection Hk as <-. rewrite Hsignature in Hsig. injection Hsig as <-.
           now rewrite Nat.add_0_r.
        -- cbn [nth_error] in Hk. replace (2 * S k)%nat with (S (S (2 * k))) by lia.
           cbn [nth_error]. rewrite (Hnth k tx sig Hk Hsig).
           now rewrite Nat.add_succ_r.
      * intros Hall. destruct (Hbad Hall) as (Hr & Hlen).
        split; [exact Hr|]. cbn [List.length]. lia.
    + destruct Hone as (what & ef1 & Hone & Hposts1 & Hlen1).
      rewrite Hone. eexists _, _. split; [reflexivity|].
      split; [exact Hposts1|]. cbn [andb]. split; [discriminate|].
      intros _. split; [now exists what|]. cbn [List.length]. lia.
Qed.

End FilteringFacts.

(** X27: example 6 makes one POST and has no limit of five of its own.
    On a result whose [data] is an array of records that can be listed -
    none is null, and [signature] and [slot] of each have a string - it
    ends without an error and prints two lines for every record, after
    the heading and the count; no other member is read, and a missing
    member is printed as undefined.  When a record cannot be listed - it
    is null, or one of the two members is an object with an own member
    [toString], or an array that holds one, which the template literal
    cannot convert - the function throws a TypeError and prints fewer
    lines. *)
Theorem X27_advanced_filtering_prints_every_record
  {St : Type} (post : St -> SearchTransactionsRpcRequest -> AxiosOutcome * St)
  (s : St) (body : JsVal) (fields : list (string * JsVal)) (items : list JsVal) :
  fst (post s filtering_request) = Resolved body ->
  read_result (Resolved body) = inr (JObj fields) ->
  own_property "data" fields = JArr items ->
  exists r ef,
    advancedFiltering post s = (r, snd (post s filtering_request), ef) /\
    posts ef = [(filtering_request, Resolved body)] /\
    (forallb listable items = true ->
     r = inr tt /\
     List.length (printed ef) = (2 + 2 * List.length items)%nat /\
     forall k tx signature,
       nth_error items k = Some tx ->
       get tx "signature" = inr signature ->
       nth_error (printed ef) (2 + 2 * k) =
         Some [Val (JNum (Z.of_nat k + 1)); Text ". "; Val signature]) /\
    (forallb listable items = false ->
     (exists what, r = inl (TypeError what)) /\
     (List.length (printed ef) < 2 + 2 * List.length items)%nat).
Proof.
  intros Hpost Hread Hdata.
  destruct (searchTransactions_run post filtering_request s)
    as (lines & Hrun & _ & _ & Hnone).
  rewrite Hpost, Hread in Hrun, Hnone. rewrite (Hnone _ eq_refl) in Hrun.
  destruct (for_each_filtered items 0 (snd (post s filtering_request)))
    as (r & ef & Hloop & Hposts & Hgood & Hbad).
  unfold advancedFiltering, pbind, call, plift, print, pret.
  rewrite Hrun. cbn -[nl for_each Z.of_nat]. rewrite Hdata.
  cbn -[nl for_each Z.of_nat]. rewrite Hloop.
  eexists _, _. split; [reflexivity|]. cbn [posts printed app].
  split; [now rewrite Hposts|]. split.
  - intros Hall. destruct (Hgood Hall) as (Hr & Hlen & Hnth).
    split; [exact Hr|]. split; [cbn [List.length]; lia|].
    intros k tx signature Hk Hsig.
    change (2 + 2 * k)%nat with (S (S (2 * k))). cbn [nth_error].
    exact (Hnth k tx signature Hk Hsig).
  - intros Hall. destruct (Hbad Hall) as (Hr & Hlen).
    split; [exact Hr|]. cbn [List.length]. lia.
Qed.

Lemma X27_seven_records_all_printed :
  (exists ef,
     advancedFiltering mock_post [serve_page seven_records] = (inr tt, [], ef) /\
     List.length (printed ef) = 16%nat /\
     nth_error (printed ef) 14 = Some [Val (JNum 7); Text ". "; Val (JStr "sig")]) /\
  (exists ef,
     advancedFiltering mock_post
       [serve_page {| records := [full_record JUndefined]; nextCursor := None |}]
       = (inr tt, [], ef) /\
     nth_error (printed ef) 2 = Some [Val (JNum 1); Text ". "; Val JUndefined]) /\
  exists what ef,
    advancedFiltering mock_post
      [serve_page {| records := [signature_record 1;
                                 JObj [("signature", JObj [("toString", JNum 1)])]];
                     nextCursor := None |}]
      = (inl (TypeError what), [], ef) /\
    (List.length (printed ef) < 6)%nat.
Proof.
  split; [|split].
  - destruct (X27_advanced_filtering_prints_every_record
                mock_post [serve_page seven_records] _ _ (records seven_records)
                eq_refl eq_refl eq_refl)
      as (r & ef & Hrun & _ & Hgood & _).
    destruct (Hgood eq_refl) as (-> & Hlen & Hnth).
    exists ef. split; [exact Hrun|]. split; [exact Hlen|].
    exact (Hnth 6%nat _ _ eq_refl eq_refl).
  - destruct (X27_advanced_filtering_prints_every_record
                mock_post
                [serve_page {| records := [full_record JUndefined]; nextCursor := None |}]
                _ _ [full_record JUndefined] eq_refl eq_refl eq_refl)
      as (r & ef & Hrun & _ & Hgood & _).
    destruct (Hgood eq_refl) as (-> & _ & Hnth).
    exists ef. split; [exact Hrun|].
    exact (Hnth 0%nat _ _ eq_refl eq_refl).
  - destruct (X27_advanced_filtering_prints_every_record
                mock_post
                [serve_page {| records := [signature_record 1;
                                           JObj [("signature",
                                                  JObj [("toString", JNum 1)])]];
                               nextCursor := None |}]
                _ _ [signature_record 1;
                     JObj [("signature", JObj [("toString", JNum 1)])]]
                eq_refl eq_refl eq_refl)
      as (r & ef & Hrun & _ & _ & Hbad).
    destruct (Hbad eq_refl) as ([what ->] & Hlen).
    exists what, ef. split; [exact Hrun|exact Hlen].
Defined.

(** ** The cache of API.md *)

Lemma cache_get_set (key other : string) (value : JsVal) (cache : Cache) :
  cache_get other (cache_set key value cache) =
    if String.eqb key other then Some value else cache_get other cache.
Proof.
  induction cache as [|[k v] rest IH]; cbn.
  - reflexivity.
  - destruct (String.eqb k key) eqn:Hk; cbn.
    + apply String.eqb_eq in Hk. subst k.
      destruct (String.eqb key other); reflexivity.
    + rewrite IH. destruct (String.eqb k other) eqn:Ho; [|reflexivity].
      apply String.eqb_eq in Ho. subst k. now rewrite String.eqb_sym, Hk.
Qed.

Section CachingFacts.

Context {St : Type}.
Variable stringify : Req.SearchParams -> string.
Variable search : Req.SearchParams -> M St JsVal.

Lemma searchWithCache_hit (params : Req.SearchParams) (now : Cache * St) (cached : JsVal) :
  cache_get (stringify params) (fst now) = Some cached ->
  searchWithCache stringify search params now = (inr cached, now, []).
Proof.
  intros Hhit. unfold searchWithCache, bind, get_state. cbn. now rewrite Hhit.
Qed.

Lemma searchWithCache_miss (params : Req.SearchParams) (now : Cache * St) :
  cache_get (stringify params) (fst now) = None ->
  searchWithCache stringify search params now =
    match search params (snd now) with
    | (inl e, s1, ev) => (inl e, (fst now, s1), ev)
    | (inr result, s1, ev) =>
        (inr result, (cache_set (stringify params) result (fst now), s1), ev)
    end.
Proof.
  intros Hmiss. unfold searchWithCache, bind, get_state, zoom, modify, ret.
  cbn. rewrite Hmiss. destruct (search params (snd now)) as [[[e|result] s1] ev]; cbn.
  - reflexivity.
  - now rewrite app_nil_r.
Qed.

(** What a call returns is in the cache after it. *)
Lemma searchWithCache_stores (params : Req.SearchParams) (now next : Cache * St)
  (result : JsVal) (ev : list Event) :
  searchWithCache stringify search params now = (inr result, next, ev) ->
  cache_get (stringify params) (fst next) = Some result.
Proof.
  intros Hrun. destruct (cache_get (stringify params) (fst now)) as [cached|] eqn:Hget.
  - rewrite (searchWithCache_hit params now cached Hget) in Hrun.
    injection Hrun as <- <- _. exact Hget.
  - rewrite (searchWithCache_miss params now Hget) in Hrun.
    destruct (search params (snd now)) as [[[e|found] s1] ev1]; [discriminate|].
    injection Hrun as <- <- _. cbn [fst]. rewrite cache_get_set.
    now rewrite String.eqb_refl.
Qed.

(** A call that nothing interrupts is the part up to [await] followed
    at once by the part after it. *)
Lemma searchWithCache_in_one_go (params : Req.SearchParams) (flights : list Flight)
  (now : Cache * St) :
  match searchWithCache_enter stringify search params (flights, now) with
  | (Some cached, next, ev) =>
      searchWithCache stringify search params now = (inr cached, snd next, ev) /\
      next = (flights, now)
  | (None, next, ev) =>
      exists r final,
        searchWithCache_resume (List.length flights) next = Some (r, (flights, final)) /\
        searchWithCache stringify search params now = (r, final, ev)
  end.
Proof.
  unfold searchWithCache_enter. cbn [fst snd].
  destruct (cache_get (stringify params) (fst now)) as [cached|] eqn:Hget.
  - split; [|reflexivity]. exact (searchWithCache_hit params now cached Hget).
  - rewrite (searchWithCache_miss params now Hget).
    destruct (search params (snd now)) as [[r s1] ev].
    unfold searchWithCache_resume. cbn [fst snd].
    rewrite nth_error_app2, Nat.sub_diag by lia. cbn [nth_error].
    rewrite firstn_app, Nat.sub_diag, firstn_all, app_nil_r.
    replace (skipn (S (List.length flights)) (flights ++ [(stringify params, r)]))
      with (@nil Flight)
      by (symmetry; apply skipn_all2; rewrite length_app; cbn; lia).
    rewrite app_nil_r.
    destruct r as [e|result]; eexists _, _; split; reflexivity.
Qed.

Lemma in_without {A : Type} (i : nat) (l : list A) (x : A) :
  In x (firstn i l ++ skipn (S i) l) -> In x l.
Proof.
  intros H. rewrite <- (firstn_skipn i l).
  apply in_app_or in H as [H|H]; apply in_or_app; [now left|right].
  clear - H. revert i H. induction l as [|y l IH]; intros [|i] H; cbn in *; auto.
Qed.

(** While no call with the key is in flight, no step changes the entry
    of the key, and no call with the key gets in flight. *)
Lemma moves_keep (now final : list Flight * (Cache * St)) (key : string) (cached : JsVal) :
  moves stringify search now final ->
  cache_get key (fst (snd now)) = Some cached ->
  (forall flight, In flight (fst now) -> fst flight <> key) ->
  cache_get key (fst (snd final)) = Some cached /\
  (forall flight, In flight (fst final) -> fst flight <> key).
Proof.
  induction 1 as [now
                 |now next final params back ev Henter _ IH
                 |now next final i r Hresume _ IH]; intros Hkey Hfree.
  - now split.
  - apply IH.
    + unfold searchWithCache_enter in Henter.
      destruct (cache_get (stringify params) (fst (snd now))); [now injection Henter as _ <- _|].
      destruct (search params (snd (snd now))) as [[r s1] ev1].
      injection Henter as _ <- _. exact Hkey.
    + unfold searchWithCache_enter in Henter.
      destruct (cache_get (stringify params) (fst (snd now))) eqn:Hget;
        [now injection Henter as _ <- _|].
      destruct (search params (snd (snd now))) as [[r s1] ev1].
      injection Henter as _ <- _. cbn [fst]. intros flight Hin.
      apply in_app_or in Hin as [Hin|[<-|[]]]; [now apply Hfree|].
      cbn [fst]. intros Hsame. rewrite Hsame, Hkey in Hget. discriminate.
  - unfold searchWithCache_resume in Hresume.
    destruct (nth_error (fst now) i) as [[k [e|result]]|] eqn:Hnth; [| |discriminate];
      injection Hresume as _ <-; apply IH; cbn [fst snd];
      try (intros flight Hin; apply Hfree; exact (in_without i _ _ Hin)).
    + exact Hkey.
    + rewrite cache_get_set.
      destruct (String.eqb k key) eqn:Hsame; [|exact Hkey].
      apply String.eqb_eq in Hsame. apply nth_error_In in Hnth.
      now destruct (Hfree _ Hnth).
Qed.

(** What a call returned is in the cache after that step. *)
Lemma returned_stored (key : string) (result : JsVal)
  (now next : list Flight * (Cache * St)) :
  returned stringify search key result now next ->
  cache_get key (fst (snd next)) = Some result.
Proof.
  intros [params now0 result0 Henter|i key0 result0 now0 next0 Hnth Hresume].
  - unfold searchWithCache_enter in Henter.
    destruct (cache_get (stringify params) (fst (snd now0))) as [cached|];
      [now injection Henter as ->|].
    destruct (search params (snd (snd now0))) as [[r s1] ev1]. discriminate.
  - unfold searchWithCache_resume in Hresume. rewrite Hnth in Hresume.
    injection Hresume as <-. cbn [fst snd]. rewrite cache_get_set.
    now rewrite String.eqb_refl.
Qed.

End CachingFacts.

(** X28: [searchWithCache] is suspended between its test of the cache
    and its write to it, so calls overlap.  A result that a call
    returned is served for ever when no other call with the same key is
    in flight at that moment: whatever calls are started and resumed
    after it, in any order, a call with params of the same JSON text
    returns that result at once, without calling [search] and without a
    change of the cache, and no call with that key gets in flight again.
    A call with the same key that is in flight at that moment has missed
    the cache before; when it is resumed with a result of its own it
    overwrites the entry, and that result is served from then on. *)
Theorem X28_cached_result_is_served_for_ever
  {St : Type} (stringify : Req.SearchParams -> string)
  (search : Req.SearchParams -> M St JsVal)
  (key : string) (result : JsVal) (again : Req.SearchParams)
  (now next : list Flight * (Cache * St)) :
  returned stringify search key result now next ->
  stringify again = key ->
  (forall final,
     (forall flight, In flight (fst next) -> fst flight <> key) ->
     moves stringify search next final ->
     searchWithCache_enter stringify search again final = (Some result, final, []) /\
     searchWithCache stringify search again (snd final) = (inr result, snd final, []) /\
     (forall flight, In flight (fst final) -> fst flight <> key)) /\
  (forall i other,
     nth_error (fst next) i = Some (key, inr other) ->
     exists after,
       searchWithCache_resume i next = Some (inr other, after) /\
       searchWithCache_enter stringify search again after = (Some other, after, []) /\
       searchWithCache stringify search again (snd after) = (inr other, snd after, [])).
Proof.
  intros Hreturned Hagain.
  assert (Hstored := returned_stored stringify search key result now next Hreturned).
  split.
  - intros final Hfree Hmoves.
    destruct (moves_keep stringify search next final key result Hmoves Hstored Hfree)
      as [Hkept Hfree'].
    split; [|split; [|exact Hfree']].
    + unfold searchWithCache_enter. now rewrite Hagain, Hkept.
    + apply searchWithCache_hit. now rewrite Hagain.
  - intros i other Hnth. unfold searchWithCache_resume. rewrite Hnth.
    eexists. split; [reflexivity|].
    assert (Hset : cache_get (stringify again)
                     (cache_set key other (fst (snd next))) = Some other)
      by (rewrite cache_get_set, Hagain; now rewrite String.eqb_refl).
    split.
    + unfold searchWithCache_enter. cbn [fst snd]. now rewrite Hset.
    + apply searchWithCache_hit. exact Hset.
Qed.

(** Two runs against three scripted answers.  In the first a query is
    fetched, then a limited query is started, the first query is asked
    again and the limited one is resumed: the first result is still the
    one served.  In the second the same query is started twice before
    either call is resumed: the first call returns the first answer, the
    second stores the second answer over it. *)
Lemma X28_overlapping_calls :
  exists first second,
    first <> second /\
    returned stringify_stub search_stub "{}" first
      ([("{}", inr first)], ([], [serve_page (one_record 2); serve_page (one_record 3)]))
      ([], ([("{}", first)], [serve_page (one_record 2); serve_page (one_record 3)])) /\
    moves stringify_stub search_stub
      ([], ([("{}", first)], [serve_page (one_record 2); serve_page (one_record 3)]))
      ([], ([("{}", first); ("{limit}", second)], [serve_page (one_record 3)])) /\
    searchWithCache stringify_stub search_stub Req.empty
      ([("{}", first); ("{limit}", second)], [serve_page (one_record 3)])
      = (inr first, ([("{}", first); ("{limit}", second)], [serve_page (one_record 3)]), []) /\
    returned stringify_stub search_stub "{}" first
      ([("{}", inr first); ("{}", inr second)], ([], [serve_page (one_record 3)]))
      ([("{}", inr second)], ([("{}", first)], [serve_page (one_record 3)])) /\
    searchWithCache stringify_stub search_stub Req.empty
      ([("{}", second)], [serve_page (one_record 3)])
      = (inr second, ([("{}", second)], [serve_page (one_record 3)]), []).
Proof.
  exists (page_result (one_record 1)), (page_result (one_record 2)).
  assert (Hfetched : returned stringify_stub search_stub "{}" (page_result (one_record 1))
            ([("{}", inr (page_result (one_record 1)))],
             ([], [serve_page (one_record 2); serve_page (one_record 3)]))
            ([], ([("{}", page_result (one_record 1))],
                  [serve_page (one_record 2); serve_page (one_record 3)])))
    by (apply (returned_fetched _ _ 0); reflexivity).
  assert (Hmoves : moves stringify_stub search_stub
            ([], ([("{}", page_result (one_record 1))],
                  [serve_page (one_record 2); serve_page (one_record 3)]))
            ([], ([("{}", page_result (one_record 1));
                   ("{limit}", page_result (one_record 2))],
                  [serve_page (one_record 3)]))).
  { apply moves_enter
      with (params := with_limit (Some 10) Req.empty) (back := None)
           (ev := [Post {| id := 1; params := with_limit (Some 10) Req.empty |}
                        (serve_page (one_record 2)
                           {| id := 1; params := with_limit (Some 10) Req.empty |})])
           (next := ([("{limit}", inr (page_result (one_record 2)))],
                     ([("{}", page_result (one_record 1))], [serve_page (one_record 3)])));
      [reflexivity|].
    apply moves_enter
      with (params := Req.empty) (back := Some (page_result (one_record 1)))
           (ev := [])
           (next := ([("{limit}", inr (page_result (one_record 2)))],
                     ([("{}", page_result (one_record 1))], [serve_page (one_record 3)])));
      [reflexivity|].
    apply moves_resume
      with (i := 0%nat) (r := inr (page_result (one_record 2)))
           (next := ([], ([("{}", page_result (one_record 1));
                           ("{limit}", page_result (one_record 2))],
                          [serve_page (one_record 3)])));
      [reflexivity|].
    apply moves_none. }
  assert (Hoverlap : returned stringify_stub search_stub "{}" (page_result (one_record 1))
            ([("{}", inr (page_result (one_record 1)));
              ("{}", inr (page_result (one_record 2)))],
             ([], [serve_page (one_record 3)]))
            ([("{}", inr (page_result (one_record 2)))],
             ([("{}", page_result (one_record 1))], [serve_page (one_record 3)])))
    by (apply (returned_fetched _ _ 0); reflexivity).
  split; [discriminate|]. split; [exact Hfetched|]. split; [exact Hmoves|].
  destruct (X28_cached_result_is_served_for_ever
              stringify_stub search_stub "{}" _ Req.empty _ _ Hfetched eq_refl)
    as [Hserved _].
  destruct (Hserved _ (fun flight (Hin : In flight []) => match Hin with end) Hmoves)
    as (_ & Hagain & _).
  split; [exact Hagain|]. split; [exact Hoverlap|].
  destruct (X28_cached_result_is_served_for_ever
              stringify_stub search_stub "{}" _ Req.empty _ _ Hoverlap eq_refl)
    as [_ Hoverwritten].
  destruct (Hoverwritten 0%nat (page_result (one_record 2)) eq_refl)
    as (after & Hresume & _ & Hserved2).
  injection Hresume as <-. exact Hserved2.
Defined.

(** X29: a failure is not cached.  When [search] throws for params that
    are not in the cache, [searchWithCache] throws the same error and
    leaves the cache as it was, so the next call with these params calls
    [search] again, and stores the result if there is one. *)
Theorem X29_failure_is_not_cached
  {St : Type} (stringify : Req.SearchParams -> string)
  (search : Req.SearchParams -> M St JsVal)
  (params : Req.SearchParams) (cache : Cache) (s s1 : St)
  (e : JsError) (ev : list Event) :
  cache_get (stringify params) cache = None ->
  search params s = (inl e, s1, ev) ->
  searchWithCache stringify search params (cache, s) = (inl e, (cache, s1), ev) /\
  fst (fst (searchWithCache stringify search params (cache, s1)))
    = fst (fst (search params s1)) /\
  snd (searchWithCache stringify search params (cache, s1)) = snd (search params s1) /\
  forall result next ev2,
    searchWithCache stringify search params (cache, s1) = (inr result, next, ev2) ->
    cache_get (stringify params) (fst next) = Some result.
Proof.
  intros Hmiss Hfail.
  assert (Hrun := searchWithCache_miss stringify search params (cache, s) Hmiss).
  assert (Hagain := searchWithCache_miss stringify search params (cache, s1) Hmiss).
  cbn [fst snd] in Hrun, Hagain. rewrite Hfail in Hrun.
  split; [exact Hrun|]. rewrite Hagain.
  split; [now destruct (search params s1) as [[[e2|found] s2] ev2]|].
  split; [now destruct (search params s1) as [[[e2|found] s2] ev2]|].
  intros result next ev2 Hok. rewrite <- Hagain in Hok.
  exact (searchWithCache_stores stringify search params _ _ _ _ Hok).
Qed.

Lemma X29_rate_limited_query_is_asked_again :
  exists e ev result ev2,
    searchWithCache stringify_stub search_stub Req.empty
      ([], [serve_error 429 "Rate limit exceeded"; serve_page seven_records])
      = (inl e, ([], [serve_page seven_records]), ev) /\
    searchWithCache stringify_stub search_stub Req.empty
      ([], [serve_page seven_records])
      = (inr result, ([("{}", result)], []), ev2) /\
    List.length (exchanges ev2) = 1%nat.
Proof.
  destruct (X29_failure_is_not_cached stringify_stub search_stub Req.empty []
              [serve_error 429 "Rate limit exceeded"; serve_page seven_records]
              [serve_page seven_records] (ErrorOf (JStr "Rate limit exceeded")) _
              eq_refl eq_refl) as (Hrun & _).
  eexists _, _, _, _. split; [exact Hrun|]. split; reflexivity.
Defined.
